(** * Complexity-aware E2E validation and MCP graceful degradation

    A shallow embedding of the validation subsystem of Auto-Claude
    ([auto-claude/integrations/mcp]) together with the properties its
    specification states about it.

    Conventions of the embedding.
    - Python [str] is [string] (a byte string, UTF-8 for the few
      non-ASCII literals of the source).
    - Python [int] is [Z]; a [datetime] is a number of microseconds since
      the epoch and a [timedelta] a number of microseconds, both [Z].
    - The tier map, a [dict] that is copied and updated, is a
      [gmap string _]; a [set] of strings is a [gset string]; a [dict]
      written as a literal and handed on as a record is the list of its
      items; a [list] is a list.
    - Code that talks to the outside (an automation client, the client
      factory, the clock, the file system, a child process) runs in the monad
      [M]: it threads a [World], the history of every interaction so far,
      and ends by returning a value or raising an exception.  What the
      outside answers is given by an environment [Env], a function of that
      history.
    - Calls to [logger] have no influence on any value computed and are left
      out. *)

From Stdlib Require Import ZArith String Ascii List Bool Lia.
From stdpp Require Import base option list gmap strings.

Local Open Scope string_scope.
Local Open Scope list_scope.
Local Open Scope Z_scope.

(** ** Python values, exceptions *)

(** The dynamically typed values an MCP call can answer with. *)
#[local] Set Warnings "-register-all".
Inductive PyVal : Type :=
  | VNone
  | VBool (b : bool)
  | VInt (z : Z)
  | VStr (s : string)
  | VList (l : list PyVal)
  | VDict (d : list (string * PyVal)).

(** Truth value of a Python object, as tested by [if v:]. *)
Definition truthy (v : PyVal) : bool :=
  match v with
  | VNone => false
  | VBool b => b
  | VInt z => negb (z =? 0)
  | VStr s => negb (String.eqb s "")
  | VList l => match l with [] => false | _ => true end
  | VDict d => match d with [] => false | _ => true end
  end.

(** The exception classes the source names, and one for every other
    subclass of [Exception]. *)
Inductive ExcClass : Type :=
  | TimeoutError
  | PermissionError
  | FileNotFoundError
  | ValueError
  | AssertionError
  | RuntimeError
  | TypeError
  | OtherException.

(** An exception object; [exc_msg e] is [str(e)]. *)
Record exn : Type := Exn { exc_class : ExcClass; exc_msg : string }.

Inductive Outcome (A : Type) : Type :=
  | Returns (a : A)
  | Raises (e : exn).
Arguments Returns {A} a.
Arguments Raises {A} e.

(** Library functions of Python the source calls and this development does
    not re-implement: [str.lower], [fnmatch.fnmatch] and [str()] on a
    value. *)
Class PyBuiltins : Type := {
  str_lower : string -> string;
  fnmatch : string -> string -> bool;
  py_str : PyVal -> string
}.

(** The line feed, [chr(10)]. *)
Definition nl : string := String (ascii_of_nat 10) EmptyString.
(** The double quote, [chr(34)]. *)
Definition dq : string := String (ascii_of_nat 34) EmptyString.

(** A [dict] written as a literal and passed around as a value (a failure
    record, the record of a test run): its items in insertion order. *)
Definition PyDict : Type := list (string * PyVal).

(** [d.get(k, dflt)] *)
Fixpoint dict_get (d : PyDict) (k : string) (dflt : PyVal) : PyVal :=
  match d with
  | [] => dflt
  | (k', v) :: d' => if String.eqb k' k then v else dict_get d' k dflt
  end.

(** [d[k] = v]: the value of an existing key is replaced where it stands, a
    new key goes last. *)
Fixpoint dict_set (d : PyDict) (k : string) (v : PyVal) : PyDict :=
  match d with
  | [] => [(k, v)]
  | (k', v') :: d' =>
      if String.eqb k' k then (k, v) :: d' else (k', v') :: dict_set d' k v
  end.

(** ** models.py *)

(** [ActionType] is a [Literal] of strings: an action is its tag. *)
Definition ActionType : Type := string.

Record E2ETestStep : Type := {
  action : ActionType;
  selector : option string;
  value : option string;
  expected : option string;
  timeout : option Z;
  position : option PyDict
}.

Record E2ETestCase : Type := {
  tc_id : string;
  tc_name : string;
  tc_description : string;
  steps : list E2ETestStep;
  skip : bool;
  critical : bool
}.

Record E2ETestSuite : Type := {
  suite_name : string;
  suite_description : string;
  app_url : string;
  test_cases : list E2ETestCase
}.

(** ** browser.py: the result record *)

Record E2EValidationResult : Type := {
  passed : bool;
  total_checks : Z;
  passed_checks : Z;
  failed_checks : Z;
  failures : list PyDict;
  screenshots : list string;
  duration : Z;
  raw_output : string
}.

(** The dataclass constructor with the defaults of the optional fields. *)
Definition mkE2EValidationResult (p : bool) (total npassed nfailed : Z)
    (fs : list PyDict) (out : string) : E2EValidationResult :=
  {| passed := p; total_checks := total; passed_checks := npassed;
     failed_checks := nfailed; failures := fs; screenshots := [];
     duration := 0; raw_output := out |}.

(** ** validation_depth.py *)

Inductive ValidationDepth : Type := SMOKE | FEATURE | FULL.

#[global] Instance ValidationDepth_eq_dec : EqDecision ValidationDepth.
Proof. solve_decision. Defined.

(** [ValidationDepth.value] *)
Definition depth_value (d : ValidationDepth) : string :=
  match d with SMOKE => "smoke" | FEATURE => "feature" | FULL => "full" end.

Record ValidationDepthConfig : Type := {
  simple_depth : ValidationDepth;
  standard_depth : ValidationDepth;
  complex_depth : ValidationDepth;
  force_depth : option ValidationDepth;
  smoke_timeout : Z;
  feature_timeout : Z;
  full_timeout : Z
}.

(** [ValidationDepthConfig()] *)
Definition default_ValidationDepthConfig : ValidationDepthConfig :=
  {| simple_depth := SMOKE; standard_depth := FEATURE; complex_depth := FULL;
     force_depth := None;
     smoke_timeout := 60; feature_timeout := 300; full_timeout := 1800 |}.

Definition DEFAULT_TIER_MAP : gmap string ValidationDepth :=
  <["enterprise" := FULL]> (<["method" := FEATURE]> (<["quick-flow" := SMOKE]>
  (<["complex" := FULL]> (<["standard" := FEATURE]> (<["simple" := SMOKE]> ∅))))).

(** The tier map after the assignments of the [if config:] block. *)
Definition apply_config_overrides (config : ValidationDepthConfig)
    (tier_map : gmap string ValidationDepth) : gmap string ValidationDepth :=
  let tier_map := <["simple" := simple_depth config]> tier_map in
  let tier_map := <["quick-flow" := simple_depth config]> tier_map in
  let tier_map := <["standard" := standard_depth config]> tier_map in
  let tier_map := <["method" := standard_depth config]> tier_map in
  let tier_map := <["complex" := complex_depth config]> tier_map in
  <["enterprise" := complex_depth config]> tier_map.

(** The map that [get_validation_depth_for_tier] consults when no depth is
    forced. *)
Definition tier_map_for (config : option ValidationDepthConfig)
    : gmap string ValidationDepth :=
  match config with
  | Some c => apply_config_overrides c DEFAULT_TIER_MAP
  | None => DEFAULT_TIER_MAP
  end.

(** [config and config.force_depth]: a dataclass instance and an enum member
    are both true objects, so the test succeeds exactly when a configuration
    is given and its [force_depth] is not [None]. *)
Definition forced_depth (config : option ValidationDepthConfig)
    : option ValidationDepth :=
  match config with
  | Some c => force_depth c
  | None => None
  end.

Definition get_validation_depth_for_tier {py : PyBuiltins} (tier : string)
    (config : option ValidationDepthConfig) : ValidationDepth :=
  match forced_depth config with
  | Some d => d
  | None => default FEATURE (tier_map_for config !! str_lower tier)
  end.

Definition get_timeout_for_depth (depth : ValidationDepth)
    (config : option ValidationDepthConfig) : Z :=
  let config := default default_ValidationDepthConfig config in
  match depth with
  | SMOKE => smoke_timeout config
  | FEATURE => feature_timeout config
  | FULL => full_timeout config
  end.

(** ** feature_tests.py *)

Record FeatureMapping : Type := {
  feature_name : string;
  code_paths : list string;
  test_ids : list string
}.

(** The loop over [mapping.code_paths] with its [break]: the feature is
    added once, at the first pattern the file matches. *)
Definition matches_mapping {py : PyBuiltins} (file_str : string)
    (mapping : FeatureMapping) : bool :=
  existsb (fnmatch file_str) (code_paths mapping).

(** The set [affected] once both loops have run. *)
Definition affected_set {py : PyBuiltins} (changed_files : list string)
    (feature_mappings : list FeatureMapping) : gset string :=
  fold_left (fun affected file_str =>
    fold_left (fun affected mapping =>
      if matches_mapping file_str mapping
      then affected ∪ {[ feature_name mapping ]}
      else affected) feature_mappings affected) changed_files ∅.

(** [list(affected)]: the elements in the order the set enumerates them. *)
Definition get_affected_features {py : PyBuiltins} (changed_files : list string)
    (feature_mappings : list FeatureMapping) : list string :=
  elements (affected_set changed_files feature_mappings).

(** The set [relevant_test_ids] once both loops have run. *)
Definition relevant_test_ids (affected_features : list string)
    (feature_mappings : list FeatureMapping) : gset string :=
  fold_left (fun relevant feature =>
    fold_left (fun relevant mapping =>
      if String.eqb (feature_name mapping) feature
      then relevant ∪ list_to_set (test_ids mapping)
      else relevant) feature_mappings relevant) affected_features ∅.

Definition filter_tests_by_features (full_suite : E2ETestSuite)
    (affected_features : list string)
    (feature_mappings : list FeatureMapping) : E2ETestSuite :=
  let relevant := relevant_test_ids affected_features feature_mappings in
  let filtered_cases :=
    filter (fun tc => tc_id tc ∈ relevant) (test_cases full_suite) in
  let critical_tests :=
    filter (fun tc => critical tc = true ∧ tc_id tc ∉ relevant)
           (test_cases full_suite) in
  let filtered_cases := filtered_cases ++ critical_tests in
  {| suite_name := suite_name full_suite +:+ "-filtered";
     suite_description :=
       "Filtered suite for features: " +:+ String.concat ", " affected_features;
     app_url := app_url full_suite;
     test_cases := filtered_cases |}.

(** ** full_suite.py *)

Record FullSuiteConfig : Type := {
  parallel_workers : Z;
  cross_browser : bool;
  cross_platform : bool;
  browsers : list string
}.

(** [FullSuiteConfig()] *)
Definition default_FullSuiteConfig : FullSuiteConfig :=
  {| parallel_workers := 4; cross_browser := true; cross_platform := false;
     browsers := ["chromium"] |}.

(** The test case appended for one browser: the body of the inner loop. *)
Definition browser_copy (tc : E2ETestCase) (browser : string) : E2ETestCase :=
  {| tc_id := tc_id tc +:+ "-" +:+ browser;
     tc_name := tc_name tc +:+ " (" +:+ browser +:+ ")";
     tc_description := tc_description tc;
     steps := steps tc;
     skip := skip tc;
     critical := critical tc |}.

(** Two nested loops appending to [expanded]. *)
Definition expand_test_cases_for_browsers (test_cases : list E2ETestCase)
    (browsers : list string) : list E2ETestCase :=
  fold_left (fun expanded tc =>
    fold_left (fun expanded browser => expanded ++ [browser_copy tc browser])
              browsers expanded) test_cases [].

(** [aggregate_results] *)
Definition aggregate_results (results : list E2EValidationResult)
    : E2EValidationResult :=
  match results with
  | [] => mkE2EValidationResult true 0 0 0 [] ""
  | _ =>
      let total := foldr Z.add 0 (map total_checks results) in
      let npassed := foldr Z.add 0 (map passed_checks results) in
      let nfailed := foldr Z.add 0 (map failed_checks results) in
      let all_failures := concat (map failures results) in
      mkE2EValidationResult (nfailed =? 0) total npassed nfailed all_failures ""
  end.

(** ** The outside world *)

(** [str | Path]: the two kinds of target [run_smoke_tests] accepts. *)
Inductive StrOrPath : Type :=
  | IsStr (s : string)
  | IsPath (p : string).

(** The capability set of an automation client: one constructor per method
    the validation code awaits, with the arguments of the call. *)
Module Client.
Inductive Op : Type :=
  | connect
  | launch_app (target : StrOrPath)
  | click (selector : string)
  | type_text (selector text : string)
  | wait (timeout : Z)
  | wait_for_selector (selector : string) (timeout : option Z)
  | select (selector value : string)
  | check (selector : string) (checked : bool)
  | submit (selector : string)
  | assert_visible (selector : string)
  | assert_text (selector expected : string)
  | assert_position (selector : string) (expected : PyDict)
  | get_dom_snapshot
  | _mcp_call (method : string) (params : PyDict)
  | close.

(** The result type the method is declared with. *)
Definition RetTy (op : Op) : Type :=
  match op with
  | close => unit
  | get_dom_snapshot => string
  | _mcp_call _ _ => PyVal
  | _ => bool
  end.

Definition is_connect (op : Op) : bool :=
  match op with connect => true | _ => false end.

Definition is_close (op : Op) : bool :=
  match op with close => true | _ => false end.
End Client.

(** Where a client object comes from. *)
Inductive ClientKind : Type :=
  | BrowserMCPClient     (* [BrowserMCPClient()] *)
  | ElectronMCPClient    (* [ElectronMCPClient()] *)
  | FromFactory.         (* [client_factory()] *)

#[global] Instance ClientKind_eq_dec : EqDecision ClientKind.
Proof. solve_decision. Defined.

(** One interaction with the outside. *)
Inductive Event : Type :=
  | EvNow                                   (* [datetime.now()] *)
  | EvNew (kind : ClientKind) (id : nat)    (* a client object is created *)
  | EvCall (id : nat) (op : Client.Op)      (* a method of client [id] is awaited *)
  | EvExists (path : string)                (* [(project_path / path).exists()] *)
  | EvRun (cmd : list string)               (* [subprocess.run(cmd, cwd=project_path)] *)
  | EvLoad (file : string).                 (* a configuration loader runs *)

(** The history of interactions, oldest first. *)
Definition World : Type := list Event.

Definition is_new (e : Event) : bool :=
  match e with EvNew _ _ => true | _ => false end.

Definition is_connect_call (e : Event) : bool :=
  match e with EvCall _ op => Client.is_connect op | _ => false end.

Definition is_close_call (e : Event) : bool :=
  match e with EvCall _ op => Client.is_close op | _ => false end.

(** Number of events of the history that satisfy [p]. *)
Definition count_events (p : Event -> bool) (w : World) : nat :=
  length (List.filter p w).

(** The computations of the embedding: from the history so far to the
    history afterwards and a result. *)
Definition M (A : Type) : Type := World -> World * Outcome A.

Definition ret {A} (a : A) : M A := fun w => (w, Returns a).

Definition raise {A} (e : exn) : M A := fun w => (w, Raises e).

Definition bind {A B} (m : M A) (k : A -> M B) : M B :=
  fun w =>
    match m w with
    | (w', Returns a) => k a w'
    | (w', Raises e) => (w', Raises e)
    end.

#[global] Instance M_ret : MRet M := @ret.
#[global] Instance M_bind : MBind M := fun A B k m => bind m k.

(** [try: m  except Exception as e: ...] seen from outside: [m] is run and
    the way it ended becomes a value. *)
Definition attempt {A} (m : M A) : M (Outcome A) :=
  fun w => let '(w', o) := m w in (w', Returns o).

(** [try: m  finally: fin].  The [finally] block runs however [m] ended; an
    exception it raises replaces the outcome of [m]. *)
Definition try_finally {A} (m : M A) (fin : M unit) : M A :=
  fun w =>
    let '(w1, o) := m w in
    match fin w1 with
    | (w2, Returns _) => (w2, o)
    | (w2, Raises e) => (w2, Raises e)
    end.

(** ** availability.py and fallback.py: the data *)

Inductive MCPStatus : Type := AVAILABLE | UNAVAILABLE | DEGRADED | UNKNOWN_STATUS.

Inductive MCPFailureReason : Type :=
  | SERVER_NOT_RUNNING
  | CONNECTION_TIMEOUT
  | AUTH_FAILED
  | VERSION_MISMATCH
  | PERMISSION_DENIED
  | UNKNOWN.

#[global] Instance MCPFailureReason_eq_dec : EqDecision MCPFailureReason.
Proof. solve_decision. Defined.

Record MCPAvailability : Type := {
  status : MCPStatus;
  reason : option MCPFailureReason;
  message : string;
  checked_at : Z;
  retry_after : option Z
}.

Definition is_available (a : MCPAvailability) : bool :=
  match status a with AVAILABLE => true | _ => false end.

Inductive FallbackMode : Type := FAIL | WARN | SKIP | REDUCED.

#[global] Instance FallbackMode_eq_dec : EqDecision FallbackMode.
Proof. solve_decision. Defined.

Record FallbackConfig : Type := {
  mode : FallbackMode;
  run_unit_tests : bool;
  run_lint : bool;
  mark_as_partial : bool
}.

(** [FallbackConfig()] *)
Definition default_FallbackConfig : FallbackConfig :=
  {| mode := WARN; run_unit_tests := true; run_lint := true;
     mark_as_partial := true |}.

Record FallbackResult : Type := {
  used_fallback : bool;
  fb_reason : string;
  validation_run : string;
  unit_tests_passed : option bool;
  lint_passed : option bool
}.

(** ** What the outside answers *)

(** Every answer is a function of the history before the interaction.  A
    method of a client, the client factory and the launch of a child process
    may raise instead of returning.  [client_answer] gives what a method of
    a client obtained from the factory (or passed in by the caller) answers;
    of the clients the availability checker creates itself it gives the
    answers of [_mcp_call] only.  The three configuration loaders
    ([load_validation_config], [load_feature_mappings],
    [load_fallback_config]) read a JSON file of the project; what they return
    is part of the environment. *)
Record Env : Type := {
  clock : World -> Z;
  client_answer : World -> nat -> forall op : Client.Op, Outcome (Client.RetTy op);
  factory_answer : World -> Outcome unit;
  path_exists : World -> string -> bool;
  subprocess_returncode : World -> list string -> Outcome Z;
  validation_config_file : World -> Outcome ValidationDepthConfig;
  feature_mappings_file : World -> Outcome (list FeatureMapping);
  fallback_config_file : World -> Outcome FallbackConfig
}.

Section Interactions.
Context (env : Env).

(** [datetime.now()] *)
Definition now : M Z :=
  fun w => (w ++ [EvNow], Returns (clock env w)).

(** A new client object; clients are numbered in the order of creation. *)
Definition new_client (kind : ClientKind) : M nat :=
  fun w => let id := count_events is_new w in
           (w ++ [EvNew kind id], Returns id).

(** [client_factory()] *)
Definition client_factory : M nat :=
  fun w =>
    match factory_answer env w with
    | Returns _ => new_client FromFactory w
    | Raises e => (w, Raises e)
    end.

(** [await client.op(...)] *)
Definition call (client : nat) (op : Client.Op) : M (Client.RetTy op) :=
  fun w => (w ++ [EvCall client op], client_answer env w client op).

(** [(project_path / path).exists()] *)
Definition exists_ (path : string) : M bool :=
  fun w => (w ++ [EvExists path], Returns (path_exists env w path)).

(** [subprocess.run(cmd, cwd=project_path, capture_output=True).returncode] *)
Definition subprocess_run (cmd : list string) : M Z :=
  fun w => (w ++ [EvRun cmd], subprocess_returncode env w cmd).

Definition load_validation_config : M ValidationDepthConfig :=
  fun w => (w ++ [EvLoad ".auto-claude/validation-config.json"],
            validation_config_file env w).

Definition load_feature_mappings : M (list FeatureMapping) :=
  fun w => (w ++ [EvLoad ".auto-claude/feature-mappings.json"],
            feature_mappings_file env w).

Definition load_fallback_config : M FallbackConfig :=
  fun w => (w ++ [EvLoad ".auto-claude/mcp-fallback.json"],
            fallback_config_file env w).
End Interactions.

(** ** validation.py *)

(** [s if s else None] for an optional string: [None] and the empty string
    are both false. *)
Definition nonempty (o : option string) : option string :=
  match o with
  | Some s => if String.eqb s "" then None else Some s
  | None => None
  end.

Definition opt_str (o : option string) : PyVal :=
  match o with Some s => VStr s | None => VNone end.

(** A string holds the UTF-8 encoding of a Python [str], whose elements are
    code points.  A byte [10xxxxxx] continues the code point that the byte
    before it belongs to; every other byte begins one. *)
Definition is_continuation (a : ascii) : bool :=
  let n := nat_of_ascii a in (128 <=? n)%nat && (n <? 192)%nat.

(** [len(s)]: the number of code points. *)
Fixpoint count_code_points (s : string) : nat :=
  match s with
  | EmptyString => 0%nat
  | String a s' =>
      if is_continuation a then count_code_points s'
      else S (count_code_points s')
  end.

(** [s[:n]]: the first [n] code points. *)
Fixpoint take_code_points (n : nat) (s : string) : string :=
  match s with
  | EmptyString => EmptyString
  | String a s' =>
      if is_continuation a then String a (take_code_points n s')
      else match n with
           | O => EmptyString
           | S n' => String a (take_code_points n' s')
           end
  end.

(** [list(s)]: the code points of the string, each as a string. *)
Fixpoint code_points (s : string) : list string :=
  match s with
  | EmptyString => []
  | String a s' =>
      let continued :=
        match s' with
        | String b _ => is_continuation b
        | EmptyString => false
        end in
      match code_points s' with
      | c :: rest =>
          if continued then String a c :: rest
          else String a EmptyString :: c :: rest
      | [] => [String a EmptyString]
      end
  end.

(** [history[-1][k] = v] *)
Fixpoint set_last (history : list PyDict) (k : string) (v : PyVal)
    : list PyDict :=
  match history with
  | [] => []
  | [d] => [dict_set d k v]
  | d :: rest => d :: set_last rest k v
  end.

Section Validation.
Context (env : Env) {py : PyBuiltins}.

Definition execute_step (client : nat) (step : E2ETestStep) : M unit :=
  let a := action step in
  if String.eqb a "click" then
    match nonempty (selector step) with
    | Some sel => call env client (Client.click sel) ;; ret tt
    | None => raise (Exn ValueError "Click action requires selector")
    end
  else if String.eqb a "type" then
    match nonempty (selector step), nonempty (value step) with
    | Some sel, Some v => call env client (Client.type_text sel v) ;; ret tt
    | _, _ => raise (Exn ValueError "Type action requires selector and value")
    end
  else if String.eqb a "navigate" then
    match nonempty (value step) with
    | Some v => call env client (Client.launch_app (IsStr v)) ;; ret tt
    | None => raise (Exn ValueError "Navigate action requires URL in value")
    end
  else if String.eqb a "wait" then
    let t := match timeout step with
             | Some t => if t =? 0 then 1000 else t
             | None => 1000
             end in
    call env client (Client.wait t) ;; ret tt
  else if String.eqb a "wait_for_selector" then
    match nonempty (selector step) with
    | Some sel =>
        call env client (Client.wait_for_selector sel (timeout step)) ;; ret tt
    | None => raise (Exn ValueError "Wait for selector requires selector")
    end
  else if String.eqb a "select" then
    match nonempty (selector step), nonempty (value step) with
    | Some sel, Some v => call env client (Client.select sel v) ;; ret tt
    | _, _ =>
        raise (Exn ValueError "Select action requires selector and value")
    end
  else if String.eqb a "check" then
    match nonempty (selector step) with
    | Some sel =>
        let checked := match nonempty (value step) with
                       | Some v => negb (String.eqb v "false")
                       | None => true
                       end in
        call env client (Client.check sel checked) ;; ret tt
    | None => raise (Exn ValueError "Check action requires selector")
    end
  else if String.eqb a "submit" then
    match nonempty (selector step) with
    | Some sel => call env client (Client.submit sel) ;; ret tt
    | None => raise (Exn ValueError "Submit action requires selector")
    end
  else if String.eqb a "assert_visible" then
    match nonempty (selector step) with
    | Some sel =>
        is_visible ← call env client (Client.assert_visible sel);
        if is_visible : bool then ret tt
        else raise (Exn AssertionError ("Element not visible: " +:+ sel))
    | None => raise (Exn ValueError "Assert visible requires selector")
    end
  else if String.eqb a "assert_text" then
    match nonempty (selector step), nonempty (expected step) with
    | Some sel, Some e =>
        matches ← call env client (Client.assert_text sel e);
        if matches : bool then ret tt
        else raise (Exn AssertionError
               ("Element " +:+ sel +:+ " does not contain text: " +:+ e))
    | _, _ =>
        raise (Exn ValueError "Assert text requires selector and expected text")
    end
  else if String.eqb a "assert_position" then
    match nonempty (selector step), position step with
    | Some sel, Some (item :: items) =>
        let pos := item :: items in
        matches ← call env client (Client.assert_position sel pos);
        if matches : bool then ret tt
        else raise (Exn AssertionError
               ("Element " +:+ sel +:+ " position does not match expected: "
                +:+ py_str (VDict pos)))
    | _, _ =>
        raise (Exn ValueError "Assert position requires selector and position")
    end
  else raise (Exn ValueError ("Unknown action type: " +:+ a)).

(** The record appended to [interaction_history] before step [i] runs. *)
Definition executing_record (i : Z) (step : E2ETestStep) : PyDict :=
  [("step", VInt (i + 1)); ("action", VStr (action step));
   ("selector", opt_str (selector step)); ("value", opt_str (value step));
   ("status", VStr "executing")].

(** The loop over [enumerate(test_case.steps)] from index [i] on.  It ends
    with the interaction history and, when a step raised, the exception
    that left the loop. *)
Fixpoint run_steps (client : nat) (i : Z) (todo : list E2ETestStep)
    (history : list PyDict) : M (list PyDict * option exn) :=
  match todo with
  | [] => ret (history, None)
  | step :: rest =>
      let history := history ++ [executing_record i step] in
      r ← attempt (execute_step client step);
      match r with
      | Returns _ =>
          run_steps client (i + 1) rest
            (set_last history "status" (VStr "completed"))
      | Raises e => ret (history, Some e)
      end
  end.

Definition run_test_case (client : nat) (test_case : E2ETestCase) : M PyDict :=
  if skip test_case then
    ret [("id", VStr (tc_id test_case)); ("name", VStr (tc_name test_case));
         ("passed", VBool true); ("skipped", VBool true); ("error", VNone);
         ("interaction_history", VList [])]
  else
    r ← run_steps client 0 (steps test_case) [];
    let '(interaction_history, failure) := r in
    match failure with
    | None =>
        ret [("id", VStr (tc_id test_case)); ("name", VStr (tc_name test_case));
             ("passed", VBool true); ("error", VNone);
             ("interaction_history", VList (map VDict interaction_history))]
    | Some e =>
        let interaction_history :=
          set_last (set_last interaction_history "status" (VStr "failed"))
                   "error" (VStr (exc_msg e)) in
        snap ← attempt (call env client Client.get_dom_snapshot);
        let dom_snapshot : string :=
          match snap with Returns s => s | Raises _ => "" end in
        ret [("id", VStr (tc_id test_case)); ("name", VStr (tc_name test_case));
             ("passed", VBool false); ("error", VStr (exc_msg e));
             ("interaction_history", VList (map VDict interaction_history));
             ("dom_snapshot",
              if String.eqb dom_snapshot "" then VNone
              else VStr (take_code_points (Z.to_nat 10000) dom_snapshot))]
    end.
End Validation.

(** ** smoke_tests.py *)

Record SmokeTestResult : Type := {
  app_loads : bool;
  main_page_renders : bool;
  no_console_errors : bool;
  health_check_passed : bool;
  errors : list string
}.

(** [s.rstrip("/")] *)
Fixpoint rstrip_slash (s : string) : string :=
  match s with
  | EmptyString => EmptyString
  | String a s' =>
      let r := rstrip_slash s' in
      if String.eqb r "" && Ascii.eqb a "/"%char then EmptyString
      else String a r
  end.

(** The characters of a string, each as a string: what iterating over a
    [str] yields. *)
Definition chars (s : string) : list PyVal := VStr <$> code_points s.

(** [v[:5]]: defined on strings and lists; on the other values the slice
    raises. *)
Definition first_five (v : PyVal) : option (list PyVal) :=
  match v with
  | VStr s => Some (take 5 (chars s))
  | VList l => Some (take 5 l)
  | _ => None
  end.

(** [status == 200] *)
Definition is_200 (v : PyVal) : bool :=
  match v with
  | VInt z => z =? 200
  | _ => false
  end.

Definition root_selectors : list string :=
  ["body"; "#root"; "#app"; "[data-testid='app']"; "main"].

Section Smoke.
Context (env : Env) {py : PyBuiltins}.

(** The loop over the root selectors: a selector whose check raises is
    skipped, the first visible one ends the loop. *)
Fixpoint first_visible (client : nat) (selectors : list string) : M bool :=
  match selectors with
  | [] => ret false
  | sel :: rest =>
      r ← attempt (call env client (Client.assert_visible sel));
      match r with
      | Returns true => ret true
      | _ => first_visible client rest
      end
  end.

Definition run_smoke_tests (client : nat) (app_url_or_path : StrOrPath)
    : M SmokeTestResult :=
  let errors : list string := [] in
  (* Test 1: App loads *)
  r1 ← attempt (call env client (Client.launch_app app_url_or_path));
  let '(app_loads, errors) :=
    match r1 with
    | Returns true => (true, errors)
    | Returns false => (false, errors ++ ["App failed to load"])
    | Raises e => (false, errors ++ ["App failed to load: " +:+ exc_msg e])
    end in
  (* Test 2: Main page renders *)
  r2 ← (if app_loads
        then r ← attempt (first_visible client root_selectors); ret (Some r)
        else ret None);
  let '(main_page_renders, errors) :=
    match r2 with
    | None => (false, errors)
    | Some (Returns true) => (true, errors)
    | Some (Returns false) =>
        (false, errors ++ ["Main page did not render expected elements"])
    | Some (Raises e) =>
        (false, errors ++ ["Main page render check failed: " +:+ exc_msg e])
    end in
  (* Test 3: No console errors *)
  r3 ← attempt (call env client (Client._mcp_call "getConsoleErrors" []));
  let '(no_console_errors, errors) :=
    match r3 with
    | Returns console_errors =>
        if truthy console_errors then
          (false,
           errors ++ match first_five console_errors with
                     | Some items =>
                         map (fun error => "Console error: " +:+ py_str error)
                             items
                     | None => []
                     end)
        else (true, errors)
    | Raises _ => (true, errors)
    end in
  (* Test 4: Health check (optional) *)
  health_check_passed ←
    match app_url_or_path with
    | IsStr url =>
        if String.prefix "http" url then
          let base_url := rstrip_slash url in
          r4 ← attempt (call env client
                 (Client._mcp_call "fetch"
                    [("url", VStr (base_url +:+ "/health"))]));
          match r4 with
          | Returns (VDict health_response) =>
              ret (is_200 (dict_get health_response "status" (VInt 0)))
          | _ => ret true
          end
        else ret true
    | IsPath _ => ret true
    end;
  ret {| app_loads := app_loads;
         main_page_renders := main_page_renders;
         no_console_errors := no_console_errors;
         health_check_passed := health_check_passed;
         errors := errors |}.
End Smoke.

(** [sum(1 for c in checks if c)] *)
Definition count_true (checks : list bool) : Z :=
  Z.of_nat (length (List.filter (fun c => c) checks)).

Definition smoke_result_to_e2e_result (smoke : SmokeTestResult)
    : E2EValidationResult :=
  let checks := [app_loads smoke; main_page_renders smoke;
                 no_console_errors smoke; health_check_passed smoke] in
  let passed_count := count_true checks in
  let failed_count := Z.of_nat (length checks) - passed_count in
  let failures : list PyDict := [] in
  let failures :=
    if app_loads smoke then failures
    else failures ++ [[("check", VStr "app_loads");
                       ("error", VStr "App failed to load")]] in
  let failures :=
    if main_page_renders smoke then failures
    else failures ++ [[("check", VStr "main_page_renders");
                       ("error", VStr "Main page did not render")]] in
  let failures :=
    if no_console_errors smoke then failures
    else failures ++ [[("check", VStr "console_errors");
                       ("error", VStr "Console errors detected")]] in
  let failures :=
    if health_check_passed smoke then failures
    else failures ++ [[("check", VStr "health_check");
                       ("error", VStr "Health check failed")]] in
  mkE2EValidationResult (failed_count =? 0) (Z.of_nat (length checks))
    passed_count failed_count failures "".

(** ** complexity_aware_validation.py *)

(** [duration_seconds] holds the elapsed time in microseconds, the exact
    content of the [timedelta] the source converts to a float. *)
Record ValidationMetrics : Type := {
  tier : string;
  depth : string;
  test_count : Z;
  passed_count : Z;
  failed_count : Z;
  duration_seconds : Z;
  skipped_test_count : Z;
  browser_count : Z
}.

Section Orchestrator.
Context (env : Env) {py : PyBuiltins}.

(** [run_full_suite] runs its sessions concurrently under a semaphore; the
    orchestrator is stated for any behaviour of it. *)
Context (run_full_suite : E2ETestSuite -> FullSuiteConfig -> M E2EValidationResult).

(** The loop of the FEATURE branch over the filtered test cases. *)
Fixpoint run_filtered_cases (client : nat) (todo : list E2ETestCase)
    (passed_count failed_count : Z) (failures : list PyDict)
    : M (Z * Z * list PyDict) :=
  match todo with
  | [] => ret (passed_count, failed_count, failures)
  | test_case :: rest =>
      test_result ← run_test_case env client test_case;
      if truthy (dict_get test_result "passed" (VBool false))
      then run_filtered_cases client rest (passed_count + 1) failed_count
             failures
      else run_filtered_cases client rest passed_count (failed_count + 1)
             (failures ++ [test_result])
  end.

Definition run_complexity_aware_validation (tier : string)
    (suite : E2ETestSuite) (changed_files : option (list string))
    : M (E2EValidationResult * ValidationMetrics) :=
  start_time ← now env;
  (* Determine validation depth *)
  config ← load_validation_config env;
  let depth := get_validation_depth_for_tier tier (Some config) in
  let original_test_count := Z.of_nat (length (test_cases suite)) in
  let skipped_count := 0 in
  let browser_count := 1 in
  (* Execute based on depth *)
  r ← match depth with
      | SMOKE =>
          client ← client_factory env;
          try_finally
            (call env client Client.connect;;
             smoke_result ← run_smoke_tests env client (IsStr (app_url suite));
             let result := smoke_result_to_e2e_result smoke_result in
             let skipped_count := original_test_count in
             ret (result, skipped_count, browser_count))
            (call env client Client.close)
      | FEATURE =>
          feature_mappings ← load_feature_mappings env;
          let '(filtered_suite, skipped_count) :=
            match changed_files with
            | Some (file :: files) =>
                let changed_files := file :: files in
                let affected_features :=
                  get_affected_features changed_files feature_mappings in
                let filtered_suite :=
                  filter_tests_by_features suite affected_features
                    feature_mappings in
                (filtered_suite,
                 original_test_count
                 - Z.of_nat (length (test_cases filtered_suite)))
            | _ => (suite, skipped_count)
            end in
          client ← client_factory env;
          try_finally
            (call env client Client.connect;;
             call env client (Client.launch_app (IsStr (app_url filtered_suite)));;
             counts ← run_filtered_cases client (test_cases filtered_suite)
                        0 0 [];
             let '(passed_count, failed_count, failures) := counts in
             let result :=
               mkE2EValidationResult (failed_count =? 0)
                 (Z.of_nat (length (test_cases filtered_suite)))
                 passed_count failed_count failures "" in
             ret (result, skipped_count, browser_count))
            (call env client Client.close)
      | FULL =>
          let full_config :=
            {| parallel_workers := 4; cross_browser := true;
               cross_platform := false;
               browsers := ["chromium"; "firefox"] |} in
          let browser_count := Z.of_nat (length (browsers full_config)) in
          result ← run_full_suite suite full_config;
          ret (result, skipped_count, browser_count)
      end;
  let '(result, skipped_count, browser_count) := r in
  (* Calculate metrics *)
  end_time ← now env;
  let duration := end_time - start_time in
  let metrics :=
    {| tier := tier;
       depth := depth_value depth;
       test_count := total_checks result;
       passed_count := passed_checks result;
       failed_count := failed_checks result;
       duration_seconds := duration;
       skipped_test_count := skipped_count;
       browser_count := browser_count |} in
  ret (result, metrics).
End Orchestrator.

(** ** browser.py and electron.py: [connect] and [close] *)

(** The checker creates its clients itself, as instances of
    [BrowserMCPClient] and [ElectronMCPClient]; what [connect] and [close]
    do is the code of these classes.  Their [_mcp_call] is where the MCP
    server is reached (a stub in the source, which always answers [True]):
    its answers are those of the environment. *)

(** The MCP method that [close] calls. *)
Definition close_method (kind : ClientKind) : string :=
  match kind with
  | ElectronMCPClient => "closeApp"
  | _ => "close"
  end.

(** An interaction that only leaves its mark in the history. *)
Definition note (e : Event) : M unit :=
  fun w => (w ++ [e], Returns tt).

Section ClientClasses.
Context (env : Env).

(** [connect]: a ping of the server; any exception of the ping is caught
    and makes the result [False].  The result is also the new value of
    [self._connected]. *)
Definition client_connect (client : nat) : M bool :=
  note (EvCall client Client.connect);;
  r ← attempt (call env client (Client._mcp_call "ping" []));
  match r with
  | Returns _ => ret true
  | Raises _ => ret false
  end.

(** [close]: tells the server to close when [self._connected] is set, and
    does nothing otherwise. *)
Definition client_close (kind : ClientKind) (client : nat)
    (_connected : bool) : M unit :=
  note (EvCall client Client.close);;
  if _connected
  then call env client (Client._mcp_call (close_method kind) []);; ret tt
  else ret tt.
End ClientClasses.

(** ** availability.py: the checker *)

Record MCPAvailabilityChecker : Type := {
  _cache_duration : Z;
  _browser_cache : option MCPAvailability;
  _electron_cache : option MCPAvailability
}.

(** [MCPAvailabilityChecker(cache_duration)]: the duration is given in
    seconds and kept as a [timedelta]. *)
Definition new_MCPAvailabilityChecker (cache_duration : Z)
    : MCPAvailabilityChecker :=
  {| _cache_duration := cache_duration * 1000000;
     _browser_cache := None;
     _electron_cache := None |}.

(** [timedelta(minutes=n)] *)
Definition minutes (n : Z) : Z := n * 60 * 1000000.

(** The two backends the checker probes.  [check_browser_mcp] and
    [check_electron_mcp] are the same code up to the client class, the cache
    attribute and the name that appears in the messages. *)
Inductive Backend : Type := Browser | Electron.

Definition backend_client (b : Backend) : ClientKind :=
  match b with Browser => BrowserMCPClient | Electron => ElectronMCPClient end.

Definition backend_name (b : Backend) : string :=
  match b with Browser => "Browser" | Electron => "Electron" end.

Definition cache_of (b : Backend) (self : MCPAvailabilityChecker)
    : option MCPAvailability :=
  match b with
  | Browser => _browser_cache self
  | Electron => _electron_cache self
  end.

Definition set_cache (b : Backend) (self : MCPAvailabilityChecker)
    (a : MCPAvailability) : MCPAvailabilityChecker :=
  match b with
  | Browser =>
      {| _cache_duration := _cache_duration self;
         _browser_cache := Some a;
         _electron_cache := _electron_cache self |}
  | Electron =>
      {| _cache_duration := _cache_duration self;
         _browser_cache := _browser_cache self;
         _electron_cache := Some a |}
  end.

Definition clear_cache (self : MCPAvailabilityChecker) : MCPAvailabilityChecker :=
  {| _cache_duration := _cache_duration self;
     _browser_cache := None;
     _electron_cache := None |}.

Section Availability.
Context (env : Env).

(** The test that opens the method: [None] when a probe is due, the cached
    value when it is still fresh.  The clock is read only when there is a
    cached value and no refresh is forced. *)
Definition fresh_cache (b : Backend) (self : MCPAvailabilityChecker)
    (force : bool) : M (option MCPAvailability) :=
  if negb force then
    match cache_of b self with
    | Some cached =>
        t ← now env;
        if t - checked_at cached <? _cache_duration self
        then ret (Some cached)
        else ret None
    | None => ret None
    end
  else ret None.

(** The three statements that open the [try] block. *)
Definition probe (b : Backend) : M bool :=
  client ← new_client (backend_client b);
  connected ← client_connect env client;
  client_close env (backend_client b) client connected;;
  ret connected.

(** The value the [try] statement stores in the cache: the [if]/[else] of
    its body when the probe returned, the matching [except] clause when it
    raised. *)
Definition classify (b : Backend) (r : Outcome bool) : M MCPAvailability :=
  match r with
  | Returns true =>
      t ← now env;
      ret {| status := AVAILABLE; reason := None;
             message := backend_name b +:+ " MCP is available";
             checked_at := t; retry_after := None |}
  | Returns false =>
      t ← now env;
      t' ← now env;
      ret {| status := UNAVAILABLE; reason := Some SERVER_NOT_RUNNING;
             message := backend_name b +:+ " MCP server is not running";
             checked_at := t; retry_after := Some (t' + minutes 5) |}
  | Raises e =>
      match exc_class e with
      | TimeoutError =>
          t ← now env;
          t' ← now env;
          ret {| status := UNAVAILABLE; reason := Some CONNECTION_TIMEOUT;
                 message := "Connection to " +:+ backend_name b
                            +:+ " MCP timed out";
                 checked_at := t; retry_after := Some (t' + minutes 1) |}
      | PermissionError =>
          t ← now env;
          ret {| status := UNAVAILABLE; reason := Some PERMISSION_DENIED;
                 message := "Permission denied connecting to "
                            +:+ backend_name b +:+ " MCP";
                 checked_at := t; retry_after := None |}
      | _ =>
          t ← now env;
          ret {| status := UNAVAILABLE; reason := Some UNKNOWN;
                 message := backend_name b +:+ " MCP check failed: "
                            +:+ exc_msg e;
                 checked_at := t; retry_after := None |}
      end
  end.

(** The common body of [check_browser_mcp] and [check_electron_mcp]: the
    value returned and the checker afterwards. *)
Definition check_mcp (b : Backend) (self : MCPAvailabilityChecker)
    (force : bool) : M (MCPAvailability * MCPAvailabilityChecker) :=
  cached ← fresh_cache b self force;
  match cached with
  | Some a => ret (a, self)
  | None =>
      r ← attempt (probe b);
      a ← classify b r;
      ret (a, set_cache b self a)
  end.

Definition check_browser_mcp := check_mcp Browser.
Definition check_electron_mcp := check_mcp Electron.
End Availability.

(** ** errors.py *)

Record MCPError : Type := {
  code : string;
  err_message : string;
  remediation : string;
  docs_url : option string
}.

(** [lines] joined by line feeds, with a line feed at the end: the text of a
    triple-quoted literal whose closing quotes stand on a line of their
    own. *)
Definition text (lines : list string) : string :=
  String.concat nl lines +:+ nl.

Definition MCP_ERRORS : list (MCPFailureReason * MCPError) :=
  [ (SERVER_NOT_RUNNING,
     {| code := "MCP_001";
        err_message := "MCP server is not running";
        remediation := text
          [ "To start the Browser MCP server:";
            "";
            "1. Install the MCP server: npm install -g @anthropic/mcp-server-puppeteer";
            "2. Start the server: mcp-server-puppeteer";
            "3. Verify it's running: curl http://localhost:3000/health";
            "";
            "For Electron MCP:";
            "1. Install: npm install -g @anthropic/mcp-server-electron";
            "2. Start: mcp-server-electron" ];
        docs_url := Some "https://docs.anthropic.com/mcp/servers" |});
    (CONNECTION_TIMEOUT,
     {| code := "MCP_002";
        err_message := "Connection to MCP server timed out";
        remediation := text
          [ "Check your network and MCP server:";
            "";
            "1. Verify the server is running: ps aux | grep mcp";
            "2. Check the server port is accessible: nc -zv localhost 3000";
            "3. Review firewall settings";
            "4. Try increasing timeout in .auto-claude/config.json:";
            "   {" +:+ dq +:+ "mcp" +:+ dq +:+ ": {" +:+ dq +:+ "timeout"
              +:+ dq +:+ ": 60000}}" ];
        docs_url := Some "https://docs.anthropic.com/mcp/troubleshooting#timeout" |});
    (AUTH_FAILED,
     {| code := "MCP_003";
        err_message := "Authentication to MCP server failed";
        remediation := text
          [ "Check your MCP credentials:";
            "";
            "1. Verify CLAUDE_MCP_TOKEN is set in your environment";
            "2. Check the token hasn't expired";
            "3. Regenerate token: claude mcp auth refresh" ];
        docs_url := Some "https://docs.anthropic.com/mcp/auth" |});
    (VERSION_MISMATCH,
     {| code := "MCP_004";
        err_message := "MCP server version is incompatible";
        remediation := text
          [ "Update your MCP server:";
            "";
            "1. Check current version: mcp-server --version";
            "2. Update: npm update -g @anthropic/mcp-server-puppeteer";
            "3. Restart the server";
            "";
            "Required version: >=1.0.0" ];
        docs_url := Some "https://docs.anthropic.com/mcp/changelog" |});
    (PERMISSION_DENIED,
     {| code := "MCP_005";
        err_message := "Permission denied accessing MCP server";
        remediation := text
          [ "Check permissions:";
            "";
            "1. Verify you have access to the MCP socket";
            "2. On macOS, grant accessibility permissions in System Preferences";
            "3. On Linux, add user to appropriate group: sudo usermod -a -G mcp $USER" ];
        docs_url := Some "https://docs.anthropic.com/mcp/permissions" |});
    (UNKNOWN,
     {| code := "MCP_999";
        err_message := "Unknown MCP error";
        remediation := text
          [ "Try these general troubleshooting steps:";
            "";
            "1. Restart the MCP server";
            "2. Check server logs: tail -f ~/.mcp/logs/server.log";
            "3. Verify Claude Code is up to date";
            "4. Report issue: https://github.com/anthropics/claude-code/issues" ];
        docs_url := Some "https://docs.anthropic.com/mcp/troubleshooting" |}) ].

(** [MCP_ERRORS.get(reason)] for a reason or [None]. *)
Fixpoint errors_get (table : list (MCPFailureReason * MCPError))
    (reason : option MCPFailureReason) : option MCPError :=
  match table with
  | [] => None
  | (r, e) :: rest =>
      if decide (reason = Some r) then Some e else errors_get rest reason
  end.

(** The entry [MCP_ERRORS[MCPFailureReason.UNKNOWN]]. *)
Definition unknown_error : MCPError :=
  default {| code := ""; err_message := ""; remediation := ""; docs_url := None |}
          (errors_get MCP_ERRORS (Some UNKNOWN)).

Definition get_error_for_reason (reason : option MCPFailureReason) : MCPError :=
  default unknown_error (errors_get MCP_ERRORS reason).

(** U+26A0 U+FE0F in UTF-8, the warning sign that opens the message. *)
Definition warning_sign : string := "⚠️".

Definition format_error_message (reason : option MCPFailureReason)
    (include_remediation : bool) : string :=
  let error := get_error_for_reason reason in
  let lines :=
    [ warning_sign +:+ "  " +:+ err_message error +:+ " [" +:+ code error +:+ "]";
      "" ] in
  let lines :=
    if include_remediation
    then lines ++ ["Remediation:"; remediation error]
    else lines in
  let lines :=
    match docs_url error with
    | Some url => lines ++ [""; "Documentation: " +:+ url]
    | None => lines
    end in
  String.concat nl lines.

(** ** fallback.py *)

Section Fallback.
Context (env : Env).

Definition _run_unit_tests : M bool :=
  has_pytest_ini ← exists_ env "pytest.ini";
  has_pytest ← (if has_pytest_ini : bool then ret true else exists_ env "tests");
  if has_pytest : bool then
    returncode ← subprocess_run env ["pytest"; "-x"; "-q"];
    ret (returncode =? 0)
  else
    has_package_json ← exists_ env "package.json";
    if has_package_json : bool then
      returncode ← subprocess_run env ["npm"; "test"];
      ret (returncode =? 0)
    else ret true.

Definition _run_lint : M bool :=
  has_package_json ← exists_ env "package.json";
  if has_package_json : bool then
    returncode ← subprocess_run env ["npm"; "run"; "lint"];
    ret (returncode =? 0)
  else
    has_pyproject ← exists_ env "pyproject.toml";
    if has_pyproject : bool then
      returncode ← subprocess_run env ["ruff"; "check"; "."];
      ret (returncode =? 0)
    else ret true.

Definition handle_mcp_unavailable (availability : MCPAvailability)
    (config : option FallbackConfig)
    : M (option E2EValidationResult * FallbackResult) :=
  config ← match config with
           | Some c => ret c
           | None => load_fallback_config env
           end;
  match mode config with
  | FAIL =>
      ret (None,
           {| used_fallback := false; fb_reason := message availability;
              validation_run := "none";
              unit_tests_passed := None; lint_passed := None |})
  | SKIP =>
      ret (Some (mkE2EValidationResult true 0 0 0 []
                   "E2E validation skipped - MCP unavailable"),
           {| used_fallback := true; fb_reason := message availability;
              validation_run := "none";
              unit_tests_passed := None; lint_passed := None |})
  | m =>
      (* WARN or REDUCED mode *)
      let validation_run :=
        match m with REDUCED => "reduced" | _ => "none" end in
      checks ←
        match m with
        | REDUCED =>
            unit_tests_passed ←
              (if run_unit_tests config
               then b ← _run_unit_tests; ret (Some b)
               else ret None);
            lint_passed ←
              (if run_lint config
               then b ← _run_lint; ret (Some b)
               else ret None);
            ret (unit_tests_passed, lint_passed)
        | _ => ret (None, None)
        end;
      let fallback_result :=
        {| used_fallback := true; fb_reason := message availability;
           validation_run := validation_run;
           unit_tests_passed := checks.1; lint_passed := checks.2 |} in
      let validation_result :=
        mkE2EValidationResult true 0 0 0 []
          (format_error_message (reason availability) false) in
      ret (Some validation_result, fallback_result)
  end.
End Fallback.

(** ** Stand-ins for the examples *)

Definition lower_ascii (a : ascii) : ascii :=
  let n := nat_of_ascii a in
  if (65 <=? n)%nat && (n <=? 90)%nat then ascii_of_nat (n + 32) else a.

Fixpoint lower_string (s : string) : string :=
  match s with
  | EmptyString => EmptyString
  | String a s' => String (lower_ascii a) (lower_string s')
  end.

(** Builtins to evaluate the examples with.  They agree with Python on the
    inputs the examples use: ASCII text for [str.lower], patterns without
    metacharacters for [fnmatch], strings for [str()]. *)
Definition example_builtins : PyBuiltins :=
  {| str_lower := lower_string;
     fnmatch := String.eqb;
     py_str := fun v => match v with VStr s => s | _ => "" end |}.

(** A client that answers every call with success. *)
Definition obliging_client (op : Client.Op) : Outcome (Client.RetTy op) :=
  match op as o return Outcome (Client.RetTy o) with
  | Client.close => Returns tt
  | Client.get_dom_snapshot => Returns "<html></html>"
  | Client._mcp_call _ _ => Returns VNone
  | Client.connect => Returns true
  | Client.launch_app _ => Returns true
  | Client.click _ => Returns true
  | Client.type_text _ _ => Returns true
  | Client.wait _ => Returns true
  | Client.wait_for_selector _ _ => Returns true
  | Client.select _ _ => Returns true
  | Client.check _ _ => Returns true
  | Client.submit _ => Returns true
  | Client.assert_visible _ => Returns true
  | Client.assert_text _ _ => Returns true
  | Client.assert_position _ _ => Returns true
  end.

(** An environment in which the backend is up, the clock shows [t], the
    project has a [tests] directory whose tests fail and no linter. *)
Definition example_env (t : Z) : Env :=
  {| clock := fun _ => t;
     client_answer := fun _ _ op => obliging_client op;
     factory_answer := fun _ => Returns tt;
     path_exists := fun _ path => String.eqb path "tests";
     subprocess_returncode := fun _ _ => Returns 1;
     validation_config_file := fun _ => Returns default_ValidationDepthConfig;
     feature_mappings_file := fun _ => Returns [];
     fallback_config_file := fun _ => Returns default_FallbackConfig |}.

(** A client whose MCP server does not answer: every [_mcp_call] times
    out. *)
Definition silent_server (op : Client.Op) : Outcome (Client.RetTy op) :=
  match op as o return Outcome (Client.RetTy o) with
  | Client._mcp_call _ _ => Raises (Exn TimeoutError "timed out")
  | op' => obliging_client op'
  end.

Definition silent_env (t : Z) : Env :=
  {| clock := fun _ => t;
     client_answer := fun _ _ op => silent_server op;
     factory_answer := fun _ => Returns tt;
     path_exists := fun _ path => String.eqb path "tests";
     subprocess_returncode := fun _ _ => Returns 1;
     validation_config_file := fun _ => Returns default_ValidationDepthConfig;
     feature_mappings_file := fun _ => Returns [];
     fallback_config_file := fun _ => Returns default_FallbackConfig |}.

(** ** Occurrence of a text in another *)

(** [needle in hay] on strings. *)
Fixpoint contains (hay needle : string) : bool :=
  String.prefix needle hay
  || match hay with
     | EmptyString => false
     | String _ hay' => contains hay' needle
     end.

(** ** Vocabulary of the properties *)

(** What the two loops of [filter_tests_by_features] collect: the test ids
    of every mapping whose feature is among the affected ones. *)
Definition selected_by_features (affected_features : list string)
    (feature_mappings : list FeatureMapping) (test_id : string) : Prop :=
  ∃ mapping, mapping ∈ feature_mappings
             ∧ feature_name mapping ∈ affected_features
             ∧ test_id ∈ test_ids mapping.

(** Every launch of a child process yields an exit status. *)
Definition launches_succeed (env : Env) : Prop :=
  ∀ w cmd, ∃ returncode, subprocess_returncode env w cmd = Returns returncode.

(** The clock reads of [classify]: one for [checked_at], one more where a
    [retry_after] is computed. *)
Definition clock_reads (r : Outcome bool) : list Event :=
  match r with
  | Returns true => [EvNow]
  | Returns false => [EvNow; EvNow]
  | Raises e =>
      match exc_class e with
      | TimeoutError => [EvNow; EvNow]
      | _ => [EvNow]
      end
  end.

(** The reason code [classify] gives to an outcome of the probe. *)
Definition classified_reason (r : Outcome bool) : option MCPFailureReason :=
  match r with
  | Returns true => None
  | Returns false => Some SERVER_NOT_RUNNING
  | Raises e =>
      match exc_class e with
      | TimeoutError => Some CONNECTION_TIMEOUT
      | PermissionError => Some PERMISSION_DENIED
      | _ => Some UNKNOWN
      end
  end.

(** The events a probe adds between the creation of the client and the
    first clock read: the client is created, [connect] is awaited and pings
    the server, [close] is awaited and, when the ping was answered, tells
    the server to close. *)
Definition probe_calls (env : Env) (b : Backend) (w : World) : list Event :=
  let id := count_events is_new w in
  let w2 := w ++ [EvNew (backend_client b) id; EvCall id Client.connect] in
  [EvNew (backend_client b) id;
   EvCall id Client.connect;
   EvCall id (Client._mcp_call "ping" []);
   EvCall id Client.close]
  ++ match client_answer env w2 id (Client._mcp_call "ping" []) with
     | Returns _ =>
         [EvCall id (Client._mcp_call (close_method (backend_client b)) [])]
     | Raises _ => []
     end.

(** A computation that returns from every history. *)
Definition never_raises {A} (m : M A) : Prop :=
  ∀ w, ∃ w' a, m w = (w', Returns a).

Section SmokeBranch.
Context (env : Env) {py : PyBuiltins}.

(** The SMOKE branch of the orchestrator: it reads the suite only through
    its application address. *)
Definition smoke_branch (url : string) : M E2EValidationResult :=
  client ← client_factory env;
  try_finally
    (call env client Client.connect;;
     smoke_result ← run_smoke_tests env client (IsStr url);
     mret (smoke_result_to_e2e_result smoke_result))
    (call env client Client.close).

(** The history once the depth is resolved. *)
Definition resolved (w : World) : World :=
  (w ++ [EvNow]) ++ [EvLoad ".auto-claude/validation-config.json"].

(** The factory, [connect] and [close] return from every history. *)
Definition session_opens_and_closes : Prop :=
  (∀ w, factory_answer env w = Returns tt)
  ∧ (∀ w client, ∃ connected,
       client_answer env w client Client.connect = Returns connected)
  ∧ (∀ w client, client_answer env w client Client.close = Returns tt).
End SmokeBranch.

(** ** Data of the examples *)

Definition always_full : ValidationDepthConfig :=
  {| simple_depth := SMOKE; standard_depth := FEATURE; complex_depth := FULL;
     force_depth := Some FULL;
     smoke_timeout := 60; feature_timeout := 300; full_timeout := 1800 |}.

(** A suite with one ordinary (not critical) test case. *)
Definition login_case : E2ETestCase :=
  {| tc_id := "auth-1"; tc_name := "Login"; tc_description := "Login test";
     steps := []; skip := false; critical := false |}.

Definition login_suite : E2ETestSuite :=
  {| suite_name := "app"; suite_description := "All tests";
     app_url := "http://localhost:3000"; test_cases := [login_case] |}.

(** A suite with a critical case that no mapping names. *)
Definition smoke_case : E2ETestCase :=
  {| tc_id := "smoke-1"; tc_name := "App Loads"; tc_description := "Critical";
     steps := []; skip := false; critical := true |}.

Definition auth_mapping : FeatureMapping :=
  {| feature_name := "auth"; code_paths := ["src/auth/*"];
     test_ids := ["auth-1"] |}.

Definition mixed_suite : E2ETestSuite :=
  {| suite_name := "app"; suite_description := "All tests";
     app_url := "http://localhost:3000";
     test_cases := [smoke_case; login_case] |}.

(** A skipped case that nevertheless has a step. *)
Definition skipped_case : E2ETestCase :=
  {| tc_id := "dash-1"; tc_name := "Dashboard"; tc_description := "Dashboard test";
     steps := [ {| action := "click"; selector := Some "#open"; value := None;
                   expected := None; timeout := None; position := None |} ];
     skip := true; critical := false |}.

Definition server_down : MCPAvailability :=
  {| status := UNAVAILABLE; reason := Some SERVER_NOT_RUNNING;
     message := "Browser MCP server is not running";
     checked_at := 0; retry_after := Some (minutes 5) |}.

Definition reduced_config : FallbackConfig :=
  {| mode := REDUCED; run_unit_tests := true; run_lint := true;
     mark_as_partial := true |}.

(** Two checks of the browser backend, 30 seconds apart, with a TTL of 60
    seconds: the clock shows 0 during the first check and 30 000 000
    microseconds afterwards. *)
Definition later_env : Env :=
  {| clock := fun w => if (length w <=? 5)%nat then 0 else 30000000;
     client_answer := fun _ _ op => obliging_client op;
     factory_answer := fun _ => Returns tt;
     path_exists := fun _ _ => false;
     subprocess_returncode := fun _ _ => Returns 0;
     validation_config_file := fun _ => Returns default_ValidationDepthConfig;
     feature_mappings_file := fun _ => Returns [];
     fallback_config_file := fun _ => Returns default_FallbackConfig |}.

Definition first_check :=
  check_browser_mcp later_env (new_MCPAvailabilityChecker 60) false [].

Definition browser_up : MCPAvailability :=
  {| status := AVAILABLE; reason := None;
     message := "Browser MCP is available"; checked_at := 0;
     retry_after := None |}.

(** A full-suite runner for the examples; the SMOKE branch never calls it. *)
Definition no_full_suite (suite : E2ETestSuite) (config : FullSuiteConfig)
    : M E2EValidationResult :=
  mret (mkE2EValidationResult true 0 0 0 [] "").

(** A project with a [tests] directory on a machine without [pytest]:
    [subprocess.run] finds no executable and raises. *)
Definition pytest_missing_env : Env :=
  {| clock := fun _ => 0;
     client_answer := fun _ _ op => obliging_client op;
     factory_answer := fun _ => Returns tt;
     path_exists := fun _ path => String.eqb path "tests";
     subprocess_returncode := fun _ _ =>
       Raises (Exn FileNotFoundError
                 "[Errno 2] No such file or directory: 'pytest'");
     validation_config_file := fun _ => Returns default_ValidationDepthConfig;
     feature_mappings_file := fun _ => Returns [];
     fallback_config_file := fun _ => Returns default_FallbackConfig |}.
(** ** full_suite.py: the browser matrix and one session *)

(** The configuration [create_browser_matrix] gives to one browser name. *)
Definition browser_config (browser : string) : PyDict :=
  if String.eqb browser "chromium" then
    [("headless", VBool true); ("channel", VNone)]
  else if String.eqb browser "firefox" then
    [("headless", VBool true); ("firefox_user_prefs", VDict [])]
  else if String.eqb browser "webkit" then
    [("headless", VBool true)]
  else
    [("headless", VBool true)].

(** The loop assigns [matrix[browser]] for each name in turn. *)
Definition create_browser_matrix (browsers : list string)
    : gmap string PyDict :=
  fold_left (fun matrix browser => <[browser := browser_config browser]> matrix)
            browsers ∅.

(** The case list [run_full_suite] hands to its workers. *)
Definition full_suite_cases (suite : E2ETestSuite) (config : FullSuiteConfig)
    : list E2ETestCase :=
  if cross_browser config && (1 <? Z.of_nat (length (browsers config)))
  then expand_test_cases_for_browsers (test_cases suite) (browsers config)
  else test_cases suite.

(** The loop of [run_full_suite] over the gathered results: a task ends
    either with the record it returned or with the exception it raised
    ([gather] is called with [return_exceptions=True]). *)
Fixpoint tally_results (results : list (Outcome PyDict))
    (passed_count failed_count : Z) (failures : list PyDict)
    : Z * Z * list PyDict :=
  match results with
  | [] => (passed_count, failed_count, failures)
  | Raises e :: rest =>
      tally_results rest passed_count (failed_count + 1)
        (failures ++ [[("error", VStr (exc_msg e))]])
  | Returns result :: rest =>
      if truthy (dict_get result "passed" (VBool false))
      then tally_results rest (passed_count + 1) failed_count failures
      else tally_results rest passed_count (failed_count + 1)
             (failures ++ [result])
  end.

(** The [E2EValidationResult] that [run_full_suite] builds from the
    gathered results. *)
Definition full_suite_result (results : list (Outcome PyDict))
    : E2EValidationResult :=
  let '(passed_count, failed_count, failures) := tally_results results 0 0 [] in
  mkE2EValidationResult (failed_count =? 0) (Z.of_nat (length results))
    passed_count failed_count failures "".

Section FullSuiteSession.
Context (env : Env) {py : PyBuiltins}.

(** [run_with_semaphore], the task of one test case, once the semaphore is
    acquired: a client from the factory, the session inside [try], the
    failure record of the [except] clause, [close] in the [finally]
    clause. *)
Definition run_with_semaphore (suite : E2ETestSuite) (test_case : E2ETestCase)
    : M PyDict :=
  client ← client_factory env;
  try_finally
    (r ← attempt
           (call env client Client.connect;;
            call env client (Client.launch_app (IsStr (app_url suite)));;
            run_test_case env client test_case);
     match r with
     | Returns result => ret result
     | Raises e =>
         ret [("id", VStr (tc_id test_case)); ("name", VStr (tc_name test_case));
              ("passed", VBool false); ("error", VStr (exc_msg e))]
     end)
    (call env client Client.close).
End FullSuiteSession.

(** ** feature_tests.py: the default mappings *)

(** [name.startswith(("_", "."))] *)
Definition hidden_name (name : string) : bool :=
  String.prefix "_" name || String.prefix "." name.

(** The mappings generated for one source root from the entries of the
    directory: one per sub-directory whose name is not hidden. *)
Definition default_mappings_of (src_dir : string)
    (entries : list (string * bool)) : list FeatureMapping :=
  flat_map (fun entry : string * bool =>
    let '(name, is_dir) := entry in
    if is_dir && negb (hidden_name name)
    then [{| feature_name := name;
             code_paths := [src_dir +:+ "/" +:+ name +:+ "/**/*"];
             test_ids := [] |}]
    else []) entries.

(** [_generate_default_mappings].  [listdir d] is what the file system shows
    of [project_path / d]: [None] when it does not exist or is no directory,
    else its entries in the order [iterdir] yields them, each with whether it
    is a directory. *)
Definition _generate_default_mappings
    (listdir : string -> option (list (string * bool))) : list FeatureMapping :=
  flat_map (fun src_dir =>
    match listdir src_dir with
    | Some entries => default_mappings_of src_dir entries
    | None => []
    end) ["src"; "app"; "lib"].

(** The names of the sub-directories of a source root that are not hidden,
    in the order [iterdir] yields them; none when the root does not exist. *)
Definition visible_dirs (listdir : string -> option (list (string * bool)))
    (root : string) : list string :=
  match listdir root with
  | Some entries =>
      fst <$> filter (fun entry : string * bool =>
                        entry.2 = true ∧ hidden_name entry.1 = false) entries
  | None => []
  end.

(** ** Vocabulary and data of the further properties *)

(** The six tier names of the map. *)
Definition tier_names : list string :=
  ["simple"; "standard"; "complex"; "quick-flow"; "method"; "enterprise"].

Definition all_full : ValidationDepthConfig :=
  {| simple_depth := FULL; standard_depth := FULL; complex_depth := FULL;
     force_depth := None;
     smoke_timeout := 60; feature_timeout := 300; full_timeout := 1800 |}.

Definition shuffled_depths : ValidationDepthConfig :=
  {| simple_depth := FEATURE; standard_depth := FULL; complex_depth := SMOKE;
     force_depth := None;
     smoke_timeout := 60; feature_timeout := 300; full_timeout := 1800 |}.

(** A changed file activates a feature when it matches one of the patterns
    of a mapping of that feature. *)
Definition affects {py : PyBuiltins} (changed_files : list string)
    (feature_mappings : list FeatureMapping) (feature : string) : Prop :=
  ∃ file mapping pattern,
    file ∈ changed_files ∧ mapping ∈ feature_mappings
    ∧ feature_name mapping = feature
    ∧ pattern ∈ code_paths mapping ∧ fnmatch file pattern = true.

(** A project with a [src] directory and nothing else. *)
Definition example_listdir (dir : string) : option (list (string * bool)) :=
  if String.eqb dir "src"
  then Some [("auth", true); ("_private", true); ("index.ts", false);
             (".cache", true); ("dashboard", true)]
  else None.

(** Two suites whose expansions collide: ["a" + "-" + "b-c"] and
    ["a-b" + "-" + "c"]. *)
Definition hyphen_cases : list E2ETestCase :=
  [ {| tc_id := "a"; tc_name := "A"; tc_description := ""; steps := [];
       skip := false; critical := false |};
    {| tc_id := "a-b"; tc_name := "AB"; tc_description := ""; steps := [];
       skip := false; critical := false |} ].

(** A result that reports no failed check and is not marked as passed (what
    [run_e2e_validation] returns for an empty suite when the connection
    fails). *)
Definition unconnected_empty : E2EValidationResult :=
  mkE2EValidationResult false 0 0 0
    [[("error", VStr "Failed to connect to Browser MCP")]] "".

(** A task of [run_full_suite] that counts as passed: it returned a record
    whose ["passed"] entry is true. *)
Definition task_passed (r : Outcome PyDict) : Prop :=
  ∃ result, r = Returns result
            ∧ truthy (dict_get result "passed" (VBool false)) = true.

(** A client factory whose clients cannot connect: [connect] raises. *)
Definition refusing_client (op : Client.Op) : Outcome (Client.RetTy op) :=
  match op as o return Outcome (Client.RetTy o) with
  | Client.connect => Raises (Exn RuntimeError "connection refused")
  | op' => obliging_client op'
  end.

Definition refusing_env : Env :=
  {| clock := fun _ => 0;
     client_answer := fun _ _ op => refusing_client op;
     factory_answer := fun _ => Returns tt;
     path_exists := fun _ _ => false;
     subprocess_returncode := fun _ _ => Returns 0;
     validation_config_file := fun _ => Returns default_ValidationDepthConfig;
     feature_mappings_file := fun _ => Returns [];
     fallback_config_file := fun _ => Returns default_FallbackConfig |}.

(** A computation adds only events that satisfy [P] to the history, and
    keeps what was there. *)
Definition adds_only {A} (P : Event → Prop) (m : M A) : Prop :=
  ∀ w, ∃ added, fst (m w) = w ++ added ∧ Forall P added.

(** A step of a session with client [client]: a call of one of its methods
    other than [connect] and [close]. *)
Definition step_event (client : nat) (e : Event) : Prop :=
  ∃ op, e = EvCall client op
        ∧ Client.is_connect op = false ∧ Client.is_close op = false.

(** The actions of [ActionType] that [execute_step] refuses without a
    selector. *)
Definition selector_actions : list string :=
  ["click"; "type"; "wait_for_selector"; "select"; "check"; "submit";
   "assert_visible"; "assert_text"; "assert_position"].

(** The tags of the [Literal] type [ActionType]. *)
Definition known_actions : list string :=
  ["click"; "type"; "navigate"; "wait"; "assert_visible"; "assert_text";
   "select"; "check"; "submit"; "wait_for_selector"; "assert_position"].

(** The entry of the interaction history for step number [k] (from 0) once
    the step has run, with its final status. *)
Definition step_entry (status : string) (k : nat) (step : E2ETestStep)
    : PyDict :=
  [("step", VInt (Z.of_nat k + 1)); ("action", VStr (action step));
   ("selector", opt_str (selector step)); ("value", opt_str (value step));
   ("status", VStr status)].

(** The entry of the step that failed, with the message of the exception. *)
Definition failed_entry (k : nat) (step : E2ETestStep) (msg : string)
    : PyDict :=
  step_entry "failed" k step ++ [("error", VStr msg)].

(** A test case with a step that lacks its selector, after a step that is
    in order. *)
Definition broken_case : E2ETestCase :=
  {| tc_id := "form-1"; tc_name := "Form"; tc_description := "Fill the form";
     steps := [ {| action := "click"; selector := Some "#open"; value := None;
                   expected := None; timeout := None; position := None |};
                {| action := "type"; selector := None; value := Some "x";
                   expected := None; timeout := None; position := None |};
                {| action := "submit"; selector := Some "form"; value := None;
                   expected := None; timeout := None; position := None |} ];
     skip := false; critical := false |}.

(** An operation of [client] other than [close]. *)
Definition session_event (client : nat) (e : Event) : Prop :=
  ∃ op, e = EvCall client op ∧ Client.is_close op = false.

(** The record [run_with_semaphore] returns for a case whose session
    raised. *)
Definition worker_failure (test_case : E2ETestCase) (e : exn) : PyDict :=
  [("id", VStr (tc_id test_case)); ("name", VStr (tc_name test_case));
   ("passed", VBool false); ("error", VStr (exc_msg e))].

(** The visibility checks of the first [k] root selectors. *)
Definition render_probes (client : nat) (k : nat) : list Event :=
  (λ sel, EvCall client (Client.assert_visible sel)) <$> take k root_selectors.

(** The request for the health endpoint, made for a string target that
    starts with [http] only. *)
Definition health_probe (client : nat) (target : StrOrPath) : list Event :=
  match target with
  | IsStr url =>
      if String.prefix "http" url
      then [EvCall client
              (Client._mcp_call "fetch"
                 [("url", VStr (rstrip_slash url +:+ "/health"))])]
      else []
  | IsPath _ => []
  end.

(** The FEATURE branch of the orchestrator: which suite it runs and how many
    test cases it counts as skipped.  Without changed files (none given, or
    an empty list) the whole suite runs. *)
Definition feature_selection {py : PyBuiltins} (suite : E2ETestSuite)
    (changed_files : option (list string))
    (feature_mappings : list FeatureMapping) : E2ETestSuite * Z :=
  match changed_files with
  | Some (file :: files) =>
      let changed_files := file :: files in
      let affected_features :=
        get_affected_features changed_files feature_mappings in
      let filtered_suite :=
        filter_tests_by_features suite affected_features feature_mappings in
      (filtered_suite,
       Z.of_nat (length (test_cases suite))
       - Z.of_nat (length (test_cases filtered_suite)))
  | _ => (suite, 0)
  end.

Section FeatureBranch.
Context (env : Env) {py : PyBuiltins}.

(** The session of the FEATURE branch over the suite it selected. *)
Definition feature_session (filtered_suite : E2ETestSuite)
    : M E2EValidationResult :=
  client ← client_factory env;
  try_finally
    (call env client Client.connect;;
     call env client (Client.launch_app (IsStr (app_url filtered_suite)));;
     counts ← run_filtered_cases env client (test_cases filtered_suite) 0 0 [];
     let '(passed_count, failed_count, failures) := counts in
     mret (mkE2EValidationResult (failed_count =? 0)
             (Z.of_nat (length (test_cases filtered_suite)))
             passed_count failed_count failures ""))
    (call env client Client.close).

(** The history once the feature mappings are loaded. *)
Definition mapped (w : World) : World :=
  resolved w ++ [EvLoad ".auto-claude/feature-mappings.json"].
End FeatureBranch.

(** The factory, [connect], [launch_app] and [close] do not raise. *)
Definition session_runs (env : Env) : Prop :=
  session_opens_and_closes env
  ∧ ∀ w client target, ∃ loaded,
      client_answer env w client (Client.launch_app target) = Returns loaded.

(** The interactions of the orchestrator that involve no client: reading the
    clock and loading a configuration file. *)
Definition bookkeeping (e : Event) : Prop :=
  e = EvNow ∨ ∃ file, e = EvLoad file.

(** The life of one client: created by the factory, used, and closed as its
    last operation. *)
Definition client_life (client : nat) (events : list Event) : Prop :=
  ∃ session,
    events = [EvNew FromFactory client] ++ session
             ++ [EvCall client Client.close]
    ∧ Forall (session_event client) session.

(** A look at the project directory: [(project_path / path).exists()]. *)
Definition existence_check (e : Event) : Prop := ∃ path, e = EvExists path.

(** [result.returncode == 0] for the outcome of [subprocess.run]; an
    exception of the launch is passed on. *)
Definition exit_ok (r : Outcome Z) : Outcome bool :=
  match r with
  | Returns returncode => Returns (returncode =? 0)
  | Raises e => Raises e
  end.

(** [subprocess.run(cmd, ...)] as the last interaction of a check, and what
    the check then reports. *)
Definition launched (env : Env) (w : World) (cmd : list string)
    : World * Outcome bool :=
  (w ++ [EvRun cmd], exit_ok (subprocess_returncode env w cmd)).

(** No marker file of the reduced checks exists, whenever it is looked
    for. *)
Definition no_marker (env : Env) : Prop :=
  ∀ w path,
    path ∈ ["pytest.ini"; "tests"; "package.json"; "pyproject.toml"] →
    path_exists env w path = false.

(** What a reduced check does: it looks at the project directory, then
    launches at most one tool, as its last interaction.  Its outcome is
    whether the tool exited with 0, and [True] when it launched none. *)
Definition one_tool_check (env : Env) (tools : list (list string))
    (m : M bool) (w : World) : Prop :=
  ∃ looks,
    Forall existence_check looks
    ∧ (m w = (w ++ looks, Returns true)
       ∨ ∃ cmd, cmd ∈ tools
                ∧ m w = (w ++ looks ++ [EvRun cmd],
                         exit_ok (subprocess_returncode env (w ++ looks) cmd))).

(** A project with Python tests and a JavaScript manifest: every marker file
    exists, and every tool exits with 0. *)
Definition polyglot_env : Env :=
  {| clock := fun _ => 0;
     client_answer := fun _ _ op => obliging_client op;
     factory_answer := fun _ => Returns tt;
     path_exists := fun _ _ => true;
     subprocess_returncode := fun _ _ => Returns 0;
     validation_config_file := fun _ => Returns default_ValidationDepthConfig;
     feature_mappings_file := fun _ => Returns [];
     fallback_config_file := fun _ => Returns default_FallbackConfig |}.

(** A project without tests and without a linter: no marker file exists;
    a tool, if one were launched, would exit with 1. *)
Definition bare_env : Env :=
  {| clock := fun _ => 0;
     client_answer := fun _ _ op => obliging_client op;
     factory_answer := fun _ => Returns tt;
     path_exists := fun _ _ => false;
     subprocess_returncode := fun _ _ => Returns 1;
     validation_config_file := fun _ => Returns default_ValidationDepthConfig;
     feature_mappings_file := fun _ => Returns [];
     fallback_config_file := fun _ => Returns default_FallbackConfig |}.

(* ================================================================== *)
(** * Properties *)

(** Unfolds the operations of [M] wherever they occur in the goal. *)
Tactic Notation "unfold_M" :=
  unfold mbind, M_bind, bind, mret, M_ret, ret, raise, attempt, try_finally;
  cbn.
Tactic Notation "unfold_M" "in" hyp(H) :=
  unfold mbind, M_bind, bind, mret, M_ret, ret, raise, attempt, try_finally in H;
  cbn in H.

(** ** Depth selection *)

(** C5: when the configuration carries a [force_depth], that depth is the
    answer of [get_validation_depth_for_tier], whatever the tier string,
    whatever the per-tier depths and timeouts of the configuration, and
    whatever [str.lower] does to the tier: the tier map is not consulted. *)
Theorem forced_depth_wins {py : PyBuiltins} (tier : string)
    (config : ValidationDepthConfig) (d : ValidationDepth) :
  force_depth config = Some d ->
  get_validation_depth_for_tier tier (Some config) = d.
Proof.
  intros Hforce. unfold get_validation_depth_for_tier. simpl.
  now rewrite Hforce.
Qed.

Lemma forced_depth_wins_witness :
  get_validation_depth_for_tier (py := example_builtins) "simple"
    (Some always_full) = FULL.
Proof.
  apply (forced_depth_wins (py := example_builtins) "simple" always_full FULL).
  reflexivity.
Defined.

(** Without a forced depth the tier decides. *)
Example simple_tier_is_smoke :
  get_validation_depth_for_tier (py := example_builtins) "Quick-Flow"
    (Some default_ValidationDepthConfig) = SMOKE.
Proof. reflexivity. Qed.

(** ** Feature selection *)

Lemma relevant_inner_spec (feature : string) (mappings : list FeatureMapping)
    (acc : gset string) (x : string) :
  x ∈ fold_left (fun relevant mapping =>
        if String.eqb (feature_name mapping) feature
        then relevant ∪ list_to_set (test_ids mapping)
        else relevant) mappings acc
  ↔ x ∈ acc ∨ ∃ m, m ∈ mappings ∧ feature_name m = feature ∧ x ∈ test_ids m.
Proof.
  revert acc. induction mappings as [|m ms IH]; intros acc; simpl.
  - split; [auto|]. intros [?|(m & Hm & _)]; [done|]. by apply elem_of_nil in Hm.
  - rewrite IH. destruct (String.eqb_spec (feature_name m) feature) as [Heq|Hne].
    + rewrite elem_of_union, elem_of_list_to_set. split.
      * intros [[?|?]|(m' & ? & ? & ?)]; [by left| |].
        -- right. exists m. by rewrite elem_of_cons; auto.
        -- right. exists m'. by rewrite elem_of_cons; auto.
      * intros [?|(m' & Hin & ? & ?)]; [by left; left|].
        apply elem_of_cons in Hin as [->|?]; [by left; right|].
        right. by exists m'.
    + split.
      * intros [?|(m' & ? & ? & ?)]; [by left|].
        right. exists m'. by rewrite elem_of_cons; auto.
      * intros [?|(m' & Hin & ? & ?)]; [by left|].
        apply elem_of_cons in Hin as [->|?]; [done|].
        right. by exists m'.
Qed.

Lemma relevant_outer_spec (features : list string)
    (mappings : list FeatureMapping) (acc : gset string) (x : string) :
  x ∈ fold_left (fun relevant feature =>
        fold_left (fun relevant mapping =>
          if String.eqb (feature_name mapping) feature
          then relevant ∪ list_to_set (test_ids mapping)
          else relevant) mappings relevant) features acc
  ↔ x ∈ acc ∨ selected_by_features features mappings x.
Proof.
  revert acc. induction features as [|f fs IH]; intros acc; simpl.
  - split; [auto|]. intros [?|(m & _ & Hf & _)]; [done|].
    by apply elem_of_nil in Hf.
  - rewrite IH, relevant_inner_spec. unfold selected_by_features. split.
    + intros [[?|(m & ? & ? & ?)]|(m & ? & ? & ?)]; [by left| |].
      * right. exists m. rewrite elem_of_cons. auto.
      * right. exists m. rewrite elem_of_cons. auto.
    + intros [?|(m & ? & Hf & ?)]; [by left; left|].
      apply elem_of_cons in Hf as [Hf|Hf].
      * left; right. by exists m.
      * right. by exists m.
Qed.

(** The set computed by the source is the set of selected test ids. *)
Lemma elem_of_relevant_test_ids (features : list string)
    (mappings : list FeatureMapping) (x : string) :
  x ∈ relevant_test_ids features mappings
  ↔ selected_by_features features mappings x.
Proof.
  unfold relevant_test_ids. rewrite relevant_outer_spec.
  split; [intros [H|H]; [by apply not_elem_of_empty in H|done] | auto].
Qed.

Lemma filter_no_id_selected (relevant : gset string) (l : list E2ETestCase) :
  (∀ tc, tc ∈ l → tc_id tc ∉ relevant) →
  filter (fun tc => tc_id tc ∈ relevant) l = [].
Proof.
  induction l as [|tc l IH]; intros Hnone; [done|].
  rewrite filter_cons, decide_False by (apply Hnone; left).
  apply IH. intros tc' ?. apply Hnone. by right.
Qed.

(** C2, as stated, fails: with no affected feature the filter keeps no
    ordinary test case, so the suite does not come back unchanged. *)
Lemma filter_empty_features_not_identity :
  test_cases (filter_tests_by_features login_suite [] []) = []
  ∧ filter_tests_by_features login_suite [] [] ≠ login_suite.
Proof.
  assert (H : test_cases (filter_tests_by_features login_suite [] []) = [])
    by reflexivity.
  split; [exact H|]. intros Heq. rewrite Heq in H. discriminate H.
Qed.

(** C2, amended: with an empty list of affected features
    [filter_tests_by_features] returns the suite renamed
    ["<name>-filtered"], with the same application address, whose test cases
    are exactly the critical test cases of the input, in their order. *)
Theorem filter_empty_features_keeps_critical (full_suite : E2ETestSuite)
    (feature_mappings : list FeatureMapping) :
  filter_tests_by_features full_suite [] feature_mappings
  = {| suite_name := suite_name full_suite +:+ "-filtered";
       suite_description := "Filtered suite for features: ";
       app_url := app_url full_suite;
       test_cases :=
         filter (fun tc => critical tc = true) (test_cases full_suite) |}.
Proof.
  unfold filter_tests_by_features. f_equal.
  change (relevant_test_ids [] feature_mappings) with (∅ : gset string).
  rewrite filter_no_id_selected by (intros; apply not_elem_of_empty).
  simpl. apply list_filter_iff. intros tc. split; [by intros [? _]|].
  intros ?. split; [done|apply not_elem_of_empty].
Qed.

(** C8: a critical test case of the input suite is a test case of the
    filtered suite, for every list of affected features (the empty one
    included) and every list of mappings.  The filtered list is the matched
    cases followed by the appended ones; the matched cases are the cases of
    the suite whose id a selected mapping names, the appended ones are the
    critical cases that no selected mapping names, both in suite order; a
    critical case that was not matched is among the appended ones. *)
Theorem critical_tests_survive_filtering (full_suite : E2ETestSuite)
    (affected_features : list string)
    (feature_mappings : list FeatureMapping) (tc : E2ETestCase) :
  tc ∈ test_cases full_suite →
  critical tc = true →
  let filtered :=
    filter_tests_by_features full_suite affected_features feature_mappings in
  let selected := selected_by_features affected_features feature_mappings in
  tc ∈ test_cases filtered
  ∧ ∃ matched appended,
      test_cases filtered = matched ++ appended
      ∧ matched `sublist_of` test_cases full_suite
      ∧ appended `sublist_of` test_cases full_suite
      ∧ (∀ x, x ∈ matched ↔ x ∈ test_cases full_suite ∧ selected (tc_id x))
      ∧ (∀ x, x ∈ appended ↔
              x ∈ test_cases full_suite ∧ critical x = true
              ∧ ¬ selected (tc_id x))
      ∧ (¬ selected (tc_id tc) → tc ∈ appended).
Proof.
  intros Hin Hcrit filtered selected.
  set (relevant := relevant_test_ids affected_features feature_mappings).
  set (matched := filter (fun x => tc_id x ∈ relevant) (test_cases full_suite)).
  set (appended := filter (fun x => critical x = true ∧ tc_id x ∉ relevant)
                          (test_cases full_suite)).
  assert (Hout : test_cases filtered = matched ++ appended) by reflexivity.
  assert (Hm : ∀ x, x ∈ matched ↔ x ∈ test_cases full_suite ∧ selected (tc_id x)).
  { intros x. unfold matched. rewrite list_elem_of_filter.
    unfold relevant. rewrite elem_of_relevant_test_ids. tauto. }
  assert (Ha : ∀ x, x ∈ appended ↔
             x ∈ test_cases full_suite ∧ critical x = true
             ∧ ¬ selected (tc_id x)).
  { intros x. unfold appended. rewrite list_elem_of_filter.
    unfold relevant. rewrite elem_of_relevant_test_ids. tauto. }
  split.
  - rewrite Hout, elem_of_app.
    destruct (decide (tc_id tc ∈ relevant)) as [Hrel|Hrel].
    + left. apply Hm. split; [done|].
      by apply elem_of_relevant_test_ids.
    + right. apply Ha. repeat split; [done..|].
      intros Hsel. apply Hrel. by apply elem_of_relevant_test_ids.
  - exists matched, appended.
    split; [exact Hout|]. split; [apply sublist_filter|].
    split; [apply sublist_filter|]. split; [exact Hm|]. split; [exact Ha|].
    intros Hsel. by apply Ha.
Qed.

Lemma critical_tests_survive_filtering_witness :
  smoke_case ∈ test_cases
    (filter_tests_by_features mixed_suite ["auth"] [auth_mapping]).
Proof.
  apply (critical_tests_survive_filtering mixed_suite ["auth"] [auth_mapping]
           smoke_case).
  - left.
  - reflexivity.
Defined.

Example filter_appends_critical_last :
  test_cases (filter_tests_by_features mixed_suite ["auth"] [auth_mapping])
  = [login_case; smoke_case].
Proof. reflexivity. Qed.

(** ** Cross-browser expansion *)

Lemma expand_inner_loop (tc : E2ETestCase) (browsers : list string)
    (expanded : list E2ETestCase) :
  fold_left (fun expanded browser => expanded ++ [browser_copy tc browser])
            browsers expanded
  = expanded ++ map (browser_copy tc) browsers.
Proof.
  revert expanded. induction browsers as [|b bs IH]; intros expanded; simpl.
  - by rewrite app_nil_r.
  - by rewrite IH, <- app_assoc.
Qed.

Lemma expand_outer_loop (cases : list E2ETestCase) (browsers : list string)
    (expanded : list E2ETestCase) :
  fold_left (fun expanded tc =>
    fold_left (fun expanded browser => expanded ++ [browser_copy tc browser])
              browsers expanded) cases expanded
  = expanded ++ flat_map (fun tc => map (browser_copy tc) browsers) cases.
Proof.
  revert expanded. induction cases as [|tc tcs IH]; intros expanded; simpl.
  - by rewrite app_nil_r.
  - by rewrite IH, expand_inner_loop, <- app_assoc.
Qed.

Lemma expand_as_flat_map (cases : list E2ETestCase) (browsers : list string) :
  expand_test_cases_for_browsers cases browsers
  = flat_map (fun tc => map (browser_copy tc) browsers) cases.
Proof. unfold expand_test_cases_for_browsers. by rewrite expand_outer_loop. Qed.

Lemma expand_length (cases : list E2ETestCase) (browsers : list string) :
  length (expand_test_cases_for_browsers cases browsers)
  = (length cases * length browsers)%nat.
Proof.
  rewrite expand_as_flat_map.
  induction cases as [|tc tcs IH]; simpl; [done|].
  rewrite length_app, length_map, IH. done.
Qed.

Lemma expand_lookup (cases : list E2ETestCase) (browsers : list string)
    (i j : nat) (tc : E2ETestCase) (browser : string) :
  cases !! i = Some tc →
  browsers !! j = Some browser →
  expand_test_cases_for_browsers cases browsers
    !! (i * length browsers + j)%nat
  = Some (browser_copy tc browser).
Proof.
  rewrite expand_as_flat_map. revert i.
  induction cases as [|tc0 tcs IH]; intros i Hi Hj; [done|].
  simpl. destruct i as [|i]; simpl in *.
  - injection Hi as ->. apply lookup_app_l_Some.
    by rewrite list_lookup_fmap, Hj.
  - rewrite lookup_app_r by (rewrite length_map; lia).
    rewrite length_map.
    replace (length browsers + i * length browsers + j - length browsers)%nat
      with (i * length browsers + j)%nat by lia.
    by apply IH.
Qed.

(** C7: the expansion has [len(cases) * len(browsers)] test cases; the case
    at position [i * len(browsers) + j] (case-major, browser-minor) is the
    copy of case [i] for browser [j], whose id is ["<id>-<browser>"] and
    whose steps are those of case [i]. *)
Theorem expand_count_and_order (cases : list E2ETestCase)
    (browsers : list string) :
  length (expand_test_cases_for_browsers cases browsers)
  = (length cases * length browsers)%nat
  ∧ ∀ (i j : nat) (tc : E2ETestCase) (browser : string),
      cases !! i = Some tc →
      browsers !! j = Some browser →
      ∃ copy,
        expand_test_cases_for_browsers cases browsers
          !! (i * length browsers + j)%nat = Some copy
        ∧ tc_id copy = tc_id tc +:+ "-" +:+ browser
        ∧ steps copy = steps tc.
Proof.
  split; [apply expand_length|].
  intros i j tc browser Hi Hj. exists (browser_copy tc browser).
  split; [by apply expand_lookup|done].
Qed.

Lemma expand_count_and_order_witness :
  length (expand_test_cases_for_browsers [login_case; smoke_case]
            ["chromium"; "firefox"]) = 4%nat
  ∧ ∃ copy,
      expand_test_cases_for_browsers [login_case; smoke_case]
        ["chromium"; "firefox"] !! 3%nat = Some copy
      ∧ tc_id copy = "smoke-1-firefox"
      ∧ steps copy = [].
Proof.
  destruct (expand_count_and_order [login_case; smoke_case]
              ["chromium"; "firefox"]) as [Hlen Hidx].
  split; [exact Hlen|].
  exact (Hidx 1%nat 1%nat smoke_case "firefox" eq_refl eq_refl).
Defined.

(** ** Running a test case *)

(** C10: for a test case whose [skip] flag is set, [run_test_case] returns a
    record with [passed] and [skipped] both [True] and an empty interaction
    history, and the world is the one it started from: no step was executed
    and no operation of the client was invoked. *)
Theorem skipped_case_passes_untouched (env : Env) {py : PyBuiltins} (client : nat)
    (test_case : E2ETestCase) (w : World) :
  skip test_case = true ->
  ∃ result,
    run_test_case env client test_case w = (w, Returns result)
    ∧ dict_get result "passed" VNone = VBool true
    ∧ dict_get result "skipped" VNone = VBool true
    ∧ dict_get result "interaction_history" VNone = VList [].
Proof.
  intros Hskip. unfold run_test_case. rewrite Hskip.
  eexists. split; [reflexivity|]. by repeat split.
Qed.

Lemma skipped_case_passes_untouched_witness :
  ∃ result,
    run_test_case (example_env 0) (py := example_builtins) 0%nat skipped_case []
      = ([], Returns result)
    ∧ dict_get result "passed" VNone = VBool true
    ∧ dict_get result "skipped" VNone = VBool true
    ∧ dict_get result "interaction_history" VNone = VList [].
Proof.
  apply (skipped_case_passes_untouched (example_env 0) (py := example_builtins)
           0%nat skipped_case []).
  reflexivity.
Defined.

(** The same case without the flag does drive the client. *)
Example unskipped_case_clicks :
  fst (run_test_case (example_env 0) (py := example_builtins) 0%nat
         {| tc_id := "dash-1"; tc_name := "Dashboard";
            tc_description := "Dashboard test"; steps := steps skipped_case;
            skip := false; critical := false |} [])
  = [EvCall 0%nat (Client.click "#open")].
Proof. reflexivity. Qed.

(** ** Fallback when the backend is unavailable *)

Lemma prefix_append (needle hay : string) :
  String.prefix needle hay = true ↔ ∃ post, hay = needle +:+ post.
Proof.
  revert hay. induction needle as [|a n IH]; intros hay.
  - split; [intros _; by exists hay|intros _; by destruct hay].
  - destruct hay as [|b h]; simpl;
      [split; [done|intros [post Hp]; discriminate Hp]|].
    destruct (ascii_dec a b) as [->|Hne].
    + rewrite IH. split; intros [post Hp]; exists post.
      * by rewrite Hp.
      * by injection Hp.
    + split; [done|]. intros [post Hp]. injection Hp as Hab _. congruence.
Qed.

(** [contains] decides whether the needle occurs in the text. *)
Lemma contains_occurs (hay needle : string) :
  contains hay needle = true ↔ ∃ pre post, hay = pre +:+ needle +:+ post.
Proof.
  induction hay as [|a h IH]; cbn [contains].
  - rewrite orb_false_r, prefix_append. split.
    + intros [post Hp]. by exists "", post.
    + intros (pre & post & Hp). destruct pre; [by exists post|discriminate Hp].
  - rewrite orb_true_iff, prefix_append, IH. split.
    + intros [[post Hp]|(pre & post & Hp)].
      * by exists "", post.
      * exists (String a pre), post. simpl. by rewrite Hp.
    + intros (pre & post & Hp). destruct pre as [|b pre]; simpl in Hp.
      * left. by exists post.
      * right. exists pre, post. by injection Hp.
Qed.

Lemma run_unit_tests_returns (env : Env) (w : World) :
  launches_succeed env → ∃ w' b, _run_unit_tests env w = (w', Returns b).
Proof.
  intros Hl. unfold _run_unit_tests, exists_, subprocess_run. unfold_M.
  destruct (path_exists env w "pytest.ini"); cbn.
  - destruct (Hl (w ++ [EvExists "pytest.ini"]) ["pytest"; "-x"; "-q"])
      as [rc ->]. eauto.
  - destruct (path_exists env _ "tests"); cbn.
    + destruct (Hl ((w ++ [EvExists "pytest.ini"]) ++ [EvExists "tests"])
                 ["pytest"; "-x"; "-q"]) as [rc ->]. eauto.
    + destruct (path_exists env _ "package.json"); cbn; [|eauto].
      destruct (Hl (((w ++ [EvExists "pytest.ini"]) ++ [EvExists "tests"])
                      ++ [EvExists "package.json"]) ["npm"; "test"])
        as [rc ->]. eauto.
Qed.

Lemma run_lint_returns (env : Env) (w : World) :
  launches_succeed env → ∃ w' b, _run_lint env w = (w', Returns b).
Proof.
  intros Hl. unfold _run_lint, exists_, subprocess_run. unfold_M.
  destruct (path_exists env w "package.json"); cbn.
  - destruct (Hl (w ++ [EvExists "package.json"]) ["npm"; "run"; "lint"])
      as [rc ->]. eauto.
  - destruct (path_exists env _ "pyproject.toml"); cbn; [|eauto].
    destruct (Hl ((w ++ [EvExists "package.json"]) ++ [EvExists "pyproject.toml"])
                ["ruff"; "check"; "."]) as [rc ->]. eauto.
Qed.

(** What [handle_mcp_unavailable] does in REDUCED mode, in terms of the two
    substitute checks. *)
Lemma handle_reduced (env : Env) (availability : MCPAvailability)
    (config : FallbackConfig) (w : World) :
  mode config = REDUCED →
  handle_mcp_unavailable env availability (Some config) w
  = match (if run_unit_tests config
           then (b ← _run_unit_tests env; mret (Some b)) w
           else (w, Returns None)) with
    | (w1, Raises e) => (w1, Raises e)
    | (w1, Returns unit_tests) =>
        match (if run_lint config
               then (b ← _run_lint env; mret (Some b)) w1
               else (w1, Returns None)) with
        | (w2, Raises e) => (w2, Raises e)
        | (w2, Returns lint) =>
            (w2, Returns
               (Some (mkE2EValidationResult true 0 0 0 []
                        (format_error_message (reason availability) false)),
                {| used_fallback := true; fb_reason := message availability;
                   validation_run := "reduced";
                   unit_tests_passed := unit_tests; lint_passed := lint |}))
        end
    end.
Proof.
  intros Hmode. unfold handle_mcp_unavailable. unfold_M. rewrite Hmode.
  destruct (run_unit_tests config), (run_lint config); cbn.
  - destruct (_run_unit_tests env w) as [w1 [b|e]]; cbn; [|done].
    destruct (_run_lint env w1) as [w2 [b'|e]]; done.
  - destruct (_run_unit_tests env w) as [w1 [b|e]]; done.
  - destruct (_run_lint env w) as [w2 [b'|e]]; done.
  - done.
Qed.

(** What the handler does when every launch of a substitute check yields an
    exit status: in the modes WARN, SKIP and REDUCED, whatever the
    availability record and the rest of the configuration,
    - a call of [handle_mcp_unavailable] that returns, returns a validation
      result that is not [None], with [passed = True] and
      [total_checks = 0];
    - the call does return: always in the modes WARN and SKIP, and in
      REDUCED mode as soon as the commands of the substitute checks can be
      launched, whatever their exit status;
    - in REDUCED mode the fallback result records the outcome of the unit
      tests and of the linter, each when it is enabled, and these outcomes
      are absent from the validation result. *)
Theorem unavailable_backend_is_not_a_failure (env : Env)
    (availability : MCPAvailability) (config : FallbackConfig) (w : World) :
  mode config ≠ FAIL →
  (∀ w' out,
     handle_mcp_unavailable env availability (Some config) w
       = (w', Returns out) →
     ∃ result, out.1 = Some result
               ∧ passed result = true ∧ total_checks result = 0)
  ∧ (mode config ≠ REDUCED ∨ launches_succeed env →
     ∃ w' result fallback,
       handle_mcp_unavailable env availability (Some config) w
         = (w', Returns (Some result, fallback))
       ∧ passed result = true ∧ total_checks result = 0
       ∧ used_fallback fallback = true
       ∧ (mode config ≠ REDUCED →
            w' = w ∧ unit_tests_passed fallback = None
            ∧ lint_passed fallback = None)
       ∧ (mode config = REDUCED →
            ∃ w1,
              (if run_unit_tests config
               then ∃ b, _run_unit_tests env w = (w1, Returns b)
                         ∧ unit_tests_passed fallback = Some b
               else w1 = w ∧ unit_tests_passed fallback = None)
              ∧ (if run_lint config
                 then ∃ b, _run_lint env w1 = (w', Returns b)
                           ∧ lint_passed fallback = Some b
                 else w' = w1 ∧ lint_passed fallback = None))).
Proof.
  intros Hmode. destruct (mode config) eqn:Hm; [done| | |].
  - (* WARN *)
    split.
    + intros w' out Hrun. unfold handle_mcp_unavailable in Hrun.
      unfold_M in Hrun. rewrite Hm in Hrun. injection Hrun as _ <-. eauto.
    + intros _. unfold handle_mcp_unavailable. unfold_M. rewrite Hm.
      do 3 eexists. split; [reflexivity|]. by repeat split.
  - (* SKIP *)
    split.
    + intros w' out Hrun. unfold handle_mcp_unavailable in Hrun.
      unfold_M in Hrun. rewrite Hm in Hrun. injection Hrun as _ <-. eauto.
    + intros _. unfold handle_mcp_unavailable. unfold_M. rewrite Hm.
      do 3 eexists. split; [reflexivity|]. by repeat split.
  - (* REDUCED *)
    rewrite (handle_reduced env availability config w Hm). split.
    + intros w' out Hrun.
      destruct (if run_unit_tests config then _ else _) as [w1 [ut|e]];
        [|discriminate Hrun].
      destruct (if run_lint config then _ else _) as [w2 [lint|e]];
        [|discriminate Hrun].
      injection Hrun as _ <-. eauto.
    + intros [Hne|Hl]; [done|].
      assert (Hut : ∃ w1 ut,
                (if run_unit_tests config
                 then (b ← _run_unit_tests env; mret (Some b)) w
                 else (w, Returns None)) = (w1, Returns ut)
                ∧ (if run_unit_tests config
                   then ∃ b, _run_unit_tests env w = (w1, Returns b)
                             ∧ ut = Some b
                   else w1 = w ∧ ut = None)).
      { destruct (run_unit_tests config); [|by eauto].
        destruct (run_unit_tests_returns env w Hl) as (w1 & b & Hb).
        exists w1, (Some b). unfold_M. rewrite Hb. eauto. }
      destruct Hut as (w1 & ut & -> & Hut).
      assert (Hlint : ∃ w2 lint,
                (if run_lint config
                 then (b ← _run_lint env; mret (Some b)) w1
                 else (w1, Returns None)) = (w2, Returns lint)
                ∧ (if run_lint config
                   then ∃ b, _run_lint env w1 = (w2, Returns b)
                             ∧ lint = Some b
                   else w2 = w1 ∧ lint = None)).
      { destruct (run_lint config); [|by eauto].
        destruct (run_lint_returns env w1 Hl) as (w2 & b & Hb).
        exists w2, (Some b). unfold_M. rewrite Hb. eauto. }
      destruct Hlint as (w2 & lint & -> & Hlint).
      do 3 eexists. split; [reflexivity|].
      split; [done|]. split; [done|]. split; [done|]. split; [done|].
      intros _. exists w1. by split.
Qed.

Lemma example_env_launches (t : Z) : launches_succeed (example_env t).
Proof. intros w cmd. by exists 1. Defined.

Lemma unavailable_backend_is_not_a_failure_witness :
  mode reduced_config ≠ FAIL
  ∧ ∃ w' result fallback,
      handle_mcp_unavailable (example_env 0) server_down (Some reduced_config) []
        = (w', Returns (Some result, fallback))
      ∧ passed result = true ∧ total_checks result = 0.
Proof.
  assert (Hmode : mode reduced_config ≠ FAIL) by discriminate.
  split; [exact Hmode|].
  destruct (unavailable_backend_is_not_a_failure (example_env 0) server_down
              reduced_config [] Hmode) as [_ Hret].
  destruct (Hret (or_intror (example_env_launches 0)))
    as (w' & result & fallback & Hrun & Hpassed & Htotal & _).
  exists w', result, fallback. by repeat split.
Defined.

(** The unit tests of the example project fail; the failure is recorded and
    the validation result still passes. *)
Example reduced_mode_records_failed_unit_tests :
  snd (handle_mcp_unavailable (example_env 0) server_down (Some reduced_config) [])
  = Returns
      (Some (mkE2EValidationResult true 0 0 0 []
               (format_error_message (Some SERVER_NOT_RUNNING) false)),
       {| used_fallback := true;
          fb_reason := "Browser MCP server is not running";
          validation_run := "reduced";
          unit_tests_passed := Some false; lint_passed := Some true |}).
Proof. reflexivity. Qed.

(** An exception of [subprocess.run] in a substitute check is not caught: it
    leaves [_run_unit_tests] and then the handler, which returns no result.
    The linter is not run. *)
Lemma reduced_mode_passes_launch_error_on (env : Env)
    (availability : MCPAvailability) (config : FallbackConfig) (w w1 : World)
    (e : exn) :
  mode config = REDUCED →
  run_unit_tests config = true →
  _run_unit_tests env w = (w1, Raises e) →
  handle_mcp_unavailable env availability (Some config) w = (w1, Raises e).
Proof.
  intros Hmode Hunit Hraise.
  rewrite (handle_reduced env availability config w Hmode).
  rewrite Hunit. unfold_M. by rewrite Hraise.
Qed.

(** With a [tests] directory and no [pytest.ini], the outcome of the unit
    tests is that of launching [pytest]: its exception if it raises. *)
Lemma run_unit_tests_raises_with_launch (env : Env) (w : World) (e : exn) :
  path_exists env w "pytest.ini" = false →
  path_exists env (w ++ [EvExists "pytest.ini"]) "tests" = true →
  subprocess_returncode env
    ((w ++ [EvExists "pytest.ini"]) ++ [EvExists "tests"])
    ["pytest"; "-x"; "-q"] = Raises e →
  _run_unit_tests env w
  = (((w ++ [EvExists "pytest.ini"]) ++ [EvExists "tests"])
       ++ [EvRun ["pytest"; "-x"; "-q"]], Raises e).
Proof.
  intros Hini Htests Hlaunch.
  unfold _run_unit_tests, exists_, subprocess_run. unfold_M.
  rewrite Hini. cbn. rewrite Htests. cbn. by rewrite Hlaunch.
Qed.

(** C1 fails on the code: in REDUCED mode, for a project with a [tests]
    directory on a machine where [pytest] is not installed, the launch of
    the unit tests raises [FileNotFoundError]; [handle_mcp_unavailable]
    does not catch it and raises it in its turn, after three interactions,
    instead of returning a passing validation result. *)
Theorem reduced_fallback_raises_when_launch_fails :
  handle_mcp_unavailable pytest_missing_env server_down (Some reduced_config) []
  = ([EvExists "pytest.ini"; EvExists "tests"; EvRun ["pytest"; "-x"; "-q"]],
     Raises (Exn FileNotFoundError
               "[Errno 2] No such file or directory: 'pytest'")).
Proof.
  apply reduced_mode_passes_launch_error_on; [reflexivity..|].
  by apply (run_unit_tests_raises_with_launch pytest_missing_env []).
Qed.

(** C4, as stated, fails: in WARN mode the output message of the result
    does not contain the remediation text of the catalog entry. *)
Lemma warn_output_lacks_remediation :
  ∃ result fallback,
    handle_mcp_unavailable (example_env 0) server_down
      (Some default_FallbackConfig) []
      = ([], Returns (Some result, fallback))
    ∧ ¬ ∃ pre post,
          raw_output result
          = pre +:+ remediation (get_error_for_reason (reason server_down))
                +:+ post.
Proof.
  unfold handle_mcp_unavailable. unfold_M.
  do 2 eexists. split; [reflexivity|].
  intros Hocc. apply contains_occurs in Hocc. vm_compute in Hocc.
  discriminate Hocc.
Qed.

(** C4, amended: in WARN mode [handle_mcp_unavailable] returns, without any
    interaction, a passing result with zero checks whose output message is
    the catalog entry of the availability's failure reason (the entry of
    UNKNOWN when there is no reason) formatted without its remediation: the
    warning sign, the message and the code of the entry, two empty lines and
    the link to the documentation.  The remediation text of the entry does
    not occur in it. *)
Theorem warn_output_names_the_error (env : Env) (availability : MCPAvailability)
    (config : FallbackConfig) (w : World) :
  mode config = WARN →
  let error := get_error_for_reason (reason availability) in
  ∃ result fallback url,
    handle_mcp_unavailable env availability (Some config) w
      = (w, Returns (Some result, fallback))
    ∧ passed result = true ∧ total_checks result = 0
    ∧ validation_run fallback = "none"
    ∧ docs_url error = Some url
    ∧ raw_output result
      = warning_sign +:+ "  " +:+ err_message error +:+ " [" +:+ code error
        +:+ "]" +:+ nl +:+ nl +:+ nl +:+ "Documentation: " +:+ url
    ∧ contains (raw_output result) (remediation error) = false.
Proof.
  intros Hmode error. unfold handle_mcp_unavailable. unfold_M. rewrite Hmode.
  subst error.
  destruct (reason availability) as [[]|];
    (do 3 eexists; split; [reflexivity|];
     split; [reflexivity|]; split; [reflexivity|]; split; [reflexivity|];
     split; [reflexivity|]; split; [reflexivity|]; vm_compute; reflexivity).
Qed.

Lemma warn_output_names_the_error_witness :
  ∃ result fallback,
    handle_mcp_unavailable (example_env 0) server_down
      (Some default_FallbackConfig) []
      = ([], Returns (Some result, fallback))
    ∧ raw_output result
      = warning_sign +:+ "  MCP server is not running [MCP_001]" +:+ nl +:+ nl
        +:+ nl +:+ "Documentation: https://docs.anthropic.com/mcp/servers".
Proof.
  destruct (warn_output_names_the_error (example_env 0) server_down
              default_FallbackConfig [] eq_refl)
    as (result & fallback & url & Hrun & _ & _ & _ & Hurl & Hout & _).
  exists result, fallback. split; [exact Hrun|].
  injection Hurl as <-. exact Hout.
Defined.

(** ** The availability checker *)

Lemma count_events_app (p : Event -> bool) (w w' : World) :
  count_events p (w ++ w') = (count_events p w + count_events p w')%nat.
Proof. unfold count_events. by rewrite List.filter_app, length_app. Qed.

Lemma clock_reads_no_client (p : Event -> bool) (r : Outcome bool) :
  p EvNow = false → count_events p (clock_reads r) = 0%nat.
Proof.
  intros Hp. unfold count_events.
  destruct r as [[]|[[] msg]]; simpl; by rewrite ?Hp.
Qed.

Lemma classify_spec (env : Env) (b : Backend) (r : Outcome bool) (w : World) :
  ∃ a, classify env b r w = (w ++ clock_reads r, Returns a)
       ∧ checked_at a = clock env w
       ∧ reason a = classified_reason r
       ∧ is_available a = match r with Returns true => true | _ => false end.
Proof.
  unfold classify, now.
  destruct r as [[]|[[] msg]]; unfold_M; rewrite <- ?app_assoc; eauto.
Qed.

(** The history and the outcome of the first three statements of the [try]
    block.  [connect] never raises, so [close] is always awaited; only the
    call that [close] makes to the server can end the probe with an
    exception. *)
Lemma probe_spec (env : Env) (b : Backend) (w : World) :
  let id := count_events is_new w in
  let w2 := w ++ [EvNew (backend_client b) id; EvCall id Client.connect] in
  let w3 := w2 ++ [EvCall id (Client._mcp_call "ping" [])] in
  let w4 := w3 ++ [EvCall id Client.close] in
  let closing := Client._mcp_call (close_method (backend_client b)) [] in
  probe env b w
  = match client_answer env w2 id (Client._mcp_call "ping" []) with
    | Raises _ => (w4, Returns false)
    | Returns _ =>
        match client_answer env w4 id closing with
        | Returns _ => (w4 ++ [EvCall id closing], Returns true)
        | Raises e => (w4 ++ [EvCall id closing], Raises e)
        end
    end.
Proof.
  intros id w2 w3 w4 closing. subst w4 w3 w2 closing.
  unfold probe, new_client, client_connect, client_close, note, call.
  unfold_M. fold id. rewrite <- !app_assoc. simpl.
  destruct (client_answer env _ id (Client._mcp_call "ping" [])) as [v|e];
    simpl; rewrite <- ?app_assoc; simpl; [|done].
  by destruct (client_answer env _ id _) as [v'|e].
Qed.

Lemma probe_history (env : Env) (b : Backend) (w : World) :
  fst (probe env b w) = w ++ probe_calls env b w.
Proof.
  rewrite probe_spec. unfold probe_calls. cbv zeta.
  destruct (client_answer env _ _ (Client._mcp_call "ping" [])) as [v|e]; simpl.
  - destruct (client_answer env _ _ _); simpl; by rewrite <- !app_assoc.
  - by rewrite <- !app_assoc.
Qed.

(** A check whose opening test finds no fresh cached value probes, stores
    what it classified and returns it. *)
Lemma check_mcp_probes (env : Env) (b : Backend) (self : MCPAvailabilityChecker)
    (force : bool) (w w0 : World) :
  fresh_cache env b self force w = (w0, Returns None) →
  ∃ a,
    check_mcp env b self force w
    = (w0 ++ probe_calls env b w0 ++ clock_reads (snd (probe env b w0)),
       Returns (a, set_cache b self a))
    ∧ reason a = classified_reason (snd (probe env b w0))
    ∧ checked_at a = clock env (w0 ++ probe_calls env b w0).
Proof.
  intros Hfresh. unfold check_mcp. unfold_M. rewrite Hfresh.
  pose proof (probe_history env b w0) as Hhist.
  destruct (probe env b w0) as [w1 r]. simpl in Hhist. subst w1. simpl.
  destruct (classify_spec env b r (w0 ++ probe_calls env b w0))
    as (a & -> & Hat & Hreason & _).
  exists a. by rewrite <- app_assoc.
Qed.

(** The opening test reads the clock at most once and touches no client. *)
Lemma fresh_cache_history (env : Env) (b : Backend)
    (self : MCPAvailabilityChecker) (force : bool) (w w0 : World)
    (r : Outcome (option MCPAvailability)) :
  fresh_cache env b self force w = (w0, r) → w0 = w ∨ w0 = w ++ [EvNow].
Proof.
  unfold fresh_cache, now. unfold_M.
  destruct force; simpl; [intros [= <- _]; by left|].
  destruct (cache_of b self) as [c|]; [|intros [= <- _]; by left].
  destruct (_ <? _); intros [= <- _]; by right.
Qed.

Lemma fresh_cache_hit (env : Env) (b : Backend) (self : MCPAvailabilityChecker)
    (cached : MCPAvailability) (w : World) :
  cache_of b self = Some cached →
  clock env w - checked_at cached < _cache_duration self →
  fresh_cache env b self false w = (w ++ [EvNow], Returns (Some cached)).
Proof.
  intros Hc Hlt. unfold fresh_cache, now. unfold_M. rewrite Hc.
  by rewrite (proj2 (Z.ltb_lt _ _) Hlt).
Qed.

(** When a probe is due: on a forced check, on a cache miss, and when the
    cached value has reached the TTL. *)
Lemma fresh_cache_miss (env : Env) (b : Backend) (self : MCPAvailabilityChecker)
    (force : bool) (w : World) :
  force = true ∨ cache_of b self = None →
  fresh_cache env b self force w = (w, Returns None).
Proof.
  unfold fresh_cache. intros [->| Hnone]; [done|].
  rewrite Hnone. by destruct force.
Qed.

Lemma fresh_cache_stale (env : Env) (b : Backend)
    (self : MCPAvailabilityChecker) (cached : MCPAvailability) (w : World) :
  cache_of b self = Some cached →
  _cache_duration self ≤ clock env w - checked_at cached →
  fresh_cache env b self false w = (w ++ [EvNow], Returns None).
Proof.
  intros Hc Hge. unfold fresh_cache, now. unfold_M. rewrite Hc.
  by rewrite (proj2 (Z.ltb_ge _ _) Hge).
Qed.

Lemma probe_calls_new (env : Env) (b : Backend) (w : World) :
  count_events is_new (probe_calls env b w) = 1%nat.
Proof.
  unfold probe_calls, count_events. cbv zeta.
  by destruct (client_answer env _ _ (Client._mcp_call "ping" [])).
Qed.

Lemma probe_calls_connect (env : Env) (b : Backend) (w : World) :
  count_events is_connect_call (probe_calls env b w) = 1%nat.
Proof.
  unfold probe_calls, count_events. cbv zeta.
  by destruct (client_answer env _ _ (Client._mcp_call "ping" [])).
Qed.

(** C3: on every probe (the opening test of the check found no fresh cached
    value: cache miss, stale entry or forced check) the checker creates a
    client, awaits [connect] on it and then awaits [close] on it, once each,
    in this order.  This holds whatever the server answers: when the ping
    made by [connect] raises, [connect] returns [False], [close] is awaited
    all the same and the result is classified SERVER_NOT_RUNNING.  What
    follows [close] in the history is at most the call it makes to the
    server, and clock reads. *)
Theorem probe_always_closes (env : Env) (b : Backend)
    (self : MCPAvailabilityChecker) (force : bool) (w w0 : World) :
  fresh_cache env b self force w = (w0, Returns None) →
  let id := count_events is_new w0 in
  let w2 := w0 ++ [EvNew (backend_client b) id; EvCall id Client.connect] in
  ∃ a rest,
    check_mcp env b self force w
    = (w2 ++ [EvCall id (Client._mcp_call "ping" []); EvCall id Client.close]
          ++ rest,
       Returns (a, set_cache b self a))
    ∧ count_events is_new rest = 0%nat
    ∧ count_events is_connect_call rest = 0%nat
    ∧ count_events is_close_call rest = 0%nat
    ∧ (∀ e,
         client_answer env w2 id (Client._mcp_call "ping" []) = Raises e →
         reason a = Some SERVER_NOT_RUNNING
         ∧ Forall (eq EvNow) rest).
Proof.
  intros Hfresh id w2.
  destruct (check_mcp_probes env b self force w w0 Hfresh)
    as (a & Hrun & Hreason & _).
  exists a.
  exists (match client_answer env w2 id (Client._mcp_call "ping" []) with
          | Returns _ =>
              [EvCall id (Client._mcp_call (close_method (backend_client b)) [])]
          | Raises _ => []
          end ++ clock_reads (snd (probe env b w0))).
  split.
  - rewrite Hrun. unfold probe_calls. fold id. fold w2. unfold w2.
    by rewrite <- !app_assoc.
  - rewrite !count_events_app, !clock_reads_no_client by done.
    split; [by destruct (client_answer env _ _ _)|].
    split; [by destruct (client_answer env _ _ _)|].
    split; [by destruct (client_answer env _ _ _)|].
    intros e He. rewrite Hreason, probe_spec. fold id. fold w2.
    rewrite He. simpl. split; [done|]. repeat constructor.
Qed.

Lemma probe_always_closes_witness :
  ∃ a rest,
    check_mcp (silent_env 7) Browser (new_MCPAvailabilityChecker 60) false []
    = ([EvNew BrowserMCPClient 0%nat; EvCall 0%nat Client.connect]
         ++ [EvCall 0%nat (Client._mcp_call "ping" []);
             EvCall 0%nat Client.close] ++ rest,
       Returns (a, set_cache Browser (new_MCPAvailabilityChecker 60) a))
    ∧ reason a = Some SERVER_NOT_RUNNING
    ∧ Forall (eq EvNow) rest.
Proof.
  destruct (probe_always_closes (silent_env 7) Browser
              (new_MCPAvailabilityChecker 60) false [] [] eq_refl)
    as (a & rest & Hrun & _ & _ & _ & Hsilent).
  exists a, rest. split; [exact Hrun|].
  exact (Hsilent (Exn TimeoutError "timed out") eq_refl).
Defined.

(** The server answers the ping and the call made by [close] times out: the
    probe still awaited [close], and the exception is classified. *)
Example close_timeout_is_classified :
  let env :=
    {| clock := fun _ => 0;
       client_answer := fun _ _ op =>
         match op as o return Outcome (Client.RetTy o) with
         | Client._mcp_call "close" _ => Raises (Exn TimeoutError "timed out")
         | op' => obliging_client op'
         end;
       factory_answer := fun _ => Returns tt;
       path_exists := fun _ _ => false;
       subprocess_returncode := fun _ _ => Returns 0;
       validation_config_file := fun _ => Returns default_ValidationDepthConfig;
       feature_mappings_file := fun _ => Returns [];
       fallback_config_file := fun _ => Returns default_FallbackConfig |} in
  let run := check_browser_mcp env (new_MCPAvailabilityChecker 60) false [] in
  fst run = [EvNew BrowserMCPClient 0%nat; EvCall 0%nat Client.connect;
             EvCall 0%nat (Client._mcp_call "ping" []);
             EvCall 0%nat Client.close;
             EvCall 0%nat (Client._mcp_call "close" []);
             EvNow; EvNow]
  ∧ ∃ a self', snd run = Returns (a, self')
               ∧ reason a = Some CONNECTION_TIMEOUT.
Proof.
  cbv zeta. split; [reflexivity|]. do 2 eexists. split; reflexivity.
Qed.

(** C6: if a cached value exists for the backend and the clock, read by the
    check, shows less than the TTL since its [checked_at], then a check with
    [force = False] returns the cached value, leaves the checker as it is
    and adds nothing to the history but that clock read: no client is
    created and no [connect] is attempted.  Hence, when the state in which
    this check runs was produced by a check that probed, the two checks
    together created one client and attempted one [connect]. *)
Theorem fresh_cache_skips_probe (env : Env) (b : Backend)
    (self : MCPAvailabilityChecker) (cached : MCPAvailability) (w : World) :
  cache_of b self = Some cached →
  clock env w - checked_at cached < _cache_duration self →
  check_mcp env b self false w = (w ++ [EvNow], Returns (cached, self))
  ∧ ∀ self0 force0 w0 w0',
      fresh_cache env b self0 force0 w0 = (w0', Returns None) →
      check_mcp env b self0 force0 w0 = (w, Returns (cached, self)) →
      count_events is_new (w ++ [EvNow]) = S (count_events is_new w0)
      ∧ count_events is_connect_call (w ++ [EvNow])
        = S (count_events is_connect_call w0).
Proof.
  intros Hcache Hyoung. split.
  - unfold check_mcp, mbind, M_bind, bind.
    by rewrite (fresh_cache_hit env b self cached w Hcache Hyoung).
  - intros self0 force0 w0 w0' Hfresh0 Hrun0.
    destruct (check_mcp_probes env b self0 force0 w0 w0' Hfresh0)
      as (a & Hrun & _).
    assert (Hw : w = w0' ++ probe_calls env b w0'
                       ++ clock_reads (snd (probe env b w0')))
      by congruence.
    clear Hrun Hrun0 Hyoung. subst w.
    assert (Hw0 : ∀ p, p EvNow = false →
                    count_events p w0' = count_events p w0).
    { intros p Hp.
      destruct (fresh_cache_history env b self0 force0 w0 w0' _ Hfresh0)
        as [->| ->]; [done|].
      rewrite count_events_app. unfold count_events at 2. simpl.
      rewrite Hp. simpl. lia. }
    rewrite !count_events_app, probe_calls_new, probe_calls_connect.
    rewrite !clock_reads_no_client by done.
    rewrite !Hw0 by done. unfold count_events; simpl. lia.
Qed.

Example first_check_probes :
  first_check
  = ([EvNew BrowserMCPClient 0%nat; EvCall 0%nat Client.connect;
      EvCall 0%nat (Client._mcp_call "ping" []);
      EvCall 0%nat Client.close;
      EvCall 0%nat (Client._mcp_call "close" []); EvNow],
     Returns (browser_up,
              set_cache Browser (new_MCPAvailabilityChecker 60) browser_up)).
Proof. reflexivity. Qed.

Lemma fresh_cache_skips_probe_witness :
  check_browser_mcp later_env
    (set_cache Browser (new_MCPAvailabilityChecker 60) browser_up) false
    (fst first_check)
  = (fst first_check ++ [EvNow],
     Returns (browser_up,
              set_cache Browser (new_MCPAvailabilityChecker 60) browser_up))
  ∧ count_events is_new (fst first_check ++ [EvNow]) = 1%nat
  ∧ count_events is_connect_call (fst first_check ++ [EvNow]) = 1%nat.
Proof.
  assert (Hyoung : clock later_env (fst first_check) - checked_at browser_up
                   < _cache_duration
                       (set_cache Browser (new_MCPAvailabilityChecker 60)
                          browser_up)) by (vm_compute; reflexivity).
  destruct (fresh_cache_skips_probe later_env Browser
              (set_cache Browser (new_MCPAvailabilityChecker 60) browser_up)
              browser_up (fst first_check) eq_refl Hyoung) as [Hhit Hone].
  split; [exact Hhit|].
  exact (Hone (new_MCPAvailabilityChecker 60) false [] [] eq_refl eq_refl).
Defined.

(** ** Smoke depth *)

Lemma never_raises_ret {A} (a : A) : never_raises (mret a).
Proof. intros w. by exists w, a. Qed.

Lemma never_raises_bind {A B} (m : M A) (k : A → M B) :
  never_raises m → (∀ a, never_raises (k a)) → never_raises (m ≫= k).
Proof.
  intros Hm Hk w. destruct (Hm w) as (w1 & a & Hma).
  destruct (Hk a w1) as (w2 & b & Hkb). exists w2, b.
  unfold mbind, M_bind, bind. by rewrite Hma.
Qed.

Lemma never_raises_attempt {A} (m : M A) : never_raises (attempt m).
Proof. intros w. unfold attempt. destruct (m w) as [w' o]. by exists w', o. Qed.

Section SmokeDepth.
Context (env : Env) {py : PyBuiltins}.

Lemma first_visible_never_raises (client : nat) (selectors : list string) :
  never_raises (first_visible env client selectors).
Proof.
  induction selectors as [|sel rest IH]; simpl.
  - apply never_raises_ret.
  - apply never_raises_bind; [apply never_raises_attempt|].
    intros [[]|e]; [apply never_raises_ret|exact IH|exact IH].
Qed.

(** Each of the four checks absorbs the exceptions of the client. *)
Lemma run_smoke_tests_never_raises (client : nat) (target : StrOrPath) :
  never_raises (run_smoke_tests env client target).
Proof.
  unfold run_smoke_tests.
  apply never_raises_bind; [apply never_raises_attempt|]. intros r1.
  destruct (match r1 with Returns true => _ | _ => _ end) as [loads errs1].
  apply never_raises_bind.
  { destruct loads; [|apply never_raises_ret].
    apply never_raises_bind; [apply never_raises_attempt|].
    intros r. apply never_raises_ret. }
  intros r2.
  destruct (match r2 with None => _ | _ => _ end) as [renders errs2].
  apply never_raises_bind; [apply never_raises_attempt|]. intros r3.
  destruct (match r3 with Returns _ => _ | _ => _ end) as [quiet errs3].
  apply never_raises_bind; [|intros healthy; apply never_raises_ret].
  destruct target as [url|path]; [|apply never_raises_ret].
  destruct (String.prefix "http" url); [|apply never_raises_ret].
  apply never_raises_bind; [apply never_raises_attempt|].
  intros [[]|e]; apply never_raises_ret.
Qed.

(** The conversion counts the four checks, whatever their outcome. *)
Lemma smoke_result_has_four_checks (smoke : SmokeTestResult) :
  total_checks (smoke_result_to_e2e_result smoke) = 4
  ∧ passed_checks (smoke_result_to_e2e_result smoke)
    + failed_checks (smoke_result_to_e2e_result smoke) = 4.
Proof. split; [reflexivity|]. simpl. lia. Qed.
End SmokeDepth.

Arguments run_smoke_tests : simpl never.

Section SmokeOrchestration.
Context (env : Env) {py : PyBuiltins}.
Context (run_full_suite : E2ETestSuite -> FullSuiteConfig -> M E2EValidationResult).

Lemma smoke_run_unfold (tier : string) (suite : E2ETestSuite)
    (changed_files : option (list string)) (w : World)
    (config : ValidationDepthConfig) :
  validation_config_file env (w ++ [EvNow]) = Returns config →
  get_validation_depth_for_tier tier (Some config) = SMOKE →
  run_complexity_aware_validation env run_full_suite tier suite changed_files w
  = match smoke_branch env (app_url suite) (resolved w) with
    | (w1, Raises e) => (w1, Raises e)
    | (w1, Returns result) =>
        (w1 ++ [EvNow],
         Returns (result,
                  {| tier := tier; depth := "smoke";
                     test_count := total_checks result;
                     passed_count := passed_checks result;
                     failed_count := failed_checks result;
                     duration_seconds := clock env w1 - clock env w;
                     skipped_test_count :=
                       Z.of_nat (length (test_cases suite));
                     browser_count := 1 |}))
    end.
Proof.
  intros Hconfig Hdepth.
  unfold run_complexity_aware_validation, smoke_branch, resolved.
  unfold now, load_validation_config, client_factory, new_client.
  unfold_M. rewrite Hconfig, Hdepth.
  destruct (factory_answer env _) as [[]|e]; [|done].
  unfold call. cbn.
  destruct (client_answer env _ _ Client.connect) as [connected|e]; cbn.
  - destruct (run_smoke_tests env _ _ _) as [w3 [smoke|e]]; cbn.
    + by destruct (client_answer env w3 _ Client.close) as [[]|e].
    + by destruct (client_answer env w3 _ Client.close) as [[]|e'].
  - by destruct (client_answer env _ _ Client.close) as [[]|e'].
Qed.

Lemma smoke_branch_result (url : string) (w w1 : World)
    (result : E2EValidationResult) :
  smoke_branch env url w = (w1, Returns result) → total_checks result = 4.
Proof.
  unfold smoke_branch, client_factory, new_client, call. unfold_M.
  destruct (factory_answer env _) as [[]|e]; [|done]. cbn.
  destruct (client_answer env _ _ Client.connect) as [connected|e]; cbn.
  - destruct (run_smoke_tests env _ _ _) as [w3 [smoke|e]]; cbn.
    + destruct (client_answer env w3 _ Client.close) as [[]|e]; [|done].
      by intros [= _ <-].
    + by destruct (client_answer env w3 _ Client.close) as [[]|e'].
  - by destruct (client_answer env _ _ Client.close) as [[]|e'].
Qed.

Lemma smoke_branch_returns (url : string) (w : World) :
  session_opens_and_closes env →
  ∃ w1 result, smoke_branch env url w = (w1, Returns result).
Proof.
  intros (Hfactory & Hconnect & Hclose).
  unfold smoke_branch, client_factory, new_client, call. unfold_M.
  rewrite Hfactory. cbn.
  destruct (Hconnect (w ++ [EvNew FromFactory (count_events is_new w)])
              (count_events is_new w)) as [connected ->]. cbn.
  destruct (run_smoke_tests_never_raises env (count_events is_new w)
              (IsStr url)
              ((w ++ [EvNew FromFactory (count_events is_new w)])
                 ++ [EvCall (count_events is_new w) Client.connect]))
    as (w3 & smoke & ->). cbn.
  rewrite Hclose. eauto.
Qed.

(** C9: when the depth resolved from the tier and the loaded configuration
    is SMOKE,
    - a run of the orchestrator that returns, returns a result with
      exactly 4 total checks, and metrics with 4 tests, depth ["smoke"]
      and the number of test cases of the suite as the skipped count;
    - the run returns as soon as the client factory, [connect] and
      [close] do not raise;
    - the test cases of the suite are not executed: a suite with the same
      application address and any other test cases leads to the same
      history of interactions and the same result. *)
Theorem smoke_depth_reports_four_checks (tier : string) (suite : E2ETestSuite)
    (changed_files : option (list string)) (w : World)
    (config : ValidationDepthConfig) :
  validation_config_file env (w ++ [EvNow]) = Returns config →
  get_validation_depth_for_tier tier (Some config) = SMOKE →
  (∀ w' result metrics,
     run_complexity_aware_validation env run_full_suite tier suite
       changed_files w = (w', Returns (result, metrics)) →
     total_checks result = 4
     ∧ test_count metrics = 4
     ∧ depth metrics = "smoke"
     ∧ skipped_test_count metrics = Z.of_nat (length (test_cases suite))
     ∧ ∀ other_cases, ∃ metrics',
         run_complexity_aware_validation env run_full_suite tier
           {| suite_name := suite_name suite;
              suite_description := suite_description suite;
              app_url := app_url suite;
              test_cases := other_cases |} changed_files w
         = (w', Returns (result, metrics'))
         ∧ skipped_test_count metrics' = Z.of_nat (length other_cases))
  ∧ (session_opens_and_closes env →
     ∃ w' result metrics,
       run_complexity_aware_validation env run_full_suite tier suite
         changed_files w = (w', Returns (result, metrics))).
Proof.
  intros Hconfig Hdepth. split.
  - intros w' result metrics.
    rewrite (smoke_run_unfold tier suite changed_files w config Hconfig Hdepth).
    destruct (smoke_branch env (app_url suite) (resolved w)) as [w1 [r|e]] eqn:Hb;
      [|done].
    intros [= <- <- <-]. cbn.
    pose proof (smoke_branch_result _ _ _ _ Hb) as Hfour.
    repeat split; [done..|].
    intros other_cases. eexists.
    rewrite (smoke_run_unfold tier _ changed_files w config Hconfig Hdepth).
    cbn. rewrite Hb. split; reflexivity.
  - intros Hsession.
    rewrite (smoke_run_unfold tier suite changed_files w config Hconfig Hdepth).
    destruct (smoke_branch_returns (app_url suite) (resolved w) Hsession)
      as (w1 & result & ->). eauto.
Qed.
End SmokeOrchestration.

Lemma smoke_depth_reports_four_checks_witness :
  ∃ w' result metrics,
    run_complexity_aware_validation (example_env 0) (py := example_builtins)
      no_full_suite "Simple" mixed_suite None []
    = (w', Returns (result, metrics))
    ∧ total_checks result = 4
    ∧ skipped_test_count metrics = 2.
Proof.
  destruct (smoke_depth_reports_four_checks (example_env 0)
              (py := example_builtins) no_full_suite "Simple" mixed_suite None []
              default_ValidationDepthConfig eq_refl eq_refl) as [Hfour Hret].
  assert (Hsession : session_opens_and_closes (example_env 0)).
  { split; [done|]. split; [intros; by exists true|done]. }
  destruct (Hret Hsession) as (w' & result & metrics & Hrun).
  exists w', result, metrics. split; [exact Hrun|].
  destruct (Hfour w' result metrics Hrun) as (Htotal & _ & _ & Hskipped & _).
  split; [exact Htotal|exact Hskipped].
Defined.

(** The interactions of that run: one session, four checks, no test step. *)
Example smoke_run_history :
  fst (run_complexity_aware_validation (example_env 0) (py := example_builtins)
         no_full_suite "Simple" mixed_suite None [])
  = [EvNow; EvLoad ".auto-claude/validation-config.json";
     EvNew FromFactory 0%nat;
     EvCall 0%nat Client.connect;
     EvCall 0%nat (Client.launch_app (IsStr "http://localhost:3000"));
     EvCall 0%nat (Client.assert_visible "body");
     EvCall 0%nat (Client._mcp_call "getConsoleErrors" []);
     EvCall 0%nat (Client._mcp_call "fetch"
                     [("url", VStr "http://localhost:3000/health")]);
     EvCall 0%nat Client.close;
     EvNow].
Proof. vm_compute. reflexivity. Qed.

(** ** Further properties of the specification *)

(** In FAIL mode the handler returns no validation result and reports that
    no fallback was used. *)
Lemma fail_mode_returns_none (env : Env) (availability : MCPAvailability)
    (config : FallbackConfig) (w : World) :
  mode config = FAIL →
  handle_mcp_unavailable env availability (Some config) w
  = (w, Returns (None,
                 {| used_fallback := false; fb_reason := message availability;
                    validation_run := "none";
                    unit_tests_passed := None; lint_passed := None |})).
Proof.
  intros Hmode. unfold handle_mcp_unavailable. unfold_M. by rewrite Hmode.
Qed.

(** An empty list of results aggregates to a passing result with no
    check. *)
Lemma aggregate_empty :
  passed (aggregate_results []) = true
  ∧ total_checks (aggregate_results []) = 0.
Proof. by split. Qed.

(** The aggregate passes exactly when no check failed. *)
Lemma aggregate_passed (results : list E2EValidationResult) :
  passed (aggregate_results results) = true
  ↔ failed_checks (aggregate_results results) = 0.
Proof.
  destruct results as [|r rs]; [done|]. simpl. apply Z.eqb_eq.
Qed.

(** The two tier vocabularies resolve to the same depths, for every
    configuration, as soon as [str.lower] leaves the six lower-case tier
    names as they are. *)
Lemma tier_vocabularies_agree {py : PyBuiltins}
    (config : option ValidationDepthConfig) :
  (∀ name, name ∈ ["simple"; "standard"; "complex";
                   "quick-flow"; "method"; "enterprise"] →
           str_lower name = name) →
  get_validation_depth_for_tier "simple" config
    = get_validation_depth_for_tier "quick-flow" config
  ∧ get_validation_depth_for_tier "standard" config
    = get_validation_depth_for_tier "method" config
  ∧ get_validation_depth_for_tier "complex" config
    = get_validation_depth_for_tier "enterprise" config.
Proof.
  intros Hlower. unfold get_validation_depth_for_tier.
  destruct (forced_depth config) as [d|]; [done|].
  rewrite !Hlower by (rewrite !elem_of_cons; tauto).
  destruct config as [c|]; by vm_compute.
Qed.

(** At FEATURE depth without changed files the whole suite runs and nothing
    is counted as skipped. *)
Example feature_depth_without_changes :
  snd (run_complexity_aware_validation (example_env 0) (py := example_builtins)
         no_full_suite "standard" mixed_suite None [])
  = Returns
      (mkE2EValidationResult true 2 2 0 [] "",
       {| tier := "standard"; depth := "feature"; test_count := 2;
          passed_count := 2; failed_count := 0; duration_seconds := 0;
          skipped_test_count := 0; browser_count := 1 |}).
Proof. vm_compute. reflexivity. Qed.


(* ================================================================== *)
(** * Further properties of the code *)

(** ** validation_depth.py *)

Lemma default_tier_map_dom (name : string) :
  is_Some (DEFAULT_TIER_MAP !! name) ↔ name ∈ tier_names.
Proof.
  split.
  - unfold DEFAULT_TIER_MAP, tier_names.
    rewrite !lookup_insert_is_Some, lookup_empty, !elem_of_cons, elem_of_nil.
    intros H. repeat (destruct H as [H|[_ H]]; [subst; tauto|]).
    by destruct H.
  - unfold tier_names. rewrite !elem_of_cons, elem_of_nil.
    intros [->|[->|[->|[->|[->|[->|[]]]]]]]; by eexists.
Qed.

Lemma overrides_keep_dom (c : ValidationDepthConfig)
    (m : gmap string ValidationDepth) (name : string) :
  name ∉ tier_names → apply_config_overrides c m !! name = m !! name.
Proof.
  unfold tier_names, apply_config_overrides. cbv zeta.
  rewrite !elem_of_cons, elem_of_nil. intros Hnot.
  rewrite !lookup_insert_ne; [done|..]; intros <-; tauto.
Qed.

(** X1: a tier that is none of the six names, once lower-cased, resolves to
    FEATURE whenever no depth is forced: also when the configuration assigns
    another depth to every tier it names. *)
Theorem unknown_tier_is_feature {py : PyBuiltins} (tier : string)
    (config : option ValidationDepthConfig) :
  forced_depth config = None →
  str_lower tier ∉ tier_names →
  get_validation_depth_for_tier tier config = FEATURE.
Proof.
  intros Hforce Hunknown. unfold get_validation_depth_for_tier.
  rewrite Hforce.
  assert (Hnone : DEFAULT_TIER_MAP !! str_lower tier = None).
  { apply eq_None_not_Some. by rewrite default_tier_map_dom. }
  destruct config as [c|]; simpl.
  - by rewrite overrides_keep_dom, Hnone.
  - by rewrite Hnone.
Qed.

Lemma unknown_tier_is_feature_witness :
  get_validation_depth_for_tier (py := example_builtins) "Trivial"
    (Some all_full) = FEATURE.
Proof.
  apply (unknown_tier_is_feature (py := example_builtins) "Trivial"
           (Some all_full)).
  - reflexivity.
  - change (str_lower "Trivial") with "trivial". unfold tier_names.
    rewrite !elem_of_cons, elem_of_nil.
    intros H. repeat (destruct H as [H|H]; [discriminate H|]). exact H.
Defined.

(** X2: without a forced depth, the depths of the configuration are what
    the tier names resolve to, in both vocabularies: "simple" and
    "quick-flow" give [simple_depth], "standard" and "method" give
    [standard_depth], "complex" and "enterprise" give [complex_depth];
    upper-case letters in the tier do not matter as far as [str.lower]
    removes them. *)
Theorem tier_depths_follow_config {py : PyBuiltins} (tier : string)
    (config : ValidationDepthConfig) :
  force_depth config = None →
  get_validation_depth_for_tier tier (Some config)
  = (if decide (str_lower tier = "simple") then simple_depth config
     else if decide (str_lower tier = "quick-flow") then simple_depth config
     else if decide (str_lower tier = "standard") then standard_depth config
     else if decide (str_lower tier = "method") then standard_depth config
     else if decide (str_lower tier = "complex") then complex_depth config
     else if decide (str_lower tier = "enterprise") then complex_depth config
     else FEATURE).
Proof.
  intros Hforce. unfold get_validation_depth_for_tier. simpl. rewrite Hforce.
  unfold apply_config_overrides. cbv zeta.
  repeat (case_decide as Heq;
          [rewrite Heq, ?lookup_insert_ne by done; by rewrite lookup_insert_eq|];
          let Hne := fresh "Hne" in rename Heq into Hne).
  rewrite !lookup_insert_ne by congruence.
  assert (Hnone : DEFAULT_TIER_MAP !! str_lower tier = None).
  { apply eq_None_not_Some. rewrite default_tier_map_dom. unfold tier_names.
    rewrite !elem_of_cons, elem_of_nil. tauto. }
  by rewrite Hnone.
Qed.

Lemma tier_depths_follow_config_witness :
  get_validation_depth_for_tier (py := example_builtins) "Enterprise"
    (Some shuffled_depths) = SMOKE.
Proof.
  rewrite (tier_depths_follow_config (py := example_builtins) "Enterprise"
             shuffled_depths eq_refl).
  reflexivity.
Defined.

(** The default configuration changes nothing: every tier resolves with
    [ValidationDepthConfig()] as it does without a configuration. *)
Theorem default_config_is_neutral {py : PyBuiltins} (tier : string) :
  get_validation_depth_for_tier tier (Some default_ValidationDepthConfig)
  = get_validation_depth_for_tier tier None.
Proof.
  unfold get_validation_depth_for_tier. simpl.
  assert (Hmap : apply_config_overrides default_ValidationDepthConfig
                   DEFAULT_TIER_MAP = DEFAULT_TIER_MAP).
  { apply map_eq. intros name.
    unfold apply_config_overrides, DEFAULT_TIER_MAP. simpl.
    repeat (rewrite (lookup_insert _ _ name); case_decide; [done|]).
    done. }
  by rewrite Hmap.
Qed.

(** ** feature_tests.py *)

Lemma matches_mapping_spec {py : PyBuiltins} (file : string)
    (mapping : FeatureMapping) :
  matches_mapping file mapping = true
  ↔ ∃ pattern, pattern ∈ code_paths mapping ∧ fnmatch file pattern = true.
Proof.
  unfold matches_mapping. rewrite existsb_exists.
  split; intros (p & Hp & Hm); exists p; by rewrite list_elem_of_In in *.
Qed.

Lemma affected_inner_spec {py : PyBuiltins} (file : string)
    (mappings : list FeatureMapping) (acc : gset string) (x : string) :
  x ∈ fold_left (fun affected mapping =>
        if matches_mapping file mapping
        then affected ∪ {[ feature_name mapping ]}
        else affected) mappings acc
  ↔ x ∈ acc ∨ ∃ m, m ∈ mappings ∧ matches_mapping file m = true
                   ∧ feature_name m = x.
Proof.
  revert acc. induction mappings as [|m ms IH]; intros acc; simpl.
  - split; [auto|]. intros [?|(m & Hm & _)]; [done|]. by apply elem_of_nil in Hm.
  - rewrite IH. destruct (matches_mapping file m) eqn:Hmatch.
    + rewrite elem_of_union, elem_of_singleton. split.
      * intros [[?| ->]|(m' & ? & ? & ?)]; [by left| |].
        -- right. exists m. by rewrite elem_of_cons; auto.
        -- right. exists m'. by rewrite elem_of_cons; auto.
      * intros [?|(m' & Hin & ? & ?)]; [by left; left|].
        apply elem_of_cons in Hin as [->|?]; [by left; right|].
        right. by exists m'.
    + split.
      * intros [?|(m' & ? & ? & ?)]; [by left|].
        right. exists m'. by rewrite elem_of_cons; auto.
      * intros [?|(m' & Hin & Hm' & ?)]; [by left|].
        apply elem_of_cons in Hin as [->|?]; [congruence|].
        right. by exists m'.
Qed.

Lemma affected_outer_spec {py : PyBuiltins} (files : list string)
    (mappings : list FeatureMapping) (acc : gset string) (x : string) :
  x ∈ fold_left (fun affected file_str =>
        fold_left (fun affected mapping =>
          if matches_mapping file_str mapping
          then affected ∪ {[ feature_name mapping ]}
          else affected) mappings affected) files acc
  ↔ x ∈ acc ∨ affects files mappings x.
Proof.
  revert acc. induction files as [|f fs IH]; intros acc; simpl.
  - split; [auto|]. intros [?|(f & _ & _ & Hf & _)]; [done|].
    by apply elem_of_nil in Hf.
  - rewrite IH, affected_inner_spec. unfold affects. split.
    + intros [[?|(m & Hm & Hmatch & Hname)]|(f' & m & p & ? & ? & ? & ? & ?)];
        [by left| |].
      * right. apply matches_mapping_spec in Hmatch as (p & ? & ?).
        exists f, m, p. rewrite elem_of_cons. auto.
      * right. exists f', m, p. rewrite elem_of_cons. auto.
    + intros [?|(f' & m & p & Hf & ? & ? & ? & ?)]; [by left; left|].
      apply elem_of_cons in Hf as [->|Hf].
      * left; right. exists m. split; [done|]. split; [|done].
        apply matches_mapping_spec. by exists p.
      * right. by exists f', m, p.
Qed.

Lemma elem_of_affected_features {py : PyBuiltins} (files : list string)
    (mappings : list FeatureMapping) (feature : string) :
  feature ∈ get_affected_features files mappings
  ↔ affects files mappings feature.
Proof.
  unfold get_affected_features, affected_set.
  rewrite elem_of_elements, affected_outer_spec.
  split; [intros [H|H]; [by apply not_elem_of_empty in H|done] | auto].
Qed.

(** X3: the list returned by [get_affected_features] has no duplicates and
    holds exactly the features of the mappings one of whose patterns matches
    one of the changed files; with no changed file, or no mapping, it is
    empty. *)
Theorem affected_features_spec {py : PyBuiltins} (changed_files : list string)
    (feature_mappings : list FeatureMapping) :
  NoDup (get_affected_features changed_files feature_mappings)
  ∧ (∀ feature,
       feature ∈ get_affected_features changed_files feature_mappings
       ↔ affects changed_files feature_mappings feature)
  ∧ get_affected_features [] feature_mappings = []
  ∧ get_affected_features changed_files [] = [].
Proof.
  split; [apply NoDup_elements|].
  split; [apply elem_of_affected_features|]. split.
  - apply elem_of_nil_inv. intros x. rewrite elem_of_affected_features.
    intros (f & _ & _ & Hf & _). by apply elem_of_nil in Hf.
  - apply elem_of_nil_inv. intros x. rewrite elem_of_affected_features.
    intros (_ & m & _ & _ & Hm & _). by apply elem_of_nil in Hm.
Qed.

(** X4: more changed files, or more mappings, never remove a feature: every
    feature affected by a list of changed files under a list of mappings is
    affected by any lists that contain them. *)
Theorem affected_features_monotone {py : PyBuiltins}
    (files files' : list string) (mappings mappings' : list FeatureMapping)
    (feature : string) :
  files ⊆ files' →
  mappings ⊆ mappings' →
  feature ∈ get_affected_features files mappings →
  feature ∈ get_affected_features files' mappings'.
Proof.
  intros Hfiles Hmappings. rewrite !elem_of_affected_features.
  intros (f & m & p & Hf & Hm & Hrest). exists f, m, p.
  split; [by apply Hfiles|]. split; [by apply Hmappings|done].
Qed.

Lemma affected_features_monotone_witness :
  "auth" ∈ get_affected_features (py := example_builtins)
             ["README.md"; "src/auth/*"] [auth_mapping].
Proof.
  apply (affected_features_monotone (py := example_builtins)
           ["src/auth/*"] ["README.md"; "src/auth/*"]
           [auth_mapping] [auth_mapping] "auth").
  - intros x Hx. by right.
  - done.
  - vm_compute. left.
Defined.

Lemma matched_then_appended (P C : E2ETestCase → Prop)
    `{∀ x, Decision (P x)} `{∀ x, Decision (C x)} (l : list E2ETestCase) :
  filter P l ++ filter (fun x => C x ∧ ¬ P x) l
  ≡ₚ filter (fun x => P x ∨ C x) l.
Proof.
  induction l as [|x l IH]; [done|].
  rewrite !filter_cons.
  destruct (decide (P x)) as [HP|HP].
  - rewrite decide_False by tauto. rewrite decide_True by tauto.
    simpl. by rewrite IH.
  - destruct (decide (C x)) as [HC|HC].
    + rewrite decide_True by tauto. rewrite decide_True by tauto.
      by rewrite <- Permutation_middle, IH.
    + rewrite decide_False by tauto. rewrite decide_False by tauto. exact IH.
Qed.

(** X5: the filtered suite holds test cases of the input suite only: a
    test case is in it exactly when it is in the input and is critical or
    selected by an affected feature; it is never longer than the input (the
    number of skipped tests is never negative) and has no duplicate when the
    input has none. *)
Theorem filter_selects_within_suite (full_suite : E2ETestSuite)
    (affected_features : list string)
    (feature_mappings : list FeatureMapping) :
  let filtered :=
    test_cases (filter_tests_by_features full_suite affected_features
                  feature_mappings) in
  (∀ tc, tc ∈ filtered ↔
         tc ∈ test_cases full_suite
         ∧ (selected_by_features affected_features feature_mappings (tc_id tc)
            ∨ critical tc = true))
  ∧ (length filtered ≤ length (test_cases full_suite))%nat
  ∧ (NoDup (test_cases full_suite) → NoDup filtered).
Proof.
  intros filtered.
  set (relevant := relevant_test_ids affected_features feature_mappings).
  assert (Hperm : filtered ≡ₚ
            filter (fun tc => tc_id tc ∈ relevant ∨ critical tc = true)
                   (test_cases full_suite)).
  { subst filtered. unfold filter_tests_by_features. simpl. fold relevant.
    apply (matched_then_appended (fun tc => tc_id tc ∈ relevant)
             (fun tc => critical tc = true)). }
  split; [|split].
  - intros tc. rewrite Hperm, list_elem_of_filter.
    unfold relevant. rewrite elem_of_relevant_test_ids. tauto.
  - rewrite Hperm. apply length_filter.
  - intros Hnodup. rewrite Hperm. by apply NoDup_filter.
Qed.

Lemma filter_selects_within_suite_witness :
  NoDup (test_cases (filter_tests_by_features mixed_suite ["auth"]
                       [auth_mapping])).
Proof.
  apply (filter_selects_within_suite mixed_suite ["auth"] [auth_mapping]).
  apply NoDup_cons. split; [|apply NoDup_singleton].
  rewrite list_elem_of_singleton. discriminate.
Defined.

(** X6: the test cases of the filtered suite depend on the affected
    features as a set: two lists with the same elements, in any order and
    with any repetitions, select the same test cases in the same order. *)
Theorem filter_ignores_feature_order (full_suite : E2ETestSuite)
    (features features' : list string)
    (feature_mappings : list FeatureMapping) :
  (∀ feature, feature ∈ features ↔ feature ∈ features') →
  test_cases (filter_tests_by_features full_suite features feature_mappings)
  = test_cases (filter_tests_by_features full_suite features' feature_mappings).
Proof.
  intros Hsame.
  assert (Hrel : relevant_test_ids features feature_mappings
                 = relevant_test_ids features' feature_mappings).
  { apply set_eq. intros x. rewrite !elem_of_relevant_test_ids.
    unfold selected_by_features.
    split; intros (m & ? & ? & ?); exists m; by rewrite Hsame in *. }
  unfold filter_tests_by_features. simpl. by rewrite Hrel.
Qed.

Lemma filter_ignores_feature_order_witness :
  test_cases (filter_tests_by_features mixed_suite ["auth"; "billing"]
                [auth_mapping])
  = test_cases (filter_tests_by_features mixed_suite
                  ["billing"; "auth"; "auth"] [auth_mapping]).
Proof.
  apply (filter_ignores_feature_order mixed_suite ["auth"; "billing"]
           ["billing"; "auth"; "auth"] [auth_mapping]).
  intros feature. rewrite !elem_of_cons, elem_of_nil. tauto.
Defined.

Lemma no_test_ids_no_selection (features : list string)
    (mappings : list FeatureMapping) :
  (∀ m, m ∈ mappings → test_ids m = []) →
  relevant_test_ids features mappings = ∅.
Proof.
  intros Hempty. apply set_eq. intros x.
  rewrite elem_of_relevant_test_ids. split.
  - intros (m & Hm & _ & Hx). rewrite (Hempty m Hm) in Hx.
    by apply elem_of_nil in Hx.
  - intros Hx. by apply not_elem_of_empty in Hx.
Qed.

Lemma elem_of_default_mappings_of (src_dir : string)
    (entries : list (string * bool)) (m : FeatureMapping) :
  m ∈ default_mappings_of src_dir entries
  ↔ ∃ name, (name, true) ∈ entries ∧ hidden_name name = false
            ∧ m = {| feature_name := name;
                     code_paths := [src_dir +:+ "/" +:+ name +:+ "/**/*"];
                     test_ids := [] |}.
Proof.
  unfold default_mappings_of. rewrite list_elem_of_In, in_flat_map. split.
  - intros ([name is_dir] & Hin & Hm). apply list_elem_of_In in Hin.
    destruct is_dir; simpl in Hm; [|done].
    destruct (hidden_name name) eqn:Hh; simpl in Hm; [done|].
    destruct Hm as [<-|[]]. by exists name.
  - intros (name & Hin & Hh & ->). exists (name, true).
    split; [by apply list_elem_of_In|]. rewrite Hh. by left.
Qed.

Lemma default_mappings_of_names (src_dir : string)
    (entries : list (string * bool)) :
  feature_name <$> default_mappings_of src_dir entries
  = fst <$> filter (fun entry : string * bool =>
                      entry.2 = true ∧ hidden_name entry.1 = false) entries.
Proof.
  unfold default_mappings_of.
  induction entries as [|[name is_dir] entries IH]; [done|].
  simpl. rewrite fmap_app, IH, filter_cons. simpl.
  by destruct is_dir, (hidden_name name).
Qed.

Lemma default_mappings_of_root (src_dir : string)
    (entries : list (string * bool)) (m : FeatureMapping) :
  m ∈ default_mappings_of src_dir entries →
  ∃ rest, code_paths m = [src_dir +:+ rest].
Proof.
  intros (name & _ & _ & ->)%elem_of_default_mappings_of.
  by exists ("/" +:+ name +:+ "/**/*").
Qed.

(** X7: [_generate_default_mappings] produces exactly one mapping per
    sub-directory of [src], [app] or [lib] whose name starts neither with an
    underscore nor with a dot, and no other mapping.  The feature names of the
    mappings are the names of these directories, root by root in the order
    [src], [app], [lib], and within a root in the order of the listing; a
    mapping carries the single pattern ["<root>/<name>/**/*"] and no test
    id.  When no listing shows a name twice, no mapping occurs twice. *)
Theorem default_mappings_spec
    (listdir : string → option (list (string * bool))) :
  (∀ m, m ∈ _generate_default_mappings listdir
        ↔ ∃ root entries name,
            root ∈ ["src"; "app"; "lib"]
            ∧ listdir root = Some entries
            ∧ (name, true) ∈ entries
            ∧ hidden_name name = false
            ∧ m = {| feature_name := name;
                     code_paths := [root +:+ "/" +:+ name +:+ "/**/*"];
                     test_ids := [] |})
  ∧ feature_name <$> _generate_default_mappings listdir
    = visible_dirs listdir "src" ++ visible_dirs listdir "app"
      ++ visible_dirs listdir "lib"
  ∧ ((∀ root entries, listdir root = Some entries → NoDup (fst <$> entries)) →
     NoDup (_generate_default_mappings listdir)).
Proof.
  assert (Hnames : ∀ root,
            feature_name <$> match listdir root with
                             | Some entries => default_mappings_of root entries
                             | None => []
                             end
            = visible_dirs listdir root).
  { intros root. unfold visible_dirs.
    destruct (listdir root); [apply default_mappings_of_names|done]. }
  split; [|split].
  - intros m. unfold _generate_default_mappings.
    rewrite list_elem_of_In, in_flat_map. split.
    + intros (root & Hroot & Hm). apply list_elem_of_In in Hroot.
      destruct (listdir root) as [entries|] eqn:Hls; [|done].
      apply list_elem_of_In, elem_of_default_mappings_of in Hm
        as (name & ? & ? & ?).
      by exists root, entries, name.
    + intros (root & entries & name & Hroot & Hls & Hin & Hh & Hm).
      exists root. split; [by apply list_elem_of_In|]. rewrite Hls.
      apply list_elem_of_In, elem_of_default_mappings_of. by exists name.
  - unfold _generate_default_mappings. cbn [flat_map].
    rewrite app_nil_r, !fmap_app. by rewrite !Hnames.
  - intros Hlistings. unfold _generate_default_mappings. cbn [flat_map].
    rewrite app_nil_r.
    assert (Hone : ∀ root, NoDup match listdir root with
                                 | Some entries =>
                                     default_mappings_of root entries
                                 | None => []
                                 end).
    { intros root. apply (NoDup_fmap_1 feature_name). rewrite Hnames.
      unfold visible_dirs.
      destruct (listdir root) as [entries|] eqn:Hls; [|constructor].
      apply (sublist_NoDup _ (fst <$> entries));
        [by apply (Hlistings root)|apply fmap_sublist, sublist_filter]. }
    assert (Hroot : ∀ root m,
              m ∈ match listdir root with
                  | Some entries => default_mappings_of root entries
                  | None => []
                  end → ∃ rest, code_paths m = [root +:+ rest]).
    { intros root m. destruct (listdir root); [|by intros ?%elem_of_nil].
      apply default_mappings_of_root. }
    rewrite !NoDup_app. split; [apply Hone|]. split.
    + intros m [rest Hsrc]%Hroot Hin.
      apply elem_of_app in Hin as [[rest' Hp]%Hroot|[rest' Hp]%Hroot];
        rewrite Hsrc in Hp; vm_compute in Hp; discriminate Hp.
    + split; [apply Hone|]. split; [|apply Hone].
      intros m [rest Happ]%Hroot [rest' Hlib]%Hroot.
      rewrite Happ in Hlib. vm_compute in Hlib. discriminate Hlib.
Qed.

Lemma default_mappings_spec_witness :
  feature_name <$> _generate_default_mappings example_listdir
  = ["auth"; "dashboard"]
  ∧ NoDup (_generate_default_mappings example_listdir).
Proof.
  destruct (default_mappings_spec example_listdir) as (_ & Hnames & Hnodup).
  split; [exact Hnames|]. apply Hnodup.
  intros root entries. unfold example_listdir.
  destruct (String.eqb root "src"); [|done].
  intros [= <-]. apply (bool_decide_unpack _). vm_compute. reflexivity.
Defined.

(** X8: with the default mappings, which name no test, feature filtering
    keeps the critical test cases and nothing else, whatever the affected
    features. *)
Theorem default_mappings_keep_only_critical
    (listdir : string → option (list (string * bool)))
    (full_suite : E2ETestSuite) (affected_features : list string) :
  test_cases (filter_tests_by_features full_suite affected_features
                (_generate_default_mappings listdir))
  = filter (fun tc => critical tc = true) (test_cases full_suite).
Proof.
  unfold filter_tests_by_features. simpl.
  rewrite no_test_ids_no_selection.
  - rewrite filter_no_id_selected by (intros; apply not_elem_of_empty).
    simpl. apply list_filter_iff. intros tc. split; [by intros [? _]|].
    intros ?. split; [done|apply not_elem_of_empty].
  - intros m Hm. rewrite list_elem_of_In in Hm.
    unfold _generate_default_mappings in Hm. apply in_flat_map in Hm
      as (root & _ & Hm).
    destruct (listdir root) as [entries|]; [|done].
    apply list_elem_of_In, elem_of_default_mappings_of in Hm
      as (name & _ & _ & ->). done.
Qed.

Example default_mappings_of_example :
  _generate_default_mappings example_listdir
  = [ {| feature_name := "auth"; code_paths := ["src/auth/**/*"];
         test_ids := [] |};
      {| feature_name := "dashboard"; code_paths := ["src/dashboard/**/*"];
         test_ids := [] |} ].
Proof. reflexivity. Qed.

(** ** full_suite.py *)

Lemma append_cancel_l (p s t : string) : p +:+ s = p +:+ t → s = t.
Proof.
  induction p as [|a p IH]; simpl; [done|]. intros [= H]. by apply IH.
Qed.

(** An id and a hyphen-free browser name can be read back from
    ["<id>-<browser>"]: the browser is what follows the last hyphen. *)
Lemma hyphenated_split (s1 s2 b1 b2 : string) :
  contains b1 "-" = false →
  contains b2 "-" = false →
  s1 +:+ "-" +:+ b1 = s2 +:+ "-" +:+ b2 →
  s1 = s2 ∧ b1 = b2.
Proof.
  intros Hb1 Hb2. revert s2.
  assert (Hfree : ∀ b pre post, contains b "-" = false →
                    b ≠ pre +:+ "-" +:+ post).
  { intros b pre post Hb Heq.
    assert (contains b "-" = true) by (apply contains_occurs; eauto).
    congruence. }
  assert (Hnil : ∀ s, "" +:+ s = s) by done.
  assert (Hcons : ∀ a s s', String a s +:+ s' = String a (s +:+ s')) by done.
  induction s1 as [|a s1 IH]; intros [|c s2];
    rewrite ?Hcons, ?Hnil, ?Hcons, ?Hnil.
  - by intros [= ->].
  - intros [= <- Heq]. by apply Hfree in Heq.
  - intros [= -> Heq]. symmetry in Heq. by apply Hfree in Heq.
  - intros [= -> Heq]. apply IH in Heq as [-> ->]. done.
Qed.

Lemma expand_ids (cases : list E2ETestCase) (browsers : list string) :
  map tc_id (expand_test_cases_for_browsers cases browsers)
  = flat_map (fun tc => map (fun b => tc_id tc +:+ "-" +:+ b) browsers) cases.
Proof.
  rewrite expand_as_flat_map.
  induction cases as [|tc tcs IH]; simpl; [done|].
  rewrite map_app, IH, map_map. done.
Qed.

(** X9: expansion keeps the ids unique when the ids of the cases are
    unique, the browser names are distinct and no browser name contains a
    hyphen. *)
Theorem expand_keeps_ids_unique (cases : list E2ETestCase)
    (browsers : list string) :
  NoDup (map tc_id cases) →
  NoDup browsers →
  (∀ b, b ∈ browsers → contains b "-" = false) →
  NoDup (map tc_id (expand_test_cases_for_browsers cases browsers)).
Proof.
  intros Hids Hbrowsers Hfree. rewrite expand_ids.
  induction cases as [|tc tcs IH]; simpl; [apply NoDup_nil_2|].
  simpl in Hids. apply NoDup_cons in Hids as [Hfresh Hids].
  apply NoDup_app. split; [|split].
  - apply NoDup_fmap_2; [|done]. intros b b' Heq.
    by apply append_cancel_l, append_cancel_l in Heq.
  - intros x Hx Hx'.
    apply list_elem_of_fmap in Hx as (b & -> & Hb).
    apply list_elem_of_In, in_flat_map in Hx' as (tc' & Htc' & Hx').
    apply list_elem_of_In, list_elem_of_fmap in Hx' as (b' & Heq & Hb').
    apply hyphenated_split in Heq as [Hid _]; [|by apply Hfree..].
    apply Hfresh. rewrite Hid. apply list_elem_of_fmap.
    exists tc'. split; [done|by apply list_elem_of_In].
  - by apply IH.
Qed.

Lemma expand_keeps_ids_unique_witness :
  NoDup (map tc_id (expand_test_cases_for_browsers
                      [login_case; smoke_case] ["chromium"; "firefox"])).
Proof.
  apply (expand_keeps_ids_unique [login_case; smoke_case]
           ["chromium"; "firefox"]).
  - simpl. apply NoDup_cons. split; [|apply NoDup_singleton].
    rewrite list_elem_of_singleton. discriminate.
  - apply NoDup_cons. split; [|apply NoDup_singleton].
    rewrite list_elem_of_singleton. discriminate.
  - intros b. rewrite !elem_of_cons, elem_of_nil.
    intros [->|[->|[]]]; reflexivity.
Defined.

(** With a hyphen in a browser name two expanded ids can coincide. *)
Example expand_ids_can_collide :
  NoDup (map tc_id hyphen_cases) ∧ NoDup ["b-c"; "c"]
  ∧ map tc_id (expand_test_cases_for_browsers hyphen_cases ["b-c"; "c"])
    = ["a-b-c"; "a-c"; "a-b-b-c"; "a-b-c"].
Proof.
  split; [|split; [|reflexivity]].
  - simpl. apply NoDup_cons. split; [|apply NoDup_singleton].
    rewrite list_elem_of_singleton. discriminate.
  - apply NoDup_cons. split; [|apply NoDup_singleton].
    rewrite list_elem_of_singleton. discriminate.
Qed.

(** X10: [run_full_suite] expands the suite only when cross-browser
    testing is enabled and at least two browsers are configured: it then
    runs [len(cases) * len(browsers)] tasks; otherwise it runs the test
    cases of the suite unchanged, with their own ids. *)
Theorem full_suite_task_count (suite : E2ETestSuite) (config : FullSuiteConfig) :
  (cross_browser config = true ∧ (2 ≤ length (browsers config))%nat →
   length (full_suite_cases suite config)
   = (length (test_cases suite) * length (browsers config))%nat)
  ∧ (cross_browser config = false ∨ (length (browsers config) ≤ 1)%nat →
     full_suite_cases suite config = test_cases suite).
Proof.
  unfold full_suite_cases. split.
  - intros [-> Hlen]. simpl.
    rewrite (proj2 (Z.ltb_lt _ _)) by lia. apply expand_length.
  - intros [-> | Hlen]; [done|].
    rewrite (proj2 (Z.ltb_ge _ _)) by lia. by rewrite andb_false_r.
Qed.

Lemma full_suite_task_count_witness :
  length (full_suite_cases mixed_suite
            {| parallel_workers := 4; cross_browser := true;
               cross_platform := false;
               browsers := ["chromium"; "firefox"] |}) = 4%nat
  ∧ full_suite_cases mixed_suite default_FullSuiteConfig
    = test_cases mixed_suite.
Proof.
  split.
  - apply (full_suite_task_count mixed_suite
             {| parallel_workers := 4; cross_browser := true;
                cross_platform := false;
                browsers := ["chromium"; "firefox"] |}).
    split; [reflexivity|simpl; lia].
  - apply (full_suite_task_count mixed_suite default_FullSuiteConfig).
    right. simpl. lia.
Defined.

Lemma browser_matrix_lookup (browsers : list string)
    (matrix : gmap string PyDict) (b : string) :
  fold_left (fun matrix browser => <[browser := browser_config browser]> matrix)
            browsers matrix !! b
  = if decide (b ∈ browsers) then Some (browser_config b) else matrix !! b.
Proof.
  revert matrix. induction browsers as [|x xs IH]; intros matrix; simpl.
  - done.
  - rewrite IH. destruct (decide (b ∈ xs)) as [Hin|Hnin].
    + rewrite decide_True; [done|]. by right.
    + destruct (decide (x = b)) as [->|Hne].
      * rewrite lookup_insert_eq, decide_True; [done|]. by left.
      * rewrite lookup_insert_ne by done. rewrite decide_False; [done|].
        rewrite elem_of_cons. intros [->|?]; done.
Qed.

(** X11: the browser matrix has one entry per distinct browser name of the
    list and no other; every entry, also that of an unknown browser, runs
    headless. *)
Theorem browser_matrix_spec (browsers : list string) (b : string) :
  (create_browser_matrix browsers !! b
   = if decide (b ∈ browsers) then Some (browser_config b) else None)
  ∧ dict_get (browser_config b) "headless" VNone = VBool true
  ∧ (size (create_browser_matrix browsers) ≤ length browsers)%nat.
Proof.
  split; [|split].
  - unfold create_browser_matrix. rewrite browser_matrix_lookup.
    by rewrite lookup_empty.
  - unfold browser_config. by repeat case_match.
  - unfold create_browser_matrix.
    assert (Hgen : ∀ m : gmap string PyDict,
              (size (fold_left (fun matrix browser =>
                       <[browser := browser_config browser]> matrix)
                       browsers m) ≤ size m + length browsers)%nat).
    { induction browsers as [|x xs IH]; intros m; simpl; [lia|].
      etrans; [apply IH|].
      destruct (m !! x) as [v|] eqn:Hx.
      - rewrite map_size_insert_Some by eauto. lia.
      - rewrite map_size_insert_None by done. lia. }
    specialize (Hgen ∅). by rewrite map_size_empty in Hgen.
Qed.

Lemma aggregate_fields (results : list E2EValidationResult) :
  aggregate_results results
  = mkE2EValidationResult
      (foldr Z.add 0 (map failed_checks results) =? 0)
      (foldr Z.add 0 (map total_checks results))
      (foldr Z.add 0 (map passed_checks results))
      (foldr Z.add 0 (map failed_checks results))
      (concat (map failures results)) "".
Proof. by destruct results. Qed.

Lemma sum_app (xs ys : list Z) :
  foldr Z.add 0 (xs ++ ys) = foldr Z.add 0 xs + foldr Z.add 0 ys.
Proof. induction xs as [|x xs IH]; simpl; lia. Qed.

(** X12: aggregation composes: aggregating the aggregates of two batches
    gives the aggregate of the two batches together; in particular the
    totals add up and the failure records are concatenated in order. *)
Theorem aggregate_of_aggregates (xs ys : list E2EValidationResult) :
  aggregate_results [aggregate_results xs; aggregate_results ys]
  = aggregate_results (xs ++ ys).
Proof.
  rewrite (aggregate_fields (xs ++ ys)), (aggregate_fields [_; _]).
  rewrite !(aggregate_fields xs), !(aggregate_fields ys). simpl.
  rewrite !map_app, !sum_app, concat_app, !Z.add_0_r, app_nil_r. done.
Qed.

Lemma sum_nonneg_zero (xs : list Z) :
  (∀ x, x ∈ xs → 0 ≤ x) →
  foldr Z.add 0 xs = 0 ↔ ∀ x, x ∈ xs → x = 0.
Proof.
  induction xs as [|x xs IH]; intros Hpos; simpl.
  - split; [|done]. intros _ x Hx. by apply elem_of_nil in Hx.
  - assert (Hx : 0 ≤ x) by (apply Hpos; left).
    assert (Hxs : ∀ y, y ∈ xs → 0 ≤ y) by (intros y ?; apply Hpos; by right).
    assert (Hsum : 0 ≤ foldr Z.add 0 xs).
    { clear IH Hpos. induction xs as [|y ys IHy]; simpl; [lia|].
      assert (0 ≤ y) by (apply Hxs; left).
      assert (0 ≤ foldr Z.add 0 ys) by (apply IHy; intros; apply Hxs; by right).
      lia. }
    split.
    + intros Hzero y Hy. apply elem_of_cons in Hy as [->|Hy]; [lia|].
      apply IH; [done|lia|done].
    + intros Hall. rewrite (Hall x) by left.
      rewrite (proj2 (IH Hxs)); [done|]. intros y ?. apply Hall. by right.
Qed.

(** X13: the aggregate is marked as passed exactly when the failed checks
    sum up to zero: when no constituent reports a negative number of failed
    checks, exactly when every constituent reports none.  The [passed]
    flags of the constituents are not read. *)
Theorem aggregate_passed_iff_no_failed_check
    (results : list E2EValidationResult) :
  (∀ r, r ∈ results → 0 ≤ failed_checks r) →
  passed (aggregate_results results) = true
  ↔ ∀ r, r ∈ results → failed_checks r = 0.
Proof.
  intros Hpos. rewrite aggregate_fields. simpl. rewrite Z.eqb_eq.
  rewrite sum_nonneg_zero.
  - split.
    + intros H r Hr. apply H. apply list_elem_of_fmap. by exists r.
    + intros H x Hx. apply list_elem_of_fmap in Hx as (r & -> & Hr). by apply H.
  - intros x Hx. apply list_elem_of_fmap in Hx as (r & -> & Hr). by apply Hpos.
Qed.

Lemma aggregate_passed_iff_no_failed_check_witness :
  passed (aggregate_results [unconnected_empty]) = true.
Proof.
  apply (aggregate_passed_iff_no_failed_check [unconnected_empty]).
  - intros r Hr. apply list_elem_of_singleton in Hr as ->. simpl. lia.
  - intros r Hr. apply list_elem_of_singleton in Hr as ->. reflexivity.
Defined.

Lemma tally_results_spec (results : list (Outcome PyDict))
    (p f : Z) (fs : list PyDict) :
  let '(p', f', fs') := tally_results results p f fs in
  p' + f' = p + f + Z.of_nat (length results)
  ∧ p ≤ p' ∧ f ≤ f'
  ∧ Z.of_nat (length fs') = Z.of_nat (length fs) + (f' - f)
  ∧ (f' = f ↔ Forall task_passed results).
Proof.
  revert p f fs. induction results as [|r rs IH]; intros p f fs; simpl.
  - repeat split; try lia. intros _. constructor.
  - destruct r as [result|e].
    + destruct (truthy (dict_get result "passed" (VBool false))) eqn:Hp.
      * specialize (IH (p + 1) f fs).
        destruct (tally_results rs (p + 1) f fs) as [[p' f'] fs'].
        destruct IH as (? & ? & ? & ? & Hall).
        repeat split; try lia.
        -- intros Heq. constructor; [by exists result|by apply Hall].
        -- intros Hf. apply Hall. by apply Forall_inv_tail in Hf.
      * specialize (IH p (f + 1) (fs ++ [result])).
        destruct (tally_results rs p (f + 1) (fs ++ [result])) as [[p' f'] fs'].
        destruct IH as (? & ? & ? & Hlen & Hall).
        rewrite length_app in Hlen. simpl in Hlen.
        repeat split; try lia.
        intros Hf. apply Forall_inv in Hf as (d & [= <-] & Hd). congruence.
    + specialize (IH p (f + 1) (fs ++ [[("error", VStr (exc_msg e))]])).
      destruct (tally_results rs p (f + 1) _) as [[p' f'] fs'].
      destruct IH as (? & ? & ? & Hlen & Hall).
      rewrite length_app in Hlen. simpl in Hlen.
      repeat split; try lia.
      intros Hf. by apply Forall_inv in Hf as (d & [=] & _).
Qed.

(** X14: the result [run_full_suite] builds from its tasks counts every
    task once: [total_checks] is the number of tasks, passed and failed
    checks add up to it, there is one failure record per failed check, and
    the result is marked as passed exactly when every task returned a record
    whose ["passed"] entry is true; a task that ended with an exception
    counts as failed. *)
Theorem full_suite_result_counts (results : list (Outcome PyDict)) :
  let result := full_suite_result results in
  total_checks result = Z.of_nat (length results)
  ∧ passed_checks result + failed_checks result = total_checks result
  ∧ 0 ≤ passed_checks result ∧ 0 ≤ failed_checks result
  ∧ Z.of_nat (length (failures result)) = failed_checks result
  ∧ (passed result = true ↔ Forall task_passed results).
Proof.
  unfold full_suite_result.
  pose proof (tally_results_spec results 0 0 []) as Hspec.
  destruct (tally_results results 0 0 []) as [[p f] fs].
  destruct Hspec as (Hsum & Hp & Hf & Hlen & Hall). simpl in *.
  repeat split; try lia.
  - rewrite Z.eqb_eq. apply Hall.
  - intros H. apply Z.eqb_eq. by apply Hall.
Qed.

(** ** What a computation adds to the history *)

Lemma adds_only_ret {A} (P : Event → Prop) (a : A) : adds_only P (mret a).
Proof. intros w. exists []. by rewrite app_nil_r. Qed.

Lemma adds_only_raise {A} (P : Event → Prop) (e : exn) :
  adds_only P (raise (A := A) e).
Proof. intros w. exists []. by rewrite app_nil_r. Qed.

Lemma adds_only_bind {A B} (P : Event → Prop) (m : M A) (k : A → M B) :
  adds_only P m → (∀ a, adds_only P (k a)) → adds_only P (m ≫= k).
Proof.
  intros Hm Hk w. unfold mbind, M_bind, bind.
  destruct (Hm w) as (a1 & Hw1 & Ha1).
  destruct (m w) as [w1 [a|e]]; simpl in Hw1; subst w1.
  - destruct (Hk a (w ++ a1)) as (a2 & Hw2 & Ha2).
    exists (a1 ++ a2). rewrite Hw2, app_assoc. split; [done|].
    by apply Forall_app.
  - by exists a1.
Qed.

Lemma adds_only_attempt {A} (P : Event → Prop) (m : M A) :
  adds_only P m → adds_only P (attempt m).
Proof.
  intros Hm w. unfold attempt. destruct (Hm w) as (a1 & Hw1 & Ha1).
  destruct (m w) as [w1 o]. by exists a1.
Qed.

Lemma adds_only_call (env : Env) (P : Event → Prop) (client : nat)
    (op : Client.Op) :
  P (EvCall client op) → adds_only P (call env client op).
Proof. intros HP w. exists [EvCall client op]. split; [done|]. by constructor. Qed.

Lemma adds_only_weaken {A} (P Q : Event → Prop) (m : M A) :
  (∀ e, P e → Q e) → adds_only P m → adds_only Q m.
Proof.
  intros HPQ Hm w. destruct (Hm w) as (added & ? & Hadded).
  exists added. split; [done|]. by eapply Forall_impl.
Qed.

Lemma step_event_intro (client : nat) (op : Client.Op) :
  Client.is_connect op = false → Client.is_close op = false →
  step_event client (EvCall client op).
Proof. intros. by exists op. Qed.

Section SessionSteps.
Context (env : Env) {py : PyBuiltins}.

Lemma execute_step_adds (client : nat) (step : E2ETestStep) :
  adds_only (step_event client) (execute_step env client step).
Proof.
  unfold execute_step. cbv zeta.
  repeat case_match;
    repeat first
      [ apply adds_only_raise
      | apply adds_only_ret
      | apply adds_only_call; by apply step_event_intro
      | refine (adds_only_call env _ client _ _); by apply step_event_intro
      | apply adds_only_bind; [|intros ?]
      | case_match ].
Qed.

Lemma run_steps_adds (client : nat) (todo : list E2ETestStep) (i : Z)
    (history : list PyDict) :
  adds_only (step_event client) (run_steps env client i todo history).
Proof.
  revert i history. induction todo as [|step rest IH]; intros i history; simpl.
  - apply adds_only_ret.
  - apply adds_only_bind;
      [apply adds_only_attempt, execute_step_adds|].
    intros [[]|e]; [apply IH|apply adds_only_ret].
Qed.

Lemma run_test_case_adds (client : nat) (test_case : E2ETestCase) :
  adds_only (step_event client) (run_test_case env client test_case).
Proof.
  unfold run_test_case. destruct (skip test_case); [apply adds_only_ret|].
  apply adds_only_bind; [apply run_steps_adds|].
  intros [history [e|]]; [|apply adds_only_ret].
  apply adds_only_bind; [|intros ?; apply adds_only_ret].
  apply adds_only_attempt.
  refine (adds_only_call env _ client Client.get_dom_snapshot _).
  by apply step_event_intro.
Qed.

Lemma run_steps_never_raises (client : nat) (todo : list E2ETestStep) (i : Z)
    (history : list PyDict) :
  never_raises (run_steps env client i todo history).
Proof.
  revert i history. induction todo as [|step rest IH]; intros i history; simpl.
  - apply never_raises_ret.
  - apply never_raises_bind; [apply never_raises_attempt|].
    intros [[]|e]; [apply IH|apply never_raises_ret].
Qed.

Lemma run_test_case_never_raises (client : nat) (test_case : E2ETestCase) :
  never_raises (run_test_case env client test_case).
Proof.
  unfold run_test_case. destruct (skip test_case); [apply never_raises_ret|].
  apply never_raises_bind; [apply run_steps_never_raises|].
  intros [history [e|]]; [|apply never_raises_ret].
  apply never_raises_bind; [apply never_raises_attempt|].
  intros ?. apply never_raises_ret.
Qed.
End SessionSteps.

(** ** validation.py *)

(** X15: a step that lacks the selector its action needs (it is [None] or
    empty) raises [ValueError] before any operation of the client is
    invoked; so does a step whose action is none of the [ActionType] tags,
    with the message that names the action. *)
Theorem malformed_step_raises_untouched (env : Env) {py : PyBuiltins}
    (client : nat) (step : E2ETestStep) (w : World) :
  (action step ∈ selector_actions → nonempty (selector step) = None →
   ∃ e, execute_step env client step w = (w, Raises e)
        ∧ exc_class e = ValueError)
  ∧ (action step ∉ known_actions →
     execute_step env client step w
     = (w, Raises (Exn ValueError ("Unknown action type: " +:+ action step)))).
Proof.
  split.
  - unfold selector_actions. rewrite !elem_of_cons, elem_of_nil.
    intros Haction Hsel. unfold execute_step. cbv zeta. rewrite Hsel.
    destruct Haction as [->|[->|[->|[->|[->|[->|[->|[->|[->|[]]]]]]]]]];
      simpl; by eexists.
  - unfold known_actions. rewrite !elem_of_cons, elem_of_nil.
    intros Hunknown. unfold execute_step. cbv zeta.
    repeat match goal with
           | |- context [String.eqb (action step) ?s] =>
               destruct (String.eqb_spec (action step) s) as [Heq|_];
               [exfalso; apply Hunknown; rewrite Heq; tauto|]
           end.
    done.
Qed.

Lemma malformed_step_raises_untouched_witness :
  (∃ e, execute_step (example_env 0) (py := example_builtins) 0%nat
          {| action := "type"; selector := None; value := Some "x";
             expected := None; timeout := None; position := None |} []
        = ([], Raises e) ∧ exc_class e = ValueError)
  ∧ execute_step (example_env 0) (py := example_builtins) 0%nat
      {| action := "hover"; selector := Some "#menu"; value := None;
         expected := None; timeout := None; position := None |} []
    = ([], Raises (Exn ValueError "Unknown action type: hover")).
Proof.
  split.
  - apply (malformed_step_raises_untouched (example_env 0)
             (py := example_builtins)); [|reflexivity].
    unfold selector_actions. rewrite !elem_of_cons. tauto.
  - apply (malformed_step_raises_untouched (example_env 0)
             (py := example_builtins) 0%nat
             {| action := "hover"; selector := Some "#menu"; value := None;
                expected := None; timeout := None; position := None |} []).
    simpl. unfold known_actions. rewrite !elem_of_cons, elem_of_nil.
    intros H. repeat (destruct H as [H|H]; [discriminate H|]). exact H.
Defined.

(** The record [run_test_case] returns carries the id and the name of the
    case and a Boolean verdict. *)
Lemma run_test_case_record (env : Env) {py : PyBuiltins}
    (client : nat) (test_case : E2ETestCase) (w w' : World) (record : PyDict) :
  run_test_case env client test_case w = (w', Returns record) →
  ∃ passed,
    dict_get record "id" VNone = VStr (tc_id test_case)
    ∧ dict_get record "name" VNone = VStr (tc_name test_case)
    ∧ dict_get record "passed" VNone = VBool passed.
Proof.
  unfold run_test_case.
  destruct (skip test_case); [intros [= _ <-]; by exists true|].
  unfold_M.
  destruct (run_steps env client 0 (steps test_case) [] w)
    as [w1 [[history [e|]]|e]]; [| |done].
  - destruct (call env client Client.get_dom_snapshot w1) as [w2 o].
    intros [= _ <-]. by exists false.
  - intros [= _ <-]. by exists true.
Qed.

(** X16: [run_test_case] never raises: whatever the client does, it returns
    a record with the id and the name of the case and a Boolean ["passed"]
    entry.  It only invokes operations of the client it is given, and
    neither [connect] nor [close] among them. *)
Theorem run_test_case_is_contained (env : Env) {py : PyBuiltins}
    (client : nat) (test_case : E2ETestCase) (w : World) :
  ∃ added record passed,
    run_test_case env client test_case w = (w ++ added, Returns record)
    ∧ Forall (step_event client) added
    ∧ dict_get record "id" VNone = VStr (tc_id test_case)
    ∧ dict_get record "name" VNone = VStr (tc_name test_case)
    ∧ dict_get record "passed" VNone = VBool passed.
Proof.
  destruct (run_test_case_adds env client test_case w) as (added & Hw & Hadded).
  destruct (run_test_case_never_raises env client test_case w)
    as (w' & record & Hrun).
  destruct (run_test_case_record env client test_case w w' record Hrun)
    as (passed & Hid & Hname & Hpassed).
  rewrite Hrun in Hw. simpl in Hw. subst w'.
  by exists added, record, passed.
Qed.

Lemma set_last_snoc (history : list PyDict) (d : PyDict) (k : string)
    (v : PyVal) :
  set_last (history ++ [d]) k v = history ++ [dict_set d k v].
Proof.
  induction history as [|d' history IH]; [done|].
  simpl. rewrite IH. by destruct history.
Qed.

(** The first [n] code points of a string are at most [n], and a prefix of
    the string. *)
Lemma take_code_points_count (s : string) :
  ∀ n, (count_code_points (take_code_points n s) <= n)%nat.
Proof.
  induction s as [|a s IH]; intros n; simpl; [lia|].
  destruct (is_continuation a) eqn:Ha; simpl; rewrite ?Ha; [apply IH|].
  destruct n as [|n]; simpl; [lia|]. rewrite Ha. specialize (IH n). lia.
Qed.

Lemma take_code_points_prefix (s : string) :
  ∀ n, String.prefix (take_code_points n s) s = true.
Proof.
  induction s as [|a s IH]; intros n; simpl; [done|].
  destruct (is_continuation a); [|destruct n as [|n]; [done|]]; simpl;
    destruct (ascii_dec a a); try done; apply IH.
Qed.

Section SessionHistory.
Context (env : Env) {py : PyBuiltins}.

(** The loop over the steps: the entries of the steps that ran are
    completed, in order and numbered by position; the loop ends at the first
    step that raises, whose entry is still executing. *)
Lemma run_steps_history (client : nat) (todo : list E2ETestStep) :
  ∀ (n : nat) (history : list PyDict) (w : World),
  ∃ w' history' failure,
    run_steps env client (Z.of_nat n) todo history w
    = (w', Returns (history', failure))
    ∧ match failure with
      | None =>
          history'
          = history ++ imap (λ k, step_entry "completed" (n + k)) todo
      | Some e =>
          ∃ k step wk,
            todo !! k = Some step
            ∧ snd (execute_step env client step wk) = Raises e
            ∧ history'
              = history
                ++ imap (λ k, step_entry "completed" (n + k)) (take k todo)
                ++ [executing_record (Z.of_nat (n + k)) step]
      end.
Proof.
  induction todo as [|step rest IH]; intros n history w.
  - exists w, history, None. split; [done|]. simpl. by rewrite app_nil_r.
  - simpl. unfold_M.
    destruct (execute_step env client step w) as [w1 [[]|e]] eqn:Hstep.
    + rewrite set_last_snoc.
      replace (Z.of_nat n + 1) with (Z.of_nat (S n)) by lia.
      destruct (IH (S n)
                  (history ++ [dict_set (executing_record (Z.of_nat n) step)
                                        "status" (VStr "completed")]) w1)
        as (w' & history' & failure & -> & Hhistory).
      exists w', history', failure. split; [done|].
      assert (Hentry : dict_set (executing_record (Z.of_nat n) step) "status"
                                (VStr "completed")
                       = step_entry "completed" (n + 0) step).
      { unfold executing_record, step_entry. simpl.
        by replace (n + 0)%nat with n by lia. }
      assert (Hshift : ∀ l : list E2ETestStep,
                imap ((λ k, step_entry "completed" (n + k)) ∘ S) l
                = imap (λ k, step_entry "completed" (S n + k)) l).
      { intros l. apply imap_ext. intros k s _. simpl.
        by replace (n + S k)%nat with (S (n + k)) by lia. }
      destruct failure as [e|].
      * destruct Hhistory as (k & step' & wk & Hk & Hraise & ->).
        exists (S k), step', wk. split; [done|]. split; [done|].
        rewrite Hentry.
        change (take (S k) (step :: rest)) with (step :: take k rest).
        rewrite imap_cons, Hshift, <- !app_assoc. cbn [app].
        by replace (n + S k)%nat with (S n + k)%nat by lia.
      * rewrite Hhistory, Hentry, Hshift, <- app_assoc.
        done.
    + exists w1, (history ++ [executing_record (Z.of_nat n) step]), (Some e).
      split; [done|]. exists 0%nat, step, w. split; [done|].
      split; [by rewrite Hstep|]. simpl.
      by replace (n + 0)%nat with n by lia.
Qed.
End SessionHistory.

(** X17: the interaction history of a case that is run tells how far it
    got.  A passed case has one completed entry per step, in order and
    numbered from 1, and no error.  A failed case has a completed entry for
    each step before the one that raised, then the entry of that step with
    status failed and the message of its exception, which is also the error
    of the record; the steps after it were not run and have no entry. *)
Theorem run_test_case_history (env : Env) {py : PyBuiltins} (client : nat)
    (test_case : E2ETestCase) (w : World) :
  skip test_case = false →
  ∃ w' record,
    run_test_case env client test_case w = (w', Returns record)
    ∧ ((dict_get record "passed" VNone = VBool true
        ∧ dict_get record "error" VNone = VNone
        ∧ dict_get record "interaction_history" VNone
          = VList (VDict <$> imap (step_entry "completed") (steps test_case)))
       ∨ (dict_get record "passed" VNone = VBool false
          ∧ ∃ k step wk e,
              steps test_case !! k = Some step
              ∧ snd (execute_step env client step wk) = Raises e
              ∧ dict_get record "error" VNone = VStr (exc_msg e)
              ∧ dict_get record "interaction_history" VNone
                = VList (VDict <$>
                           imap (step_entry "completed")
                                (take k (steps test_case))
                           ++ [failed_entry k step (exc_msg e)]))).
Proof.
  intros Hskip. unfold run_test_case. rewrite Hskip. unfold_M.
  destruct (run_steps_history env client (steps test_case) 0 [] w)
    as (w1 & history & failure & Hrun & Hhistory).
  change (Z.of_nat 0) with 0 in Hrun. rewrite Hrun.
  destruct failure as [e|].
  - destruct Hhistory as (k & step & wk & Hk & Hraise & ->).
    destruct (call env client Client.get_dom_snapshot w1) as [w2 snap].
    eexists _, _. split; [done|]. right. split; [done|].
    exists k, step, wk, e. split; [done|]. split; [done|]. split; [done|].
    simpl. by rewrite !set_last_snoc.
  - eexists _, _. split; [done|]. left. split; [done|]. split; [done|].
    simpl. by rewrite Hhistory.
Qed.

Lemma run_test_case_history_witness :
  ∃ w' record,
    run_test_case (example_env 0) (py := example_builtins) 0%nat broken_case []
    = (w', Returns record)
    ∧ ((dict_get record "passed" VNone = VBool true
        ∧ dict_get record "error" VNone = VNone
        ∧ dict_get record "interaction_history" VNone
          = VList (VDict <$> imap (step_entry "completed") (steps broken_case)))
       ∨ (dict_get record "passed" VNone = VBool false
          ∧ ∃ k step wk e,
              steps broken_case !! k = Some step
              ∧ snd (execute_step (example_env 0) (py := example_builtins)
                       0%nat step wk) = Raises e
              ∧ dict_get record "error" VNone = VStr (exc_msg e)
              ∧ dict_get record "interaction_history" VNone
                = VList (VDict <$>
                           imap (step_entry "completed")
                                (take k (steps broken_case))
                           ++ [failed_entry k step (exc_msg e)]))).
Proof.
  apply (run_test_case_history (example_env 0) (py := example_builtins)
           0%nat broken_case []).
  reflexivity.
Defined.

(** X18: the DOM snapshot of a record is taken only after a failure, and is
    cut to 10000 characters (code points).  A passed or skipped case has
    none.  For a failed case [get_dom_snapshot] is the last operation
    awaited, and the entry is [None] when it raised or returned the empty
    string, and else the first 10000 characters of what it returned. *)
Theorem dom_snapshot_is_bounded (env : Env) {py : PyBuiltins} (client : nat)
    (test_case : E2ETestCase) (w : World) :
  ∃ w' record,
    run_test_case env client test_case w = (w', Returns record)
    ∧ (dict_get record "passed" VNone = VBool true →
       dict_get record "dom_snapshot" VNone = VNone)
    ∧ (dict_get record "passed" VNone ≠ VBool true →
       ∃ w1,
         w' = w1 ++ [EvCall client Client.get_dom_snapshot]
         ∧ match client_answer env w1 client Client.get_dom_snapshot with
           | Returns full =>
               let cut := take_code_points (Z.to_nat 10000) full in
               dict_get record "dom_snapshot" VNone
               = (if String.eqb full EmptyString then VNone else VStr cut)
               ∧ Z.of_nat (count_code_points cut) <= 10000
               ∧ String.prefix cut full = true
           | Raises _ => dict_get record "dom_snapshot" VNone = VNone
           end).
Proof.
  unfold run_test_case.
  destruct (skip test_case).
  { eexists _, _. split; [done|]. by split. }
  unfold_M.
  destruct (run_steps_history env client (steps test_case) 0 [] w)
    as (w1 & history & failure & Hrun & _).
  change (Z.of_nat 0) with 0 in Hrun. rewrite Hrun.
  destruct failure as [e|].
  - eexists _, _. split; [done|]. split; [done|]. intros _.
    exists w1. split; [done|]. simpl.
    destruct (client_answer env w1 client Client.get_dom_snapshot)
      as [full|e']; [|done].
    split; [done|]. split; [|apply take_code_points_prefix].
    pose proof (take_code_points_count full (Z.to_nat 10000)). lia.
  - eexists _, _. split; [done|]. by split.
Qed.

(** The cut counts characters, not bytes: the four characters of this text
    take seven bytes, and its first two characters take three. *)
Example dom_cut_counts_characters :
  String.length "aé€b" = 7%nat
  ∧ count_code_points "aé€b" = 4%nat
  ∧ take_code_points 2 "aé€b" = "aé"
  ∧ code_points "aé€b" = ["a"; "é"; "€"; "b"].
Proof. by repeat split. Qed.

(** ** full_suite.py: the worker of a test case *)

Section Worker.
Context (env : Env) {py : PyBuiltins}.

(** [try: return await body  except Exception as e: return handler(e)
    finally: await client.close()]: the body runs, then [close]; the
    outcome is that of [close] if it raises, and else the result of the body
    or of the handler. *)
Lemma session_shape {A} (client : nat) (body : M A) (handler : exn → A)
    (w : World) :
  try_finally (r ← attempt body;
               match r with
               | Returns a => mret a
               | Raises e => mret (handler e)
               end)
              (call env client Client.close) w
  = (fst (body w) ++ [EvCall client Client.close],
     match client_answer env (fst (body w)) client Client.close with
     | Returns _ => Returns match snd (body w) with
                            | Returns a => a
                            | Raises e => handler e
                            end
     | Raises e => Raises e
     end).
Proof.
  unfold try_finally, attempt, call. unfold_M.
  destruct (body w) as [w1 [a|e]]; simpl;
    by destruct (client_answer env w1 client Client.close).
Qed.

(** The session of a worker before [close]: only operations of its client,
    and no [close] among them. *)
Lemma worker_session_adds (client : nat) (suite : E2ETestSuite)
    (test_case : E2ETestCase) :
  adds_only (session_event client)
    (call env client Client.connect;;
     call env client (Client.launch_app (IsStr (app_url suite)));;
     run_test_case env client test_case).
Proof.
  apply adds_only_bind;
    [refine (adds_only_call env _ client Client.connect _); by eexists|].
  intros _. apply adds_only_bind;
    [refine (adds_only_call env _ client (Client.launch_app _) _); by eexists|].
  intros _. eapply adds_only_weaken; [|apply run_test_case_adds].
  intros e (op & -> & _ & Hclose). by exists op.
Qed.

(** With a factory that returns, the worker is the session of the new
    client. *)
Lemma worker_unfold (suite : E2ETestSuite) (test_case : E2ETestCase)
    (w : World) :
  (∃ u, factory_answer env w = Returns u) →
  let client := count_events is_new w in
  let body := (call env client Client.connect;;
               call env client (Client.launch_app (IsStr (app_url suite)));;
               run_test_case env client test_case) in
  let w0 := w ++ [EvNew FromFactory client] in
  run_with_semaphore env suite test_case w
  = (fst (body w0) ++ [EvCall client Client.close],
     match client_answer env (fst (body w0)) client Client.close with
     | Returns _ => Returns match snd (body w0) with
                            | Returns a => a
                            | Raises e => worker_failure test_case e
                            end
     | Raises e => Raises e
     end).
Proof.
  intros [u Hfactory] client body w0.
  rewrite <- (session_shape client body (worker_failure test_case) w0).
  unfold run_with_semaphore. unfold mbind at 1. unfold M_bind, bind at 1.
  unfold client_factory, new_client. by rewrite Hfactory.
Qed.
End Worker.

(** X19: a worker of the full suite closes the client it obtained from the
    factory, whatever happens in between: [close] is awaited exactly once,
    as the last operation, on that client.  If [close] returns, the worker
    returns a record for its case and raises nothing; an exception of
    [close] is the only one that leaves the worker. *)
Theorem worker_closes_its_client (env : Env) {py : PyBuiltins}
    (suite : E2ETestSuite) (test_case : E2ETestCase) (w : World) :
  (∃ u, factory_answer env w = Returns u) →
  let client := count_events is_new w in
  ∃ session outcome,
    run_with_semaphore env suite test_case w
    = (w ++ [EvNew FromFactory client] ++ session
         ++ [EvCall client Client.close], outcome)
    ∧ Forall (session_event client) session
    ∧ match client_answer env (w ++ [EvNew FromFactory client] ++ session)
              client Client.close with
      | Returns _ =>
          ∃ record passed,
            outcome = Returns record
            ∧ dict_get record "id" VNone = VStr (tc_id test_case)
            ∧ dict_get record "name" VNone = VStr (tc_name test_case)
            ∧ dict_get record "passed" VNone = VBool passed
      | Raises e => outcome = Raises e
      end.
Proof.
  intros Hfactory client.
  rewrite (worker_unfold env suite test_case w Hfactory). fold client.
  set (w0 := w ++ [EvNew FromFactory client]).
  set (body := (call env client Client.connect;; _)).
  destruct (worker_session_adds env client suite test_case w0)
    as (session & Hw & Hsession).
  fold body in Hw. rewrite Hw.
  assert (Hassoc : w0 ++ session = w ++ [EvNew FromFactory client] ++ session)
    by (unfold w0; by rewrite <- app_assoc).
  rewrite Hassoc.
  exists session. eexists. split; [by rewrite <- !app_assoc|].
  split; [done|].
  destruct (client_answer env _ client Client.close) as [[]|e]; [|done].
  assert (Hrecord : ∃ record passed,
            match snd (body w0) with
            | Returns a => a
            | Raises e => worker_failure test_case e
            end = record
            ∧ dict_get record "id" VNone = VStr (tc_id test_case)
            ∧ dict_get record "name" VNone = VStr (tc_name test_case)
            ∧ dict_get record "passed" VNone = VBool passed).
  { unfold body, call. unfold_M.
    destruct (client_answer env w0 client Client.connect) as [?|e];
      [|by eexists _, false].
    destruct (client_answer env _ client (Client.launch_app _)) as [?|e];
      [|by eexists _, false].
    destruct (run_test_case_never_raises env client test_case
                ((w0 ++ [EvCall client Client.connect])
                 ++ [EvCall client
                       (Client.launch_app (IsStr (app_url suite)))]))
      as (w1 & record & Hrun).
    destruct (run_test_case_record env client test_case _ w1 record Hrun)
      as (passed & Hid & Hname & Hpassed).
    rewrite Hrun. by exists record, passed. }
  destruct Hrecord as (record & passed & <- & ?). by eexists _, passed.
Qed.

Lemma worker_closes_its_client_witness :
  ∃ session outcome,
    run_with_semaphore refusing_env (py := example_builtins) login_suite
      login_case []
    = ([] ++ [EvNew FromFactory 0] ++ session ++ [EvCall 0%nat Client.close],
       outcome)
    ∧ Forall (session_event 0) session
    ∧ match client_answer refusing_env ([] ++ [EvNew FromFactory 0] ++ session)
              0%nat Client.close with
      | Returns _ =>
          ∃ record passed,
            outcome = Returns record
            ∧ dict_get record "id" VNone = VStr (tc_id login_case)
            ∧ dict_get record "name" VNone = VStr (tc_name login_case)
            ∧ dict_get record "passed" VNone = VBool passed
      | Raises e => outcome = Raises e
      end.
Proof.
  apply (worker_closes_its_client refusing_env (py := example_builtins)
           login_suite login_case []).
  by exists tt.
Defined.

(** X20: when [connect] raises, the worker neither loads the application nor
    runs a step of the case, and when [connect] returns but [launch_app]
    raises it runs no step: after the operation that raised only [close]
    follows.  The message of the exception is the error of the record the
    worker returns, which counts as failed. *)
Theorem worker_reports_failed_session (env : Env) {py : PyBuiltins}
    (suite : E2ETestSuite) (test_case : E2ETestCase) (w : World) (e : exn) :
  (∃ u, factory_answer env w = Returns u) →
  let client := count_events is_new w in
  let w0 := w ++ [EvNew FromFactory client] in
  let launch := Client.launch_app (IsStr (app_url suite)) in
  let closed w1 :=
    (w1 ++ [EvCall client Client.close],
     match client_answer env w1 client Client.close with
     | Returns _ => Returns (worker_failure test_case e)
     | Raises e' => Raises e'
     end) in
  (client_answer env w0 client Client.connect = Raises e →
   run_with_semaphore env suite test_case w
   = closed (w0 ++ [EvCall client Client.connect]))
  ∧ ((∃ u, client_answer env w0 client Client.connect = Returns u) →
     client_answer env (w0 ++ [EvCall client Client.connect]) client launch
     = Raises e →
     run_with_semaphore env suite test_case w
     = closed (w0 ++ [EvCall client Client.connect; EvCall client launch])).
Proof.
  intros Hfactory client w0 launch closed.
  rewrite (worker_unfold env suite test_case w Hfactory).
  fold client w0 launch. unfold call. unfold_M. split.
  - by intros ->.
  - intros [u ->] ->. unfold closed. cbn [fst snd].
    by rewrite <- (app_assoc w0 [_] [_]).
Qed.

Lemma worker_reports_failed_session_witness :
  run_with_semaphore refusing_env (py := example_builtins) login_suite
    login_case []
  = ([EvNew FromFactory 0; EvCall 0%nat Client.connect;
      EvCall 0%nat Client.close],
     Returns (worker_failure login_case
                (Exn RuntimeError "connection refused"))).
Proof.
  apply (worker_reports_failed_session refusing_env (py := example_builtins)
           login_suite login_case [] (Exn RuntimeError "connection refused")).
  - by exists tt.
  - reflexivity.
Defined.

(** ** smoke_tests.py *)

(** X21: the conversion of a smoke result is consistent: four checks, as
    many failure records as failed checks, passed exactly when each of the
    four flags is set, and then without failure record.  The messages in
    [errors] play no part. *)
Theorem smoke_conversion_is_consistent (smoke : SmokeTestResult) :
  let result := smoke_result_to_e2e_result smoke in
  total_checks result = 4
  ∧ passed_checks result + failed_checks result = 4
  ∧ Z.of_nat (length (failures result)) = failed_checks result
  ∧ (passed result = true
     ↔ app_loads smoke = true ∧ main_page_renders smoke = true
       ∧ no_console_errors smoke = true ∧ health_check_passed smoke = true)
  ∧ (passed result = true ↔ failures result = []).
Proof.
  destruct smoke as [[] [] [] [] errs]; vm_compute;
    repeat split; try done; intros; tauto || (by intuition).
Qed.

(** The case analysis of the console and health checks of a smoke run. *)
Ltac smoke_cases :=
  repeat (cbn;
    match goal with
    | |- context [client_answer ?env ?w ?c (Client._mcp_call ?m ?p)] =>
        let v := fresh "v" in
        let Hanswer := fresh "Hanswer" in
        destruct (client_answer env w c (Client._mcp_call m p))
          as [v|?] eqn:Hanswer
    | |- context [if truthy ?v then _ else _] => destruct (truthy v) eqn:?
    | |- context [if String.prefix ?a ?b then _ else _] =>
        destruct (String.prefix a b) eqn:?
    | |- context [match ?t with IsStr _ => _ | IsPath _ => _ end] =>
        destruct t
    | |- context [match ?v with VDict _ => _ | _ => _ end] => destruct v
    end).

Section SmokeTrace.
Context (env : Env) {py : PyBuiltins}.

(** The loop over the selectors checks a prefix of them, and tells whether
    the last one checked was visible. *)
Lemma first_visible_trace (client : nat) (selectors : list string) :
  ∀ w, ∃ k visible,
    first_visible env client selectors w
    = (w ++ ((λ sel, EvCall client (Client.assert_visible sel))
               <$> take k selectors),
       Returns visible).
Proof.
  induction selectors as [|sel rest IH]; intros w.
  - exists 0%nat, false. simpl. by rewrite app_nil_r.
  - simpl. unfold call. unfold_M.
    destruct (client_answer env w client (Client.assert_visible sel))
      as [[]|e].
    + by exists 1%nat, true.
    + destruct (IH (w ++ [EvCall client (Client.assert_visible sel)]))
        as (k & visible & ->).
      exists (S k), visible. by rewrite <- app_assoc.
    + destruct (IH (w ++ [EvCall client (Client.assert_visible sel)]))
        as (k & visible & ->).
      exists (S k), visible. by rewrite <- app_assoc.
Qed.
End SmokeTrace.

(** X22: the operations of a smoke run, in order: the load of the
    application, visibility checks of the first [k] of the five root
    selectors, the request for the console errors, and the request for the
    health endpoint when the target is an [http] address.  So a smoke run
    invokes at most eight operations, all on its client, and never
    [connect] or [close].  When the application did not load, no visibility
    check is made and the page counts as not rendered; a page that counts as
    not rendered always leaves a message in [errors]. *)
Theorem smoke_tests_operations (env : Env) {py : PyBuiltins} (client : nat)
    (target : StrOrPath) (w : World) :
  ∃ k smoke,
    run_smoke_tests env client target w
    = (w ++ [EvCall client (Client.launch_app target)]
         ++ render_probes client k
         ++ [EvCall client (Client._mcp_call "getConsoleErrors" [])]
         ++ health_probe client target,
       Returns smoke)
    ∧ (k <= 5)%nat
    ∧ (app_loads smoke = true
       ↔ client_answer env w client (Client.launch_app target) = Returns true)
    ∧ (app_loads smoke = false →
       k = 0%nat ∧ main_page_renders smoke = false ∧ errors smoke ≠ [])
    ∧ (main_page_renders smoke = false → errors smoke ≠ []).
Proof.
  unfold run_smoke_tests, render_probes.
  set (sels := root_selectors).
  assert (Hsels : length sels = 5%nat) by done. clearbody sels.
  unfold call. unfold_M.
  set (w0 := w ++ [EvCall client (Client.launch_app target)]).
  assert (Htake : ∀ k, take (k `min` 5) sels = take k sels).
  { intros k. destruct (decide (k ≤ 5)%nat); [by rewrite Nat.min_l|].
    rewrite Nat.min_r by lia. by rewrite !take_ge by lia. }
  destruct (client_answer env w client (Client.launch_app target))
    as [[]|e] eqn:Hlaunch; cbn.
  1: destruct (first_visible_trace env client sels w0) as (k & visible & ->);
     exists (k `min` 5)%nat; rewrite Htake; destruct visible; cbn.
  3, 4: exists 0%nat; rewrite take_0, fmap_nil; cbn [app].
  all: smoke_cases.
  all: eexists; (split; [unfold w0; rewrite <- ?app_assoc; reflexivity|]).
  all: split; [lia|]; cbn; split; [done|].
  all: split; [try done; intros _; repeat split; done|].
  all: done.
Qed.

(** X23: the console check and the health check are optional: each fails on
    a finding only.  The console check fails only when the client returned
    console errors (a true value); the health check fails only when the
    target is an [http] address and the client returned a dict whose status
    is not 200.  A client that raises on these requests, or returns
    something else, passes both. *)
Theorem smoke_optional_checks_fail_on_findings (env : Env) {py : PyBuiltins}
    (client : nat) (target : StrOrPath) (w : World) :
  ∃ w' smoke,
    run_smoke_tests env client target w = (w', Returns smoke)
    ∧ (no_console_errors smoke = false →
       ∃ w1 console_errors,
         client_answer env w1 client (Client._mcp_call "getConsoleErrors" [])
         = Returns console_errors
         ∧ truthy console_errors = true)
    ∧ (health_check_passed smoke = false →
       ∃ w1 url health_response,
         target = IsStr url
         ∧ String.prefix "http" url = true
         ∧ client_answer env w1 client
             (Client._mcp_call "fetch"
                [("url", VStr (rstrip_slash url +:+ "/health"))])
           = Returns (VDict health_response)
         ∧ is_200 (dict_get health_response "status" (VInt 0)) = false).
Proof.
  unfold run_smoke_tests.
  set (sels := root_selectors). clearbody sels.
  unfold call. unfold_M.
  set (w0 := w ++ [EvCall client (Client.launch_app target)]).
  destruct (client_answer env w client (Client.launch_app target))
    as [[]|e] eqn:Hlaunch; cbn.
  1: destruct (first_visible_trace env client sels w0) as (k & visible & ->);
     destruct visible; cbn.
  all: smoke_cases.
  all: eexists _, _; (split; [reflexivity|]); cbn.
  all: split; intros Hfailed; try discriminate Hfailed.
  all: eauto 10.
Qed.

(** ** complexity_aware_validation.py: the FEATURE branch *)

Section FeatureOrchestration.
Context (env : Env) {py : PyBuiltins}.
Context (run_full_suite : E2ETestSuite -> FullSuiteConfig -> M E2EValidationResult).

(** The loop over the selected test cases never raises, counts each case
    once, as passed or as failed, and keeps one record per failed case. *)
Lemma run_filtered_cases_counts (client : nat) (todo : list E2ETestCase) :
  ∀ (passed_count failed_count : Z) (failures : list PyDict) (w : World),
  ∃ w' passed_count' failed_count' failures',
    run_filtered_cases env client todo passed_count failed_count failures w
    = (w', Returns (passed_count', failed_count', failures'))
    ∧ passed_count' + failed_count'
      = passed_count + failed_count + Z.of_nat (length todo)
    ∧ passed_count <= passed_count'
    ∧ failed_count <= failed_count'
    ∧ Z.of_nat (length failures')
      = Z.of_nat (length failures) + (failed_count' - failed_count).
Proof.
  induction todo as [|test_case rest IH]; intros p f fl w.
  - exists w, p, f, fl. simpl. repeat split; lia.
  - simpl. unfold_M.
    destruct (run_test_case_never_raises env client test_case w)
      as (w1 & record & ->).
    destruct (truthy (dict_get record "passed" (VBool false))).
    + destruct (IH (p + 1) f fl w1) as (w' & p' & f' & fl' & -> & ? & ? & ? & ?).
      exists w', p', f', fl'. repeat split; lia.
    + destruct (IH p (f + 1) (fl ++ [record]) w1)
        as (w' & p' & f' & fl' & -> & ? & ? & ? & Hfl).
      exists w', p', f', fl'. rewrite length_app in Hfl. simpl in Hfl.
      repeat split; lia.
Qed.

Lemma feature_run_unfold (tier : string) (suite : E2ETestSuite)
    (changed_files : option (list string)) (w : World)
    (config : ValidationDepthConfig) :
  validation_config_file env (w ++ [EvNow]) = Returns config →
  get_validation_depth_for_tier tier (Some config) = FEATURE →
  run_complexity_aware_validation env run_full_suite tier suite changed_files w
  = match feature_mappings_file env (resolved w) with
    | Raises e => (mapped w, Raises e)
    | Returns feature_mappings =>
        let '(filtered_suite, skipped_count) :=
          feature_selection suite changed_files feature_mappings in
        match feature_session env filtered_suite (mapped w) with
        | (w1, Raises e) => (w1, Raises e)
        | (w1, Returns result) =>
            (w1 ++ [EvNow],
             Returns (result,
                      {| tier := tier; depth := "feature";
                         test_count := total_checks result;
                         passed_count := passed_checks result;
                         failed_count := failed_checks result;
                         duration_seconds := clock env w1 - clock env w;
                         skipped_test_count := skipped_count;
                         browser_count := 1 |}))
        end
    end.
Proof.
  intros Hconfig Hdepth.
  unfold run_complexity_aware_validation, feature_session, mapped, resolved.
  unfold now, load_validation_config, load_feature_mappings.
  unfold mbind at 1 2 3. unfold M_bind. unfold bind at 1 2 3.
  rewrite Hconfig, Hdepth. cbv beta.
  unfold mbind at 1. unfold M_bind. unfold bind at 1.
  destruct (feature_mappings_file env _) as [feature_mappings|e]; [|done].
  unfold feature_selection.
  destruct changed_files as [[|file files]|]; cbv zeta beta iota.
  2: generalize (filter_tests_by_features suite
                   (get_affected_features (file :: files) feature_mappings)
                   feature_mappings); intros filtered_suite.
  all: unfold client_factory, new_client, call; unfold_M.
  all: destruct (factory_answer env _) as [[]|e]; [|done]; cbn.
  all: destruct (client_answer env _ _ Client.connect) as [connected|e]; cbn;
         [|by destruct (client_answer env _ _ Client.close) as [[]|e']].
  all: destruct (client_answer env _ _ (Client.launch_app _)) as [loaded|e];
         cbn; [|by destruct (client_answer env _ _ Client.close) as [[]|e']].
  all: destruct (run_filtered_cases env _ _ 0 0 [] _)
         as [w4 [[[p f] fl]|e]]; cbn;
         by destruct (client_answer env w4 _ Client.close) as [[]|e'].
Qed.

(** What a session of the FEATURE branch that returns, returns. *)
Lemma feature_session_result (filtered_suite : E2ETestSuite) (w w1 : World)
    (result : E2EValidationResult) :
  feature_session env filtered_suite w = (w1, Returns result) →
  total_checks result = Z.of_nat (length (test_cases filtered_suite))
  ∧ passed_checks result + failed_checks result = total_checks result
  ∧ 0 <= passed_checks result
  ∧ 0 <= failed_checks result
  ∧ Z.of_nat (length (failures result)) = failed_checks result
  ∧ (passed result = true ↔ failed_checks result = 0).
Proof.
  unfold feature_session, client_factory, new_client, call. unfold_M.
  destruct (factory_answer env _) as [[]|e]; [|done]. cbn.
  destruct (client_answer env _ _ Client.connect) as [connected|e]; cbn;
    [|by destruct (client_answer env _ _ Client.close) as [[]|e']].
  destruct (client_answer env _ _ (Client.launch_app _)) as [loaded|e];
    cbn; [|by destruct (client_answer env _ _ Client.close) as [[]|e']].
  match goal with
  | |- context [run_filtered_cases env ?c ?todo 0 0 [] ?w0] =>
      destruct (run_filtered_cases_counts c todo 0 0 [] w0)
        as (w4 & p & f & fl & -> & Hsum & Hp & Hf & Hfl)
  end. cbn.
  destruct (client_answer env w4 _ Client.close) as [[]|e']; [|done].
  intros [= _ <-]. cbn in *. rewrite Z.eqb_eq. repeat split; lia.
Qed.

Lemma feature_session_returns (filtered_suite : E2ETestSuite) (w : World) :
  session_runs env →
  ∃ w1 result, feature_session env filtered_suite w = (w1, Returns result).
Proof.
  intros [(Hfactory & Hconnect & Hclose) Hlaunch].
  unfold feature_session, client_factory, new_client, call. unfold_M.
  rewrite Hfactory. cbn.
  match goal with
  | |- context [client_answer env ?w0 ?c Client.connect] =>
      destruct (Hconnect w0 c) as [connected ->]
  end. cbn.
  match goal with
  | |- context [client_answer env ?w0 ?c (Client.launch_app ?t)] =>
      destruct (Hlaunch w0 c t) as [loaded ->]
  end. cbn.
  match goal with
  | |- context [run_filtered_cases env ?c ?todo 0 0 [] ?w0] =>
      destruct (run_filtered_cases_counts c todo 0 0 [] w0)
        as (w4 & p & f & fl & -> & _)
  end. cbn.
  rewrite Hclose. eauto.
Qed.

(** The filtered suite is never larger than the suite: a test case is
    selected by its id or as critical, not both. *)
Lemma filtered_suite_length (suite : E2ETestSuite)
    (affected_features : list string) (feature_mappings : list FeatureMapping) :
  (length (test_cases (filter_tests_by_features suite affected_features
                         feature_mappings))
   <= length (test_cases suite))%nat.
Proof.
  unfold filter_tests_by_features. cbn [test_cases].
  generalize (relevant_test_ids affected_features feature_mappings).
  intros relevant. rewrite length_app.
  induction (test_cases suite) as [|tc rest IH]; [done|].
  rewrite !filter_cons.
  destruct (decide (tc_id tc ∈ relevant)) as [Hin|Hout];
    destruct (decide (critical tc = true ∧ tc_id tc ∉ relevant))
      as [[_ Hnot]|_]; simpl; try lia.
  by destruct Hnot.
Qed.

(** X24: at FEATURE depth the orchestrator accounts for every test case of
    the suite.  A run that returns reports as many checks as the selected
    cases, each counted once as passed or as failed, one failure record per
    failed case, and passed exactly when no case failed; the skipped count
    and the test count of the metrics add up to the size of the suite, and
    nothing is skipped when no changed file is given.  The run returns as
    soon as the mappings load and the factory, [connect], [launch_app] and
    [close] do not raise: a failing test case never makes it raise. *)
Theorem feature_depth_accounts_for_every_case (tier : string)
    (suite : E2ETestSuite) (changed_files : option (list string)) (w : World)
    (config : ValidationDepthConfig) :
  validation_config_file env (w ++ [EvNow]) = Returns config →
  get_validation_depth_for_tier tier (Some config) = FEATURE →
  (∀ w' result metrics,
     run_complexity_aware_validation env run_full_suite tier suite
       changed_files w = (w', Returns (result, metrics)) →
     passed_checks result + failed_checks result = total_checks result
     ∧ 0 <= passed_checks result
     ∧ 0 <= failed_checks result
     ∧ Z.of_nat (length (failures result)) = failed_checks result
     ∧ (passed result = true ↔ failed_checks result = 0)
     ∧ test_count metrics = total_checks result
     ∧ skipped_test_count metrics + test_count metrics
       = Z.of_nat (length (test_cases suite))
     ∧ 0 <= skipped_test_count metrics
     ∧ (changed_files = None ∨ changed_files = Some [] →
        skipped_test_count metrics = 0))
  ∧ ((∃ feature_mappings,
        feature_mappings_file env (resolved w) = Returns feature_mappings) →
     session_runs env →
     ∃ w' result metrics,
       run_complexity_aware_validation env run_full_suite tier suite
         changed_files w = (w', Returns (result, metrics))).
Proof.
  intros Hconfig Hdepth.
  rewrite (feature_run_unfold tier suite changed_files w config Hconfig Hdepth).
  split.
  - intros w' result metrics.
    destruct (feature_mappings_file env (resolved w)) as [feature_mappings|e];
      [|done].
    destruct (feature_selection suite changed_files feature_mappings)
      as [filtered_suite skipped_count] eqn:Hselection.
    destruct (feature_session env filtered_suite (mapped w))
      as [w1 [r|e]] eqn:Hsession; [|done].
    intros [= <- <- <-]. cbn.
    destruct (feature_session_result _ _ _ _ Hsession)
      as (Htotal & Hsum & Hp & Hf & Hfl & Hpassed).
    assert (Hskipped : skipped_count + Z.of_nat (length (test_cases filtered_suite))
                       = Z.of_nat (length (test_cases suite))
                       ∧ 0 <= skipped_count
                       ∧ (changed_files = None ∨ changed_files = Some [] →
                          skipped_count = 0)).
    { revert Hselection. unfold feature_selection.
      destruct changed_files as [[|file files]|]; cbv zeta; intros Heq.
      - assert (filtered_suite = suite) as -> by congruence.
        assert (skipped_count = 0) as -> by congruence.
        split; [lia|]. by split.
      - pose proof (filtered_suite_length suite
                      (get_affected_features (file :: files) feature_mappings)
                      feature_mappings) as Hle.
        revert Heq Hle.
        generalize (filter_tests_by_features suite
                      (get_affected_features (file :: files) feature_mappings)
                      feature_mappings).
        intros filtered Heq Hle.
        assert (filtered_suite = filtered) as -> by congruence.
        assert (skipped_count
                = Z.of_nat (length (test_cases suite))
                  - Z.of_nat (length (test_cases filtered))) as ->
          by congruence.
        split; [lia|]. split; [lia|]. by intros [|].
      - assert (filtered_suite = suite) as -> by congruence.
        assert (skipped_count = 0) as -> by congruence.
        split; [lia|]. by split. }
    destruct Hskipped as (? & ? & ?). rewrite Htotal.
    repeat split; try done; try lia; by apply Hpassed.
  - intros [feature_mappings ->] Hruns.
    destruct (feature_selection suite changed_files feature_mappings)
      as [filtered_suite skipped_count].
    destruct (feature_session_returns filtered_suite (mapped w) Hruns)
      as (w1 & result & ->). eauto.
Qed.
End FeatureOrchestration.

Lemma feature_depth_accounts_for_every_case_witness :
  ∃ w' result metrics,
    run_complexity_aware_validation (example_env 0) (py := example_builtins)
      no_full_suite "standard" mixed_suite (Some ["src/auth/login.ts"]) []
    = (w', Returns (result, metrics))
    ∧ passed_checks result + failed_checks result = total_checks result
    ∧ skipped_test_count metrics + test_count metrics = 2.
Proof.
  destruct (feature_depth_accounts_for_every_case (example_env 0)
              (py := example_builtins) no_full_suite "standard" mixed_suite
              (Some ["src/auth/login.ts"]) []
              default_ValidationDepthConfig eq_refl eq_refl)
    as [Hcounts Hreturns].
  assert (Hruns : session_runs (example_env 0)).
  { repeat split; intros; by eexists. }
  destruct (Hreturns (ex_intro _ [] eq_refl) Hruns)
    as (w' & result & metrics & Hrun).
  exists w', result, metrics. split; [exact Hrun|].
  destruct (Hcounts w' result metrics Hrun) as (? & _ & _ & _ & _ & _ & ? & _).
  by split.
Defined.

Section ClientLife.
Context (env : Env) {py : PyBuiltins}.

Lemma first_visible_adds (client : nat) (selectors : list string) :
  adds_only (step_event client) (first_visible env client selectors).
Proof.
  induction selectors as [|sel rest IH]; simpl; [apply adds_only_ret|].
  apply adds_only_bind.
  - apply adds_only_attempt.
    refine (adds_only_call env _ client (Client.assert_visible sel) _).
    by apply step_event_intro.
  - intros [[]|e]; [apply adds_only_ret|exact IH|exact IH].
Qed.

Lemma run_smoke_tests_adds (client : nat) (target : StrOrPath) :
  adds_only (step_event client) (run_smoke_tests env client target).
Proof.
  unfold run_smoke_tests.
  apply adds_only_bind.
  { apply adds_only_attempt.
    refine (adds_only_call env _ client (Client.launch_app target) _).
    by apply step_event_intro. }
  intros r1.
  destruct (match r1 with Returns true => _ | _ => _ end) as [loads errs1].
  apply adds_only_bind.
  { destruct loads; [|apply adds_only_ret].
    apply adds_only_bind;
      [apply adds_only_attempt, first_visible_adds|].
    intros r. apply adds_only_ret. }
  intros r2.
  destruct (match r2 with None => _ | _ => _ end) as [renders errs2].
  apply adds_only_bind.
  { apply adds_only_attempt.
    refine (adds_only_call env _ client (Client._mcp_call _ _) _).
    by apply step_event_intro. }
  intros r3.
  destruct (match r3 with Returns _ => _ | _ => _ end) as [quiet errs3].
  apply adds_only_bind; [|intros healthy; apply adds_only_ret].
  destruct target as [url|path]; [|apply adds_only_ret].
  destruct (String.prefix "http" url); [|apply adds_only_ret].
  apply adds_only_bind.
  { apply adds_only_attempt.
    refine (adds_only_call env _ client (Client._mcp_call _ _) _).
    by apply step_event_intro. }
  intros [[]|e]; apply adds_only_ret.
Qed.

Lemma run_filtered_cases_adds (client : nat) (todo : list E2ETestCase) :
  ∀ (passed_count failed_count : Z) (failures : list PyDict),
  adds_only (step_event client)
    (run_filtered_cases env client todo passed_count failed_count failures).
Proof.
  induction todo as [|test_case rest IH]; intros p f fl; simpl;
    [apply adds_only_ret|].
  apply adds_only_bind; [apply run_test_case_adds|].
  intros record. destruct (truthy _); apply IH.
Qed.

Lemma step_event_session (client : nat) (e : Event) :
  step_event client e → session_event client e.
Proof. intros (op & -> & _ & Hclose). by exists op. Qed.

(** [client = client_factory()  try: body  finally: await client.close()]:
    no client when the factory raises, and else the life of one client. *)
Lemma factory_session {A} (body : nat → M A) (w : World) :
  (∀ client, adds_only (session_event client) (body client)) →
  let run := (client ← client_factory env;
              try_finally (body client) (call env client Client.close)) in
  fst (run w) = w
  ∨ ∃ events, fst (run w) = w ++ events
              ∧ client_life (count_events is_new w) events.
Proof.
  intros Hbody run. unfold run, client_factory, new_client.
  unfold mbind, M_bind, bind.
  destruct (factory_answer env w) as [[]|e]; [|by left]. right.
  set (client := count_events is_new w).
  destruct (Hbody client (w ++ [EvNew FromFactory client]))
    as (session & Hw & Hsession).
  exists ([EvNew FromFactory client] ++ session
          ++ [EvCall client Client.close]).
  split; [|by exists session].
  unfold try_finally, call.
  destruct (body client (w ++ [EvNew FromFactory client])) as [w1 o].
  simpl in Hw. subst w1.
  destruct (client_answer env _ client Client.close) as [[]|e];
    simpl; by rewrite <- !app_assoc.
Qed.
End ClientLife.

(** X25: at SMOKE and at FEATURE depth the orchestrator leaks no client.  The
    history of a run, whether it returns or raises, is: clock and
    configuration reads; then either nothing (the factory or the loading of
    the mappings raised) or the life of exactly one client, created by the
    factory and closed as its last operation, with no operation of another
    client and no second [close] in between; then at most the final clock
    read. *)
Theorem orchestrator_closes_its_client (env : Env) {py : PyBuiltins}
    (run_full_suite : E2ETestSuite -> FullSuiteConfig -> M E2EValidationResult)
    (tier : string) (suite : E2ETestSuite)
    (changed_files : option (list string)) (w : World)
    (config : ValidationDepthConfig) :
  validation_config_file env (w ++ [EvNow]) = Returns config →
  get_validation_depth_for_tier tier (Some config) ≠ FULL →
  ∃ pre events post,
    fst (run_complexity_aware_validation env run_full_suite tier suite
           changed_files w)
    = w ++ pre ++ events ++ post
    ∧ Forall bookkeeping pre
    ∧ Forall bookkeeping post
    ∧ (events = [] ∨ client_life (count_events is_new w) events).
Proof.
  intros Hconfig Hdepth.
  assert (Hnow : bookkeeping EvNow) by by left.
  assert (Hload : ∀ file, bookkeeping (EvLoad file)) by (by right; eexists).
  destruct (get_validation_depth_for_tier tier (Some config)) eqn:Hd; [| |done].
  - rewrite (smoke_run_unfold env run_full_suite tier suite changed_files w
               config Hconfig Hd).
    exists [EvNow; EvLoad ".auto-claude/validation-config.json"].
    destruct (factory_session env
                (λ client,
                   call env client Client.connect;;
                   smoke_result ← run_smoke_tests env client
                                    (IsStr (app_url suite));
                   mret (smoke_result_to_e2e_result smoke_result))
                (resolved w)) as [Hw|(events & Hw & Hlife)].
    { intros client. apply adds_only_bind;
        [refine (adds_only_call env _ client Client.connect _); by eexists|].
      intros _. apply adds_only_bind; [|intros ?; apply adds_only_ret].
      eapply adds_only_weaken; [apply step_event_session|].
      apply run_smoke_tests_adds. }
    + fold (smoke_branch env (app_url suite)) in Hw.
      destruct (smoke_branch env (app_url suite) (resolved w)) as [w1 [r|e]];
        simpl in Hw; subst w1; unfold resolved.
      * exists [], [EvNow]. simpl. rewrite <- !app_assoc.
        repeat split; auto.
      * exists [], []. simpl. rewrite <- !app_assoc. repeat split; auto.
    + fold (smoke_branch env (app_url suite)) in Hw.
      assert (Hcount : count_events is_new (resolved w) = count_events is_new w).
      { unfold resolved. rewrite !count_events_app. unfold count_events. simpl. lia. }
      rewrite Hcount in Hlife.
      destruct (smoke_branch env (app_url suite) (resolved w)) as [w1 [r|e]];
        simpl in Hw; subst w1; unfold resolved.
      * exists events, [EvNow]. simpl. rewrite <- !app_assoc.
        repeat split; auto.
      * exists events, []. simpl. rewrite <- !app_assoc, app_nil_r.
        repeat split; auto.
  - rewrite (feature_run_unfold env run_full_suite tier suite changed_files w
               config Hconfig Hd).
    exists [EvNow; EvLoad ".auto-claude/validation-config.json";
            EvLoad ".auto-claude/feature-mappings.json"].
    destruct (feature_mappings_file env (resolved w)) as [feature_mappings|e].
    2: { exists [], []. unfold mapped, resolved. simpl.
         rewrite <- !app_assoc. repeat split; auto. }
    destruct (feature_selection suite changed_files feature_mappings)
      as [filtered_suite skipped_count].
    assert (Hcount : count_events is_new (mapped w) = count_events is_new w).
    { unfold mapped, resolved. rewrite !count_events_app. unfold count_events. simpl. lia. }
    destruct (factory_session env
                (λ client,
                   call env client Client.connect;;
                   call env client
                     (Client.launch_app (IsStr (app_url filtered_suite)));;
                   counts ← run_filtered_cases env client
                              (test_cases filtered_suite) 0 0 [];
                   let '(passed_count, failed_count, failures) := counts in
                   mret (mkE2EValidationResult (failed_count =? 0)
                           (Z.of_nat (length (test_cases filtered_suite)))
                           passed_count failed_count failures ""))
                (mapped w)) as [Hw|(events & Hw & Hlife)].
    { intros client. apply adds_only_bind;
        [refine (adds_only_call env _ client Client.connect _); by eexists|].
      intros _. apply adds_only_bind;
        [refine (adds_only_call env _ client (Client.launch_app _) _);
         by eexists|].
      intros _. apply adds_only_bind;
        [|intros [[p f] fl]; apply adds_only_ret].
      eapply adds_only_weaken; [apply step_event_session|].
      apply run_filtered_cases_adds. }
    + fold (feature_session env filtered_suite) in Hw.
      destruct (feature_session env filtered_suite (mapped w)) as [w1 [r|e]];
        simpl in Hw; subst w1; unfold mapped, resolved.
      * exists [], [EvNow]. simpl. rewrite <- !app_assoc.
        repeat split; auto.
      * exists [], []. simpl. rewrite <- !app_assoc. repeat split; auto.
    + fold (feature_session env filtered_suite) in Hw.
      rewrite Hcount in Hlife.
      destruct (feature_session env filtered_suite (mapped w)) as [w1 [r|e]];
        simpl in Hw; subst w1; unfold mapped, resolved.
      * exists events, [EvNow]. simpl. rewrite <- !app_assoc.
        repeat split; auto.
      * exists events, []. simpl. rewrite <- !app_assoc, app_nil_r.
        repeat split; auto.
Qed.

Lemma orchestrator_closes_its_client_witness :
  ∃ pre events post,
    fst (run_complexity_aware_validation (example_env 0)
           (py := example_builtins) no_full_suite "Simple" mixed_suite None [])
    = [] ++ pre ++ events ++ post
    ∧ Forall bookkeeping pre
    ∧ Forall bookkeeping post
    ∧ (events = [] ∨ client_life (count_events is_new []) events).
Proof.
  apply (orchestrator_closes_its_client (example_env 0)
           (py := example_builtins) no_full_suite "Simple" mixed_suite None []
           default_ValidationDepthConfig).
  - reflexivity.
  - discriminate.
Defined.

(** ** availability.py *)

(** The opening test of a check returns: the cached value of the backend,
    or nothing. *)
Lemma fresh_cache_cases (env : Env) (b : Backend)
    (self : MCPAvailabilityChecker) (force : bool) (w : World) :
  ∃ w0, fresh_cache env b self force w = (w0, Returns None)
        ∨ ∃ cached, fresh_cache env b self force w = (w0, Returns (Some cached))
                    ∧ cache_of b self = Some cached.
Proof.
  unfold fresh_cache, now. unfold_M.
  destruct force; simpl; [by exists w; left|].
  destruct (cache_of b self) as [cached|]; [|by exists w; left].
  exists (w ++ [EvNow]).
  destruct (_ <? _); [right; by exists cached|by left].
Qed.

(** X26: a check never raises, and what it returns is what the checker holds
    for that backend afterwards.  The cached value of the other backend and
    the cache duration are left as they were. *)
Theorem check_caches_what_it_returns (env : Env) (b : Backend)
    (self : MCPAvailabilityChecker) (force : bool) (w : World) :
  ∃ w' a self',
    check_mcp env b self force w = (w', Returns (a, self'))
    ∧ cache_of b self' = Some a
    ∧ (∀ b', b' ≠ b → cache_of b' self' = cache_of b' self)
    ∧ _cache_duration self' = _cache_duration self.
Proof.
  destruct (fresh_cache_cases env b self force w)
    as (w0 & [Hfresh|(cached & Hfresh & Hcached)]).
  - destruct (check_mcp_probes env b self force w w0 Hfresh) as (a & -> & _).
    eexists _, a, _. split; [done|].
    split; [by destruct b|]. split; [|by destruct b].
    intros b' Hb'. by destruct b, b'.
  - exists w0, cached, self. split; [|done].
    unfold check_mcp, mbind, M_bind, bind. by rewrite Hfresh.
Qed.

(** X27: when a probe is due.  A check probes the backend (it creates one
    client and attempts one [connect]) and replaces the cached value by what
    it found, when the check is forced, when nothing is cached for the
    backend, in particular after [clear_cache], and when the cached value
    is as old as the cache duration or older: the value is fresh only while
    its age is strictly below the duration. *)
Theorem due_check_probes (env : Env) (b : Backend)
    (self : MCPAvailabilityChecker) (force : bool) (w : World) :
  force = true
  ∨ cache_of b self = None
  ∨ (∃ self0, self = clear_cache self0)
  ∨ (∃ cached, cache_of b self = Some cached
               ∧ _cache_duration self <= clock env w - checked_at cached) →
  ∃ w' a,
    check_mcp env b self force w = (w', Returns (a, set_cache b self a))
    ∧ count_events is_new w' = S (count_events is_new w)
    ∧ count_events is_connect_call w' = S (count_events is_connect_call w).
Proof.
  intros Hdue.
  assert (Hfresh : ∃ w0, fresh_cache env b self force w = (w0, Returns None)).
  { destruct Hdue as [Hforce|[Hnone|[[self0 ->]|(cached & Hcached & Hold)]]].
    - exists w. apply fresh_cache_miss. by left.
    - exists w. apply fresh_cache_miss. by right.
    - exists w. apply fresh_cache_miss. right. by destruct b.
    - destruct force.
      + exists w. apply fresh_cache_miss. by left.
      + exists (w ++ [EvNow]). by apply fresh_cache_stale with cached. }
  destruct Hfresh as [w0 Hfresh].
  destruct (check_mcp_probes env b self force w w0 Hfresh) as (a & -> & _).
  exists (w0 ++ probe_calls env b w0 ++ clock_reads (snd (probe env b w0))), a.
  split; [done|].
  rewrite !count_events_app, probe_calls_new, probe_calls_connect.
  rewrite !clock_reads_no_client by done.
  destruct (fresh_cache_history env b self force w w0 _ Hfresh) as [->| ->];
    rewrite ?count_events_app; unfold count_events; simpl; lia.
Qed.

Lemma due_check_probes_witness :
  ∃ w' a,
    check_mcp later_env Browser
      (clear_cache (set_cache Browser (new_MCPAvailabilityChecker 60)
                      browser_up)) false (fst first_check)
    = (w', Returns (a, set_cache Browser
                         (clear_cache (set_cache Browser
                                         (new_MCPAvailabilityChecker 60)
                                         browser_up)) a))
    ∧ count_events is_new w' = S (count_events is_new (fst first_check))
    ∧ count_events is_connect_call w'
      = S (count_events is_connect_call (fst first_check)).
Proof.
  apply (due_check_probes later_env Browser
           (clear_cache (set_cache Browser (new_MCPAvailabilityChecker 60)
                           browser_up)) false (fst first_check)).
  right. right. left. by eexists.
Defined.

(** X28: what a probing check reports.  The status is AVAILABLE or
    UNAVAILABLE, and AVAILABLE exactly when the probe returned true, which
    is also exactly when no reason is given.  A time to retry is given for
    SERVER_NOT_RUNNING (five minutes after a clock read) and for
    CONNECTION_TIMEOUT (one minute), and for no other reason. *)
Theorem probe_classification (env : Env) (b : Backend)
    (self : MCPAvailabilityChecker) (force : bool) (w w0 : World) :
  fresh_cache env b self force w = (w0, Returns None) →
  ∃ w' a self',
    check_mcp env b self force w = (w', Returns (a, self'))
    ∧ (status a = AVAILABLE ∨ status a = UNAVAILABLE)
    ∧ (status a = AVAILABLE ↔ snd (probe env b w0) = Returns true)
    ∧ (status a = AVAILABLE ↔ reason a = None)
    ∧ match reason a with
      | Some SERVER_NOT_RUNNING =>
          ∃ w1, retry_after a = Some (clock env w1 + minutes 5)
      | Some CONNECTION_TIMEOUT =>
          ∃ w1, retry_after a = Some (clock env w1 + minutes 1)
      | _ => retry_after a = None
      end.
Proof.
  intros Hfresh. unfold check_mcp, mbind, M_bind, bind. rewrite Hfresh.
  unfold attempt.
  destruct (probe env b w0) as [w1 [[]|[[] msg]]]; unfold classify, now;
    unfold_M; (eexists _, _, _; split; [reflexivity|]); cbn;
    (split; [auto|]); (split; [done|]); (split; [done|]); eauto.
Qed.

Lemma probe_classification_witness :
  ∃ w' a self',
    check_mcp (silent_env 7) Browser (new_MCPAvailabilityChecker 60) false []
    = (w', Returns (a, self'))
    ∧ (status a = AVAILABLE ∨ status a = UNAVAILABLE)
    ∧ (status a = AVAILABLE
       ↔ snd (probe (silent_env 7) Browser []) = Returns true)
    ∧ (status a = AVAILABLE ↔ reason a = None)
    ∧ match reason a with
      | Some SERVER_NOT_RUNNING =>
          ∃ w1, retry_after a = Some (clock (silent_env 7) w1 + minutes 5)
      | Some CONNECTION_TIMEOUT =>
          ∃ w1, retry_after a = Some (clock (silent_env 7) w1 + minutes 1)
      | _ => retry_after a = None
      end.
Proof.
  apply (probe_classification (silent_env 7) Browser
           (new_MCPAvailabilityChecker 60) false [] []).
  reflexivity.
Defined.

(** ** fallback.py: the reduced checks *)

(** The decision of [_run_unit_tests], marker by marker. *)
Lemma run_unit_tests_table (env : Env) (w : World) :
  let w1 := w ++ [EvExists "pytest.ini"] in
  let w2 := w1 ++ [EvExists "tests"] in
  let w3 := w2 ++ [EvExists "package.json"] in
  _run_unit_tests env w
  = if path_exists env w "pytest.ini"
    then launched env w1 ["pytest"; "-x"; "-q"]
    else if path_exists env w1 "tests"
    then launched env w2 ["pytest"; "-x"; "-q"]
    else if path_exists env w2 "package.json"
    then launched env w3 ["npm"; "test"]
    else (w3, Returns true).
Proof.
  unfold _run_unit_tests, exists_, subprocess_run, launched. unfold_M.
  destruct (path_exists env w "pytest.ini"); cbn;
    [by destruct (subprocess_returncode env _ _)|].
  destruct (path_exists env _ "tests"); cbn;
    [by destruct (subprocess_returncode env _ _)|].
  destruct (path_exists env _ "package.json"); cbn; [|done].
  by destruct (subprocess_returncode env _ _).
Qed.

(** The decision of [_run_lint], marker by marker. *)
Lemma run_lint_table (env : Env) (w : World) :
  let w1 := w ++ [EvExists "package.json"] in
  let w2 := w1 ++ [EvExists "pyproject.toml"] in
  _run_lint env w
  = if path_exists env w "package.json"
    then launched env w1 ["npm"; "run"; "lint"]
    else if path_exists env w1 "pyproject.toml"
    then launched env w2 ["ruff"; "check"; "."]
    else (w2, Returns true).
Proof.
  unfold _run_lint, exists_, subprocess_run, launched. unfold_M.
  destruct (path_exists env w "package.json"); cbn;
    [by destruct (subprocess_returncode env _ _)|].
  destruct (path_exists env _ "pyproject.toml"); cbn; [|done].
  by destruct (subprocess_returncode env _ _).
Qed.

(** X29: each reduced check looks at the project directory and launches at
    most one tool, as its last interaction, and reports whether the tool
    exited with 0; an exception of the launch is passed on.
    - [_run_unit_tests] looks for [pytest.ini], then [tests], then
      [package.json], and stops at the first that exists: for the first two
      it launches [pytest -x -q], for the third [npm test].
    - [_run_lint] looks for [package.json], then [pyproject.toml], and stops
      at the first that exists: for the first it launches [npm run lint],
      for the second [ruff check .].
    - When no marker is found, a check launches nothing and returns [True],
      whatever a tool would have answered.
    - The two checks order the ecosystems differently: with every marker
      present the unit tests run [pytest] and the linter runs
      [npm run lint]. *)
Theorem reduced_checks_launch_one_tool (env : Env) (w : World) :
  let ini := w ++ [EvExists "pytest.ini"] in
  let tests := ini ++ [EvExists "tests"] in
  let package := tests ++ [EvExists "package.json"] in
  let manifest := w ++ [EvExists "package.json"] in
  let pyproject := manifest ++ [EvExists "pyproject.toml"] in
  _run_unit_tests env w
  = (if path_exists env w "pytest.ini"
     then launched env ini ["pytest"; "-x"; "-q"]
     else if path_exists env ini "tests"
     then launched env tests ["pytest"; "-x"; "-q"]
     else if path_exists env tests "package.json"
     then launched env package ["npm"; "test"]
     else (package, Returns true))
  ∧ _run_lint env w
    = (if path_exists env w "package.json"
       then launched env manifest ["npm"; "run"; "lint"]
       else if path_exists env manifest "pyproject.toml"
       then launched env pyproject ["ruff"; "check"; "."]
       else (pyproject, Returns true))
  ∧ one_tool_check env [["pytest"; "-x"; "-q"]; ["npm"; "test"]]
      (_run_unit_tests env) w
  ∧ one_tool_check env [["npm"; "run"; "lint"]; ["ruff"; "check"; "."]]
      (_run_lint env) w
  ∧ (no_marker env →
     _run_unit_tests env w = (package, Returns true)
     ∧ _run_lint env w = (pyproject, Returns true))
  ∧ ((∀ w1 path, path_exists env w1 path = true) →
     fst (_run_unit_tests env w)
     = w ++ [EvExists "pytest.ini"; EvRun ["pytest"; "-x"; "-q"]]
     ∧ fst (_run_lint env w)
       = w ++ [EvExists "package.json"; EvRun ["npm"; "run"; "lint"]]).
Proof.
  intros ini tests package manifest pyproject.
  subst ini tests package manifest pyproject.
  pose proof (run_unit_tests_table env w) as Hunit.
  pose proof (run_lint_table env w) as Hlint. cbv zeta in Hunit, Hlint.
  assert (Hlook : ∀ path, existence_check (EvExists path)) by (by eexists).
  split; [exact Hunit|]. split; [exact Hlint|]. split; [|split; [|split]].
  - unfold one_tool_check. rewrite Hunit. unfold launched.
    destruct (path_exists env w "pytest.ini").
    { exists [EvExists "pytest.ini"]. split; [by repeat constructor|].
      right. exists ["pytest"; "-x"; "-q"]. split; [set_solver|].
      by rewrite <- app_assoc. }
    destruct (path_exists env _ "tests").
    { exists [EvExists "pytest.ini"; EvExists "tests"].
      split; [by repeat constructor|].
      right. exists ["pytest"; "-x"; "-q"]. split; [set_solver|].
      by rewrite <- !app_assoc. }
    exists [EvExists "pytest.ini"; EvExists "tests"; EvExists "package.json"].
    split; [by repeat constructor|].
    destruct (path_exists env _ "package.json").
    + right. exists ["npm"; "test"]. split; [set_solver|].
      by rewrite <- !app_assoc.
    + left. by rewrite <- !app_assoc.
  - unfold one_tool_check. rewrite Hlint. unfold launched.
    destruct (path_exists env w "package.json").
    { exists [EvExists "package.json"]. split; [by repeat constructor|].
      right. exists ["npm"; "run"; "lint"]. split; [set_solver|].
      by rewrite <- app_assoc. }
    exists [EvExists "package.json"; EvExists "pyproject.toml"].
    split; [by repeat constructor|].
    destruct (path_exists env _ "pyproject.toml").
    + right. exists ["ruff"; "check"; "."]. split; [set_solver|].
      by rewrite <- !app_assoc.
    + left. by rewrite <- !app_assoc.
  - intros Hnone. rewrite Hunit, Hlint.
    rewrite !Hnone; [done|set_solver..].
  - intros Hall. rewrite Hunit, Hlint, !Hall. unfold launched. simpl.
    by rewrite <- !app_assoc.
Qed.

Lemma reduced_checks_launch_one_tool_witness :
  (_run_unit_tests bare_env []
   = ([EvExists "pytest.ini"; EvExists "tests"; EvExists "package.json"],
      Returns true)
   ∧ _run_lint bare_env []
     = ([EvExists "package.json"; EvExists "pyproject.toml"], Returns true))
  ∧ fst (_run_unit_tests polyglot_env [])
    = [EvExists "pytest.ini"; EvRun ["pytest"; "-x"; "-q"]]
  ∧ fst (_run_lint polyglot_env [])
    = [EvExists "package.json"; EvRun ["npm"; "run"; "lint"]].
Proof.
  split.
  - apply (reduced_checks_launch_one_tool bare_env []). by intros w path _.
  - apply (reduced_checks_launch_one_tool polyglot_env []). reflexivity.
Defined.

(** ** errors.py *)

(** X30: the catalog has an entry for every failure reason, so the lookup
    falls back to the entry of UNKNOWN for a missing reason only ([None]);
    the codes of the entries are pairwise distinct; every entry links to a
    documentation page.  Formatted with its remediation, an entry reads: the
    warning sign, its message and code, an empty line, the line
    [Remediation:], the remediation text, an empty line and the link. *)
Theorem error_catalog_is_complete :
  (∀ r, errors_get MCP_ERRORS (Some r) = Some (get_error_for_reason (Some r)))
  ∧ get_error_for_reason None = get_error_for_reason (Some UNKNOWN)
  ∧ (∀ r1 r2, code (get_error_for_reason (Some r1))
              = code (get_error_for_reason (Some r2)) → r1 = r2)
  ∧ ∀ reason, ∃ url,
      let error := get_error_for_reason reason in
      docs_url error = Some url
      ∧ format_error_message reason true
        = warning_sign +:+ "  " +:+ err_message error
          +:+ " [" +:+ code error +:+ "]" +:+ nl +:+ nl
          +:+ "Remediation:" +:+ nl +:+ remediation error +:+ nl +:+ nl
          +:+ "Documentation: " +:+ url.
Proof.
  split; [by intros []|]. split; [done|]. split.
  - intros [] []; try done; intros Hcode; vm_compute in Hcode;
      discriminate Hcode.
  - intros [[]|]; eexists; (split; [reflexivity|]); vm_compute; reflexivity.
Qed.
